(** * Subscription service: the in-memory and the SQL-backed repository

    A shallow embedding of the Go packages [models] and [repository] of the
    subscription service, and the properties of the cost calculation, the
    filtered listing and the CRUD operations.

    Conventions.
    - A Go [int] is a 64-bit two's-complement integer: a [Z] together with
      the wrap-around of every arithmetic operation ([GoInt]).
    - A Go [string] is a sequence of bytes: [string].
    - [map[string]models.Subscription] is a [gmap string Subscription].
    - [time.Now()] is an explicit argument [now] of the operations that read
      the clock.
    - An [error] is the message it carries. *)

From stdpp Require Import gmap strings list fin_maps pretty.
From Stdlib Require Import ZArith Lia Ascii String Sorted.

Open Scope Z_scope.

(** ** Results of fallible functions: [(T, error)] with [err == nil] or not *)

Inductive result (A : Type) : Type :=
| Ok (a : A)
| Err (msg : string).
Arguments Ok {A} a.
Arguments Err {A} msg.

(** ** Go's [int] *)

Module GoInt.

Definition min_int : Z := - 2 ^ 63.
Definition max_int : Z := 2 ^ 63 - 1.

(** The value an exact integer result has once it is stored in an [int]. *)
Definition wrap (z : Z) : Z := (z + 2 ^ 63) mod 2 ^ 64 - 2 ^ 63.

Definition add (a b : Z) : Z := wrap (a + b).
Definition sub (a b : Z) : Z := wrap (a - b).
Definition mul (a b : Z) : Z := wrap (a * b).

Definition in_range (z : Z) : Prop := min_int <= z <= max_int.

End GoInt.

(** ** Package [strconv] *)

Module strconv.

(** [strconv.Itoa]: the decimal digits of the number, without leading
    zeros, after a minus sign when it is negative. *)
Definition Itoa (i : Z) : string := pretty i.

(** The value [ch - '0'] of a byte, when it is at most 9. *)
Definition digit_value (c : ascii) : option Z :=
  let ch := Z.of_N (N_of_ascii c) - 48 in
  if (0 <=? ch) && (ch <=? 9) then Some ch else None.

Definition ErrSyntax : string := "invalid syntax".
Definition ErrRange : string := "value out of range".

Definition maxUint64 : Z := 2 ^ 64 - 1.

(** The digit loop of [ParseUint(s, 10, 64)]: a byte that is no decimal
    digit is a syntax error; a value that leaves [uint64] is a range error
    and yields the largest value. *)
Fixpoint ParseUint_loop (n : Z) (s : string) : Z * option string :=
  match s with
  | EmptyString => (n, None)
  | String c s' =>
      match digit_value c with
      | None => (0, Some ErrSyntax)
      | Some d =>
          if maxUint64 / 10 + 1 <=? n then (maxUint64, Some ErrRange)
          else
            let n1 := n * 10 + d in
            if maxUint64 <? n1 then (maxUint64, Some ErrRange)
            else ParseUint_loop n1 s'
      end
  end.

Definition ParseUint (s : string) : Z * option string :=
  match s with
  | EmptyString => (0, Some ErrSyntax)
  | _ => ParseUint_loop 0 s
  end.

(** The part of [ParseInt(s, 10, 0)] after the sign has been picked off. *)
Definition ParseInt_signed (neg : bool) (s : string) : Z * option string :=
  let '(un, err) := ParseUint s in
  if bool_decide (err = Some ErrSyntax) then (0, err)
  else
    let cutoff := 2 ^ 63 in
    if negb neg && (cutoff <=? un) then (cutoff - 1, Some ErrRange)
    else if neg && (cutoff <? un) then (- cutoff, Some ErrRange)
    else (if neg then - un else un, None).

Definition ParseInt (s : string) : Z * option string :=
  match s with
  | EmptyString => (0, Some ErrSyntax)
  | String "+" s' => ParseInt_signed false s'
  | String "-" s' => ParseInt_signed true s'
  | _ => ParseInt_signed false s
  end.

(** [strconv.Atoi]: the value and the error.  Go returns a value also
    when it reports an error: 0 for a syntax error, the nearest bound of
    [int] for a number out of range.  The fast path of [Atoi] for short
    strings computes what [ParseInt] computes on them. *)
Definition Atoi (s : string) : Z * option string := ParseInt s.

End strconv.

(** ** Package [time], as far as the layout ["01-2006"] needs it *)

Module time.

(** The instants [time.Parse("01-2006", _)] produces are the first day of
    a month at midnight UTC; such an instant is its year and its month,
    and instants compare as these pairs do. *)
Record Time : Type := { Year : Z; Month : Z }.

Definition digit (c : ascii) : option Z := strconv.digit_value c.

(** The numbers of the six digits of a value; the month has to be in
    1..12. *)
Definition Parse_fields (m1 m2 y1 y2 y3 y4 : ascii) : option Time :=
  match digit m1, digit m2, digit y1, digit y2, digit y3, digit y4 with
  | Some a, Some b, Some c, Some d, Some e, Some f =>
      let month := a * 10 + b in
      if (month <=? 0) || (12 <? month) then None
      else Some {| Year := ((c * 10 + d) * 10 + e) * 10 + f;
                   Month := month |}
  | _, _, _, _, _, _ => None
  end.

(** [time.Parse("01-2006", value)]: a two-digit month, a hyphen, a
    four-digit year, and nothing after it. *)
Definition Parse (value : string) : option Time :=
  match value with
  | String m1 (String m2 (String sep
      (String y1 (String y2 (String y3 (String y4 EmptyString)))))) =>
      if bool_decide (sep = "-"%char)
      then Parse_fields m1 m2 y1 y2 y3 y4
      else None
  | _ => None
  end.

(** [t.After(u)] *)
Definition After (t u : Time) : bool :=
  (Year u <? Year t) || ((Year u =? Year t) && (Month u <? Month t)).

(** [t.Before(u)] *)
Definition Before (t u : Time) : bool := After u t.

End time.

(** ** Package [github.com/google/uuid]

    The service uses three things of the package: the type [uuid.UUID] (an
    array of 16 bytes, compared with [==] and [!=]), the all-zero value
    [uuid.Nil], and [uuid.Parse], which returns an identifier or an error.
    They are the interface below; every result holds for each of its
    implementations. *)

Class UUIDLib : Type := {
  UUID : Type;
  UUID_eq_dec :: EqDecision UUID;
  uuid_Nil : UUID;
  uuid_Parse : string -> option UUID;
}.

(** ** Package [models] *)

Module models.

(** [type Subscription struct]; [EndDate *string] is [None] for [nil]. *)
Record Subscription `{UUIDLib} : Type := {
  ID : Z;
  ServiceName : string;
  Price : Z;
  UserID : UUID;
  StartDate : string;
  EndDate : option string;
  CreatedAt : Z;
  UpdatedAt : Z;
}.

Definition set_ID `{UUIDLib} (id : Z) (s : Subscription) : Subscription :=
  {| ID := id; ServiceName := ServiceName s; Price := Price s;
     UserID := UserID s; StartDate := StartDate s; EndDate := EndDate s;
     CreatedAt := CreatedAt s; UpdatedAt := UpdatedAt s |}.

Definition set_CreatedAt `{UUIDLib} (t : Z) (s : Subscription) : Subscription :=
  {| ID := ID s; ServiceName := ServiceName s; Price := Price s;
     UserID := UserID s; StartDate := StartDate s; EndDate := EndDate s;
     CreatedAt := t; UpdatedAt := UpdatedAt s |}.

Definition set_UpdatedAt `{UUIDLib} (t : Z) (s : Subscription) : Subscription :=
  {| ID := ID s; ServiceName := ServiceName s; Price := Price s;
     UserID := UserID s; StartDate := StartDate s; EndDate := EndDate s;
     CreatedAt := CreatedAt s; UpdatedAt := t |}.

(** The zero value [models.Subscription{}]. *)
Definition zero `{UUIDLib} : Subscription :=
  {| ID := 0; ServiceName := ""; Price := 0; UserID := uuid_Nil;
     StartDate := ""; EndDate := None; CreatedAt := 0; UpdatedAt := 0 |}.

(** [type UpdateSubscriptionRequest struct]; [Price *int] and
    [EndDate *string] are [None] for [nil]. *)
Module UpdateSubscriptionRequest.
Record t `{UUIDLib} : Type := {
  ServiceName : string;
  Price : option Z;
  UserID : UUID;
  StartDate : string;
  EndDate : option string;
}.
End UpdateSubscriptionRequest.

(** [type CalculateCostRequest struct] *)
Module CalculateCostRequest.
Record t `{UUIDLib} : Type := {
  UserID : option UUID;
  ServiceName : option string;
  StartPeriod : string;
  EndPeriod : string;
}.
End CalculateCostRequest.

End models.

(** ** Package [repository]: [MockSubscriptionRepository] *)

Module Mock.
Section repository.
Context `{UUIDLib}.

Import models.

(** The field [subscriptions] of the repository; the lock around every
    method makes each of them one atomic step on this map. *)
Abbreviation Repo := (gmap string Subscription).

Definition NewMockSubscriptionRepository : Repo := ∅.

Definition not_found : string := "subscription not found".

(** [Create]: the new state and the stored record ([err] is always nil). *)
Definition Create (r : Repo) (now : Z) (subscription : Subscription)
  : Repo * Subscription :=
  let subscription :=
    if bool_decide (ID subscription = 0)
    then set_ID (GoInt.add (Z.of_nat (size r)) 1) subscription
    else subscription in
  let subscription := set_UpdatedAt now (set_CreatedAt now subscription) in
  (<[strconv.Itoa (ID subscription) := subscription]> r, subscription).

Definition GetByID (r : Repo) (id : string) : result Subscription :=
  match r !! id with
  | None => Err not_found
  | Some subscription => Ok subscription
  end.

(** The records of the map in the order the [range] loop visits them.  Go
    leaves this order unspecified; [map_to_list] is one such order, and the
    results below do not depend on it. *)
Definition range (r : Repo) : list Subscription := (map_to_list r).*2.

(** The loop of [List]; a [continue] goes on with the accumulated slice. *)
Fixpoint List_loop (userID serviceName : string)
    (subs : list Subscription) (result : list Subscription)
  : list Subscription :=
  match subs with
  | [] => result
  | sub :: rest =>
      if bool_decide (userID <> "")
         && match uuid_Parse userID with
            | None => true
            | Some uid => bool_decide (UserID sub <> uid)
            end
      then List_loop userID serviceName rest result
      else if bool_decide (serviceName <> "")
              && bool_decide (ServiceName sub <> serviceName)
      then List_loop userID serviceName rest result
      else List_loop userID serviceName rest (result ++ [sub])
  end.

(** [List] ([err] is always nil). *)
Definition List (r : Repo) (userID serviceName : string)
  : list Subscription :=
  List_loop userID serviceName (range r) [].

Definition Update (r : Repo) (now : Z) (id : string)
    (subscription : Subscription) : Repo * result Subscription :=
  match r !! id with
  | None => (r, Err not_found)
  | Some _ =>
      let idInt := (strconv.Atoi id).1 in
      let subscription := set_UpdatedAt now (set_ID idInt subscription) in
      (<[id := subscription]> r, Ok subscription)
  end.

(** [Delete]: the new state and the error, [None] for nil. *)
Definition Delete (r : Repo) (id : string) : Repo * option string :=
  match r !! id with
  | None => (r, Some not_found)
  | Some _ => (delete id r, None)
  end.

(** The loop of [CalculateTotalCost] over the listed records. *)
Fixpoint CalculateTotalCost_loop (startDate endDate : time.Time)
    (totalCost : Z) (subscriptions : list Subscription) : Z :=
  match subscriptions with
  | [] => totalCost
  | sub :: rest =>
      match time.Parse (StartDate sub) with
      | None => CalculateTotalCost_loop startDate endDate totalCost rest
      | Some subStartDate =>
          if time.After subStartDate endDate
          then CalculateTotalCost_loop startDate endDate totalCost rest
          else
            let effectiveStartDate :=
              if time.After subStartDate startDate
              then subStartDate else startDate in
            let effectiveEndDate :=
              match EndDate sub with
              | Some e =>
                  match time.Parse e with
                  | Some subEndDate =>
                      if time.Before subEndDate endDate
                      then subEndDate else endDate
                  | None => endDate
                  end
              | None => endDate
              end in
            let subMonths :=
              GoInt.add
                (GoInt.add
                   (GoInt.mul
                      (GoInt.sub (time.Year effectiveEndDate)
                                 (time.Year effectiveStartDate)) 12)
                   (GoInt.sub (time.Month effectiveEndDate)
                              (time.Month effectiveStartDate)))
                1 in
            let totalCost :=
              if 0 <? subMonths
              then GoInt.add totalCost (GoInt.mul (Price sub) subMonths)
              else totalCost in
            CalculateTotalCost_loop startDate endDate totalCost rest
      end
  end.

Definition CalculateTotalCost (r : Repo)
    (userID serviceName startPeriod endPeriod : string) : result Z :=
  match time.Parse startPeriod with
  | None => Err "invalid start period format"
  | Some startDate =>
      match time.Parse endPeriod with
      | None => Err "invalid end period format"
      | Some endDate =>
          if time.After startDate endDate
          then Err "start period cannot be after end period"
          else
            let subscriptions := List r userID serviceName in
            Ok (CalculateTotalCost_loop startDate endDate 0 subscriptions)
      end
  end.

End repository.
End Mock.


(** ** Package [repository]: [SubscriptionRepository] over PostgreSQL

    The repository sends SQL statements to the database.  The state is the
    table [subscriptions]: a finite map from the primary key [id] to the
    other columns of the row.  A statement is interpreted by its meaning on
    the table, for a database that executes it (a lost connection, or a value
    a column type refuses, is not part of the model); the Go code decides
    which conditions and which assignments a statement has.  Values of
    [VARCHAR] columns compare as byte strings. *)

Module Postgres.
Section repository.
Context `{UUIDLib}.

Import models.

(** The columns of table [subscriptions] besides [id]; [end_date] is
    [None] for NULL. *)
Record Row : Type := {
  service_name : string;
  price : Z;
  user_id : UUID;
  start_date : string;
  end_date : option string;
  created_at : Z;
  updated_at : Z;
}.

Abbreviation Table := (gmap Z Row).

(** The conditions the repository puts after [WHERE], each with the
    arguments bound to its placeholders. *)
Inductive Condition : Type :=
| active_cond (p1 p2 : string)
    (* (start_date <= $1 AND (end_date IS NULL OR end_date >= $2)) *)
| user_id_cond (u : UUID)          (* user_id = $n *)
| service_name_cond (s : string).  (* service_name = $n *)

Definition holds (c : Condition) (row : Row) : bool :=
  match c with
  | active_cond p1 p2 =>
      String.leb (start_date row) p1
      && match end_date row with
         | None => true
         | Some e => String.leb p2 e
         end
  | user_id_cond u => bool_decide (user_id row = u)
  | service_name_cond s => bool_decide (service_name row = s)
  end.

(** [strings.Join(whereConditions, " AND ")] *)
Definition where_all (conds : list Condition) (row : Row) : bool :=
  forallb (fun c => holds c row) conds.

(** The assignments the repository puts after [SET]. *)
Inductive Assignment : Type :=
| set_service_name (s : string)
| set_price (p : Z)
| set_user_id (u : UUID)
| set_start_date (s : string)
| set_end_date (e : option string)
| set_updated_at (t : Z).

Definition assign (row : Row) (a : Assignment) : Row :=
  match a with
  | set_service_name s =>
      {| service_name := s; price := price row; user_id := user_id row;
         start_date := start_date row; end_date := end_date row;
         created_at := created_at row; updated_at := updated_at row |}
  | set_price p =>
      {| service_name := service_name row; price := p; user_id := user_id row;
         start_date := start_date row; end_date := end_date row;
         created_at := created_at row; updated_at := updated_at row |}
  | set_user_id u =>
      {| service_name := service_name row; price := price row; user_id := u;
         start_date := start_date row; end_date := end_date row;
         created_at := created_at row; updated_at := updated_at row |}
  | set_start_date s =>
      {| service_name := service_name row; price := price row;
         user_id := user_id row; start_date := s; end_date := end_date row;
         created_at := created_at row; updated_at := updated_at row |}
  | set_end_date e =>
      {| service_name := service_name row; price := price row;
         user_id := user_id row; start_date := start_date row; end_date := e;
         created_at := created_at row; updated_at := updated_at row |}
  | set_updated_at t =>
      {| service_name := service_name row; price := price row;
         user_id := user_id row; start_date := start_date row;
         end_date := end_date row; created_at := created_at row;
         updated_at := t |}
  end.

(** [SELECT ... FROM subscriptions WHERE id = $1] *)
Definition select_by_id (tbl : Table) (id : Z) : option Row := tbl !! id.

(** [SELECT ... FROM subscriptions], with [WHERE] and the conditions joined
    by [AND] when there is one; the rows come in an order the database
    chooses. *)
Definition select (tbl : Table) (conds : list Condition) : list (Z * Row) :=
  List.filter (fun kr => where_all conds kr.2) (map_to_list tbl).

(** [UPDATE subscriptions SET ... WHERE id = $n]: the new table and the
    number of rows affected. *)
Definition exec_update (tbl : Table) (sets : list Assignment) (id : Z)
  : Table * Z :=
  match tbl !! id with
  | None => (tbl, 0)
  | Some row => (<[id := fold_left assign sets row]> tbl, 1)
  end.

(** [DELETE FROM subscriptions WHERE id = $1] *)
Definition exec_delete (tbl : Table) (id : Z) : Table * Z :=
  match tbl !! id with
  | None => (tbl, 0)
  | Some _ => (delete id tbl, 1)
  end.

(** [SELECT SUM(price) FROM subscriptions WHERE ...]: NULL when no row is
    selected. *)
Definition select_sum_price (tbl : Table) (conds : list Condition)
  : option Z :=
  match select tbl conds with
  | [] => None
  | rows => Some (foldr (fun kr acc => price kr.2 + acc) 0 rows)
  end.

(** [Scan] of a selected row into a [models.Subscription]. *)
Definition scan (id : Z) (row : Row) : Subscription :=
  {| ID := id; ServiceName := service_name row; Price := price row;
     UserID := user_id row; StartDate := start_date row;
     EndDate := end_date row; CreatedAt := created_at row;
     UpdatedAt := updated_at row |}.

Definition not_found : string := "subscription not found".

Definition GetByID (tbl : Table) (id : Z) : result Subscription :=
  match select_by_id tbl id with
  | None => Err not_found
  | Some row => Ok (scan id row)
  end.

(** [append] of a condition or an assignment under an [if]. *)
Definition append_if {A : Type} (b : bool) (l : list A) (x : A) : list A :=
  if b then l ++ [x] else l.

Definition List (tbl : Table) (userID : option UUID)
    (serviceName : option string) : list Subscription :=
  let whereConditions : list Condition := [] in
  let whereConditions :=
    match userID with
    | Some u => whereConditions ++ [user_id_cond u]
    | None => whereConditions
    end in
  let whereConditions :=
    match serviceName with
    | Some s => append_if (bool_decide (s <> "")) whereConditions
                  (service_name_cond s)
    | None => whereConditions
    end in
  map (fun kr => scan kr.1 kr.2) (select tbl whereConditions).

(** [Update]: the new table and the error, [None] for nil. *)
Definition Update (tbl : Table) (now : Z) (id : Z)
    (subscription : UpdateSubscriptionRequest.t) : Table * option string :=
  let setClauses : list Assignment := [] in
  let setClauses :=
    append_if (bool_decide (UpdateSubscriptionRequest.ServiceName subscription <> ""))
      setClauses
      (set_service_name (UpdateSubscriptionRequest.ServiceName subscription)) in
  let setClauses :=
    match UpdateSubscriptionRequest.Price subscription with
    | Some p => setClauses ++ [set_price p]
    | None => setClauses
    end in
  let setClauses :=
    append_if (bool_decide (UpdateSubscriptionRequest.UserID subscription <> uuid_Nil))
      setClauses
      (set_user_id (UpdateSubscriptionRequest.UserID subscription)) in
  let setClauses :=
    append_if (bool_decide (UpdateSubscriptionRequest.StartDate subscription <> ""))
      setClauses
      (set_start_date (UpdateSubscriptionRequest.StartDate subscription)) in
  let setClauses :=
    setClauses ++ [set_end_date (UpdateSubscriptionRequest.EndDate subscription)] in
  let setClauses := setClauses ++ [set_updated_at now] in
  let '(tbl', rowsAffected) := exec_update tbl setClauses id in
  if rowsAffected =? 0 then (tbl', Some not_found) else (tbl', None).

Definition Delete (tbl : Table) (id : Z) : Table * option string :=
  let '(tbl', rowsAffected) := exec_delete tbl id in
  if rowsAffected =? 0 then (tbl', Some not_found) else (tbl', None).

Definition CalculateTotalCost (tbl : Table) (req : CalculateCostRequest.t)
  : result Z :=
  let whereConditions :=
    [active_cond (CalculateCostRequest.EndPeriod req)
                 (CalculateCostRequest.StartPeriod req)] in
  let whereConditions :=
    match CalculateCostRequest.UserID req with
    | Some u => whereConditions ++ [user_id_cond u]
    | None => whereConditions
    end in
  let whereConditions :=
    match CalculateCostRequest.ServiceName req with
    | Some s => append_if (bool_decide (s <> "")) whereConditions
                  (service_name_cond s)
    | None => whereConditions
    end in
  match select_sum_price tbl whereConditions with
  | None => Ok 0
  | Some totalCost => Ok totalCost
  end.

End repository.
End Postgres.

(** ** An implementation of the [uuid] interface

    Identifiers as their 16 bytes, and [Parse] for the four textual forms
    the package reads (36 characters with hyphens, the same after
    [urn:uuid:] or between two more characters, and 32 hexadecimal digits).
    It serves to evaluate the repositories on concrete identifiers. *)

Module GoogleUUID.

(** The table [xvalues]: the value of a hexadecimal digit. *)
Definition xvalue (c : ascii) : option N :=
  let n := N_of_ascii c in
  (if (48 <=? n) && (n <=? 57) then Some (n - 48)
   else if (97 <=? n) && (n <=? 102) then Some (n - 87)
   else if (65 <=? n) && (n <=? 70) then Some (n - 55)
   else None)%N.

(** [xtob]: the byte of two hexadecimal digits. *)
Definition xtob (x1 x2 : option ascii) : option N :=
  match x1, x2 with
  | Some c1, Some c2 =>
      match xvalue c1, xvalue c2 with
      | Some b1, Some b2 => Some (b1 * 16 + b2)%N
      | _, _ => None
      end
  | _, _ => None
  end.

Definition bytes_at (s : string) (offsets : list nat) : option (list N) :=
  mapM (fun x => xtob (String.get x s) (String.get (S x) s)) offsets.

Definition is_hyphen (c : option ascii) : bool :=
  bool_decide (c = Some "-"%char).

(** The form [xxxxxxxx-xxxx-xxxx-xxxx-xxxxxxxxxxxx] at the start of [s]. *)
Definition parse_hyphenated (s : string) : option (list N) :=
  if is_hyphen (String.get 8 s) && is_hyphen (String.get 13 s)
     && is_hyphen (String.get 18 s) && is_hyphen (String.get 23 s)
  then bytes_at s [0; 2; 4; 6; 9; 11; 14; 16; 19; 21; 24; 26; 28; 30; 32; 34]%nat
  else None.

Definition lower (c : ascii) : ascii :=
  let n := nat_of_ascii c in
  if (65 <=? n)%nat && (n <=? 90)%nat then ascii_of_nat (n + 32) else c.

Fixpoint lower_string (s : string) : string :=
  match s with
  | EmptyString => EmptyString
  | String c s' => String (lower c) (lower_string s')
  end.

Definition Parse (s : string) : option (list N) :=
  match String.length s with
  | 36%nat => parse_hyphenated s
  | 45%nat =>
      if bool_decide (lower_string (String.substring 0 9 s) = "urn:uuid:")
      then parse_hyphenated (String.substring 9 36 s)
      else None
  | 38%nat => parse_hyphenated (String.substring 1 37 s)
  | 32%nat =>
      bytes_at s [0; 2; 4; 6; 8; 10; 12; 14; 16; 18; 20; 22; 24; 26; 28; 30]%nat
  | _ => None
  end.

Definition Nil : list N := replicate 16 0%N.

#[export] Instance lib : UUIDLib :=
  {| UUID := list N; uuid_Nil := Nil; uuid_Parse := Parse |}.

End GoogleUUID.

(** ** The cost calculation as the specification words it

    A calendar month is a (month, year) pair; a record has a price, a start
    month and an optional end month.  The calculator sums
    [price * months_overlap] over the records whose range meets the
    window. *)

Module Spec.

Record Month : Type := { month : Z; year : Z }.

Definition month_index (m : Month) : Z := year m * 12 + month m.

Definition max_month (a b : Month) : Month :=
  if month_index a <? month_index b then b else a.

Definition min_month (a b : Month) : Month :=
  if month_index b <? month_index a then b else a.

Record Subscription : Type := {
  price : Z;
  start_period : Month;
  end_period : option Month;
}.

Definition months_overlap (rec : Subscription) (win_start win_end : Month) : Z :=
  let effective_start := max_month (start_period rec) win_start in
  let effective_end :=
    match end_period rec with
    | Some e => min_month e win_end
    | None => win_end
    end in
  month_index effective_end - month_index effective_start + 1.

(** What one record adds to the total. *)
Definition contribution (rec : Subscription) (win_start win_end : Month) : Z :=
  if month_index win_end <? month_index (start_period rec) then 0
  else if 0 <? months_overlap rec win_start win_end
       then price rec * months_overlap rec win_start win_end
       else 0.

Definition total_cost (recs : list Subscription) (win_start win_end : Month) : Z :=
  foldr (fun rec acc => contribution rec win_start win_end + acc) 0 recs.

End Spec.

(** ** Package [regexp], as far as the date pattern needs it *)

Module regexp.

(** The expressions the pattern is built from; a group matches what the
    expression inside it matches. *)
Inductive Regexp : Type :=
| Lit (c : ascii)                 (* the character c *)
| Class (lo hi : ascii)           (* [lo-hi] *)
| Cat (r1 r2 : Regexp)            (* r1 r2 *)
| Alt (r1 r2 : Regexp)            (* r1|r2 *)
| Rep (n : nat) (r : Regexp).     (* r{n} *)

Definition step (ok : ascii -> bool) (s : string) : list string :=
  match s with
  | String c s' => if ok c then [s'] else []
  | EmptyString => []
  end.

(** What is left of [s] after each of its prefixes that [r] matches. *)
Fixpoint residues (r : Regexp) (s : string) : list string :=
  match r with
  | Lit c => step (fun c' => (N_of_ascii c' =? N_of_ascii c)%N) s
  | Class lo hi =>
      step (fun c => (N_of_ascii lo <=? N_of_ascii c)%N
                     && (N_of_ascii c <=? N_of_ascii hi)%N) s
  | Cat r1 r2 => flat_map (residues r2) (residues r1 s)
  | Alt r1 r2 => residues r1 s ++ residues r2 s
  | Rep n r => Nat.iter n (flat_map (residues r)) [s]
  end.

(** [MatchString] of the pattern [^r$]: [r] matches all of [s]. *)
Definition MatchString (r : Regexp) (s : string) : bool :=
  existsb (fun rest => bool_decide (rest = "")) (residues r s).

End regexp.

(** ** Package [models]: the requests and their validation *)

Module validation.
Import regexp.

(** [^(0[1-9]|1[0-2])-(\d{4})$] *)
Definition datePattern : Regexp :=
  Cat (Alt (Cat (Lit "0") (Class "1" "9")) (Cat (Lit "1") (Class "0" "2")))
      (Cat (Lit "-") (Rep 4 (Class "0" "9"))).

(** [type CreateSubscriptionRequest struct] *)
Module CreateSubscriptionRequest.
Record t `{UUIDLib} : Type := {
  ServiceName : string;
  Price : Z;
  UserID : UUID;
  StartDate : string;
  EndDate : option string;
}.
End CreateSubscriptionRequest.

Section validation.
Context `{UUIDLib}.

(** The three [Validate] methods: the error, [None] for nil. *)
Definition Validate_CreateSubscriptionRequest
    (s : CreateSubscriptionRequest.t) : option string :=
  if negb (MatchString datePattern (CreateSubscriptionRequest.StartDate s))
  then Some "start_date must be in MM-YYYY format"
  else
    match CreateSubscriptionRequest.EndDate s with
    | Some e =>
        if negb (MatchString datePattern e)
        then Some "end_date must be in MM-YYYY format"
        else None
    | None => None
    end.

Definition Validate_UpdateSubscriptionRequest
    (s : models.UpdateSubscriptionRequest.t) : option string :=
  if bool_decide (models.UpdateSubscriptionRequest.StartDate s <> "")
     && negb (MatchString datePattern
                (models.UpdateSubscriptionRequest.StartDate s))
  then Some "start_date must be in MM-YYYY format"
  else
    match models.UpdateSubscriptionRequest.EndDate s with
    | Some e =>
        if negb (MatchString datePattern e)
        then Some "end_date must be in MM-YYYY format"
        else None
    | None => None
    end.

Definition Validate_CalculateCostRequest
    (c : models.CalculateCostRequest.t) : option string :=
  if negb (MatchString datePattern (models.CalculateCostRequest.StartPeriod c))
  then Some "start_period must be in MM-YYYY format"
  else if negb (MatchString datePattern
                  (models.CalculateCostRequest.EndPeriod c))
  then Some "end_period must be in MM-YYYY format"
  else None.

End validation.
End validation.

(** ** Package [db]: the database behind [PostgresDB]

    The table [subscriptions] and the sequence that numbers its rows
    ([id SERIAL PRIMARY KEY]).  The statements are taken to be executed:
    the connection is up, the values fit their columns and the sequence
    has values left. *)

Module db.
Section db.
Context `{UUIDLib}.

Record Database : Type := {
  subscriptions : gmap Z Postgres.Row;
  subscriptions_id_seq : Z;
}.

Definition with_subscriptions (tbl : gmap Z Postgres.Row) (d : Database)
  : Database :=
  {| subscriptions := tbl; subscriptions_id_seq := subscriptions_id_seq d |}.

(** The text of the driver's error for a row whose [id] is taken. *)
Definition unique_violation : string :=
  "pq: duplicate key value violates unique constraint "
  ++ String (ascii_of_nat 34) "subscriptions_pkey"
  ++ String (ascii_of_nat 34) "".

(** [INSERT INTO subscriptions (...) VALUES (...) RETURNING id]: the row
    gets the next value of the sequence as [id]; the value is used up
    also when a row with that [id] exists and the statement fails. *)
Definition insert (d : Database) (row : Postgres.Row)
  : Database * result Z :=
  let id := subscriptions_id_seq d in
  match subscriptions d !! id with
  | Some _ =>
      ({| subscriptions := subscriptions d;
          subscriptions_id_seq := id + 1 |}, Err unique_violation)
  | None =>
      ({| subscriptions := <[id := row]> (subscriptions d);
          subscriptions_id_seq := id + 1 |}, Ok id)
  end.

(** The table after [CREATE TABLE IF NOT EXISTS]: the one there is, or a new
    empty one whose sequence starts at 1. *)
Definition create_table_if_not_exists (d : option Database) : Database :=
  match d with
  | Some d => d
  | None => {| subscriptions := ∅; subscriptions_id_seq := 1 |}
  end.

(** The rows of the test data; [u1] and [u2] are the identifiers the
    database reads from the two literals, the time stamps are the time of
    the statement. *)
Definition test_data (u1 u2 : UUID) (now : Z) : list Postgres.Row :=
  [ {| Postgres.service_name := "Netflix"; Postgres.price := 599;
       Postgres.user_id := u1; Postgres.start_date := "01-2023";
       Postgres.end_date := Some "01-2024";
       Postgres.created_at := now; Postgres.updated_at := now |};
    {| Postgres.service_name := "Spotify"; Postgres.price := 199;
       Postgres.user_id := u1; Postgres.start_date := "02-2023";
       Postgres.end_date := None;
       Postgres.created_at := now; Postgres.updated_at := now |};
    {| Postgres.service_name := "Yandex Plus"; Postgres.price := 299;
       Postgres.user_id := u2; Postgres.start_date := "03-2023";
       Postgres.end_date := Some "03-2024";
       Postgres.created_at := now; Postgres.updated_at := now |} ].

(** [INSERT ... VALUES (...), (...), (...)] into an empty table: the rows
    get consecutive values of the sequence. *)
Fixpoint insert_all (d : Database) (rows : list Postgres.Row) : Database :=
  match rows with
  | [] => d
  | row :: rest => insert_all (insert d row).1 rest
  end.

(** [RunMigrations], for a database that executes the statements: the state
    it leaves.  [d] is [None] when the table does not exist yet. *)
Definition RunMigrations (d : option Database) (u1 u2 : UUID) (now : Z)
  : Database :=
  let d := create_table_if_not_exists d in
  let count := Z.of_nat (size (subscriptions d)) in
  if count =? 0 then insert_all d (test_data u1 u2 now) else d.

End db.
End db.

(** ** Package [repository]: [SubscriptionRepository.Create] *)

Module PostgresCreate.
Section repository.
Context `{UUIDLib}.
Import validation.

(** [Create]: the new state of the database and the [id] of the new row.
    [created_at] and [updated_at] get their default, the time of the
    statement. *)
Definition Create (d : db.Database) (now : Z)
    (subscription : CreateSubscriptionRequest.t)
  : db.Database * result Z :=
  let row :=
    {| Postgres.service_name := CreateSubscriptionRequest.ServiceName subscription;
       Postgres.price := CreateSubscriptionRequest.Price subscription;
       Postgres.user_id := CreateSubscriptionRequest.UserID subscription;
       Postgres.start_date := CreateSubscriptionRequest.StartDate subscription;
       Postgres.end_date := CreateSubscriptionRequest.EndDate subscription;
       Postgres.created_at := now; Postgres.updated_at := now |} in
  match db.insert d row with
  | (d', Err err) => (d', Err ("failed to create subscription: " ++ err))
  | (d', Ok id) => (d', Ok id)
  end.

End repository.
End PostgresCreate.

(** ** Package [handlers]: [SubscriptionHandler]

    A handler is a function of the state of the database and of what the
    [gin.Context] gives it: the path parameter [id], the query parameters,
    and the outcome of [ShouldBindJSON] or [ShouldBindQuery] (the request it
    filled in, or the error).  It returns the new state and the response
    it writes.  The log lines are left out. *)

Module handlers.
Section handlers.
Context `{UUIDLib}.
Import models validation.

Inductive Body : Type :=
| error_body (msg : string)                 (* gin.H{"error": msg} *)
| subscription_body (s : Subscription)
| subscriptions_body (l : list Subscription)
| cost_body (TotalCost : Z)                 (* models.CalculateCostResponse *)
| no_body.

Record Response : Type := { status : Z; body : Body }.

Definition StatusOK : Z := 200.
Definition StatusCreated : Z := 201.
Definition StatusNoContent : Z := 204.
Definition StatusBadRequest : Z := 400.
Definition StatusNotFound : Z := 404.
Definition StatusInternalServerError : Z := 500.

(** [c.JSON(code, gin.H{"error": msg})] *)
Definition error (code : Z) (msg : string) : Response :=
  {| status := code; body := error_body msg |}.

Definition Create (d : db.Database) (now : Z)
    (bound : result CreateSubscriptionRequest.t) : db.Database * Response :=
  match bound with
  | Err err => (d, error StatusBadRequest err)
  | Ok req =>
      match Validate_CreateSubscriptionRequest req with
      | Some err => (d, error StatusBadRequest err)
      | None =>
          match PostgresCreate.Create d now req with
          | (d', Err _) =>
              (d', error StatusInternalServerError
                     "Failed to create subscription")
          | (d', Ok id) =>
              match Postgres.GetByID (db.subscriptions d') id with
              | Err _ =>
                  (d', error StatusInternalServerError
                         "Failed to retrieve created subscription")
              | Ok subscription =>
                  (d', {| status := StatusCreated;
                          body := subscription_body subscription |})
              end
          end
      end
  end.

Definition Get (d : db.Database) (idStr : string) : Response :=
  match strconv.Atoi idStr with
  | (_, Some _) => error StatusBadRequest "Invalid subscription ID"
  | (id, None) =>
      match Postgres.GetByID (db.subscriptions d) id with
      | Err _ => error StatusNotFound "Subscription not found"
      | Ok subscription =>
          {| status := StatusOK; body := subscription_body subscription |}
      end
  end.

Definition List (d : db.Database) (userIDStr serviceName : string)
  : Response :=
  let continue (userID : option UUID) : Response :=
    let serviceNamePtr :=
      if bool_decide (serviceName <> "") then Some serviceName else None in
    {| status := StatusOK;
       body := subscriptions_body
                 (Postgres.List (db.subscriptions d) userID serviceNamePtr) |}
  in
  if bool_decide (userIDStr <> "") then
    match uuid_Parse userIDStr with
    | None => error StatusBadRequest "Invalid user ID format"
    | Some parsedID => continue (Some parsedID)
    end
  else continue None.

Definition Update (d : db.Database) (now : Z) (idStr : string)
    (bound : result UpdateSubscriptionRequest.t) : db.Database * Response :=
  match strconv.Atoi idStr with
  | (_, Some _) => (d, error StatusBadRequest "Invalid subscription ID")
  | (id, None) =>
      match bound with
      | Err err => (d, error StatusBadRequest err)
      | Ok req =>
          match Validate_UpdateSubscriptionRequest req with
          | Some err => (d, error StatusBadRequest err)
          | None =>
              match Postgres.Update (db.subscriptions d) now id req with
              | (tbl, Some _) =>
                  (db.with_subscriptions tbl d,
                   error StatusNotFound "Subscription not found")
              | (tbl, None) =>
                  match Postgres.GetByID tbl id with
                  | Err _ =>
                      (db.with_subscriptions tbl d,
                       error StatusInternalServerError
                         "Failed to retrieve updated subscription")
                  | Ok subscription =>
                      (db.with_subscriptions tbl d,
                       {| status := StatusOK;
                          body := subscription_body subscription |})
                  end
              end
          end
      end
  end.

Definition Delete (d : db.Database) (idStr : string)
  : db.Database * Response :=
  match strconv.Atoi idStr with
  | (_, Some _) => (d, error StatusBadRequest "Invalid subscription ID")
  | (id, None) =>
      match Postgres.Delete (db.subscriptions d) id with
      | (tbl, Some _) =>
          (db.with_subscriptions tbl d,
           error StatusNotFound "Subscription not found")
      | (tbl, None) =>
          (db.with_subscriptions tbl d,
           {| status := StatusNoContent; body := no_body |})
      end
  end.

Definition CalculateTotalCost (d : db.Database)
    (bound : result CalculateCostRequest.t) (userIDStr serviceName : string)
  : Response :=
  match bound with
  | Err err => error StatusBadRequest err
  | Ok req =>
      match Validate_CalculateCostRequest req with
      | Some err => error StatusBadRequest err
      | None =>
          let continue (userID : option UUID) : Response :=
            let serviceNamePtr :=
              if bool_decide (serviceName <> "") then Some serviceName
              else CalculateCostRequest.ServiceName req in
            let req :=
              {| CalculateCostRequest.UserID := userID;
                 CalculateCostRequest.ServiceName := serviceNamePtr;
                 CalculateCostRequest.StartPeriod :=
                   CalculateCostRequest.StartPeriod req;
                 CalculateCostRequest.EndPeriod :=
                   CalculateCostRequest.EndPeriod req |} in
            match Postgres.CalculateTotalCost (db.subscriptions d) req with
            | Err _ =>
                error StatusInternalServerError
                  "Failed to calculate total cost"
            | Ok totalCost =>
                {| status := StatusOK; body := cost_body totalCost |}
            end
          in
          if bool_decide (userIDStr <> "") then
            match uuid_Parse userIDStr with
            | None => error StatusBadRequest "Invalid user ID format"
            | Some userID => continue (Some userID)
            end
          else continue (CalculateCostRequest.UserID req)
      end
  end.

End handlers.
End handlers.

(** ** Notions the statements use *)

Module Views.

(** The month ordinal [year * 12 + month] of an instant. *)
Definition index (t : time.Time) : Z := time.Year t * 12 + time.Month t.

(** The instants that are a month of a year 0..9999. *)
Definition well_formed (t : time.Time) : Prop :=
  1 <= time.Month t <= 12 /\ 0 <= time.Year t <= 9999.

Definition to_month (t : time.Time) : Spec.Month :=
  {| Spec.month := time.Month t; Spec.year := time.Year t |}.

Section views.
Context `{UUIDLib}.
Import models.

(** A stored record as the specification sees it, when its dates are
    well formed. *)
Definition to_spec (sub : Subscription) : option Spec.Subscription :=
  match time.Parse (StartDate sub) with
  | None => None
  | Some s =>
      match EndDate sub with
      | None =>
          Some {| Spec.price := Price sub; Spec.start_period := to_month s;
                  Spec.end_period := None |}
      | Some e =>
          match time.Parse e with
          | None => None
          | Some e' =>
              Some {| Spec.price := Price sub;
                      Spec.start_period := to_month s;
                      Spec.end_period := Some (to_month e') |}
          end
      end
  end.

(** The condition under which the loop of [Mock.List] appends a record. *)
Definition kept (userID serviceName : string) (sub : Subscription) : Prop :=
  (userID = "" \/ uuid_Parse userID = Some (UserID sub))
  /\ (serviceName = "" \/ ServiceName sub = serviceName).

#[global] Instance kept_dec userID serviceName sub :
  Decision (kept userID serviceName sub) :=
  ltac:(unfold kept; apply _).

Definition effective_start (startDate subStartDate : time.Time) : time.Time :=
  if time.After subStartDate startDate then subStartDate else startDate.

Definition effective_end (endDate : time.Time) (sub : Subscription)
  : time.Time :=
  match EndDate sub with
  | Some e =>
      match time.Parse e with
      | Some subEndDate =>
          if time.Before subEndDate endDate then subEndDate else endDate
      | None => endDate
      end
  | None => endDate
  end.

(** What one iteration of the loop of [Mock.CalculateTotalCost] adds, as an
    exact integer. *)
Definition cost (startDate endDate : time.Time) (sub : Subscription) : Z :=
  match time.Parse (StartDate sub) with
  | None => 0
  | Some subStartDate =>
      if time.After subStartDate endDate then 0
      else
        let months :=
          index (effective_end endDate sub)
          - index (effective_start startDate subStartDate) + 1 in
        if 0 <? months then Price sub * months else 0
  end.

Definition total (startDate endDate : time.Time)
    (subs : list Subscription) : Z :=
  foldr (fun sub acc => cost startDate endDate sub + acc) 0 subs.

Definition set_EndDate (e : option string) (s : Subscription)
  : Subscription :=
  {| ID := ID s; ServiceName := ServiceName s; Price := Price s;
     UserID := UserID s; StartDate := StartDate s; EndDate := e;
     CreatedAt := CreatedAt s; UpdatedAt := UpdatedAt s |}.

(** A record with these five fields, whatever its [ID] and time stamps. *)
Definition describes (name : string) (price : Z) (user : UUID)
    (start : string) (end_ : option string) (sub : Subscription) : Prop :=
  ServiceName sub = name /\ Price sub = price /\ UserID sub = user
  /\ StartDate sub = start /\ EndDate sub = end_.

(** The calls that change the in-memory repository. *)
Inductive Op : Type :=
| create (now : Z) (subscription : Subscription)
| update (now : Z) (id : string) (subscription : Subscription)
| remove (id : string).

Definition apply_op (r : gmap string Subscription) (op : Op)
  : gmap string Subscription :=
  match op with
  | create now sub => (Mock.Create r now sub).1
  | update now id sub => (Mock.Update r now id sub).1
  | remove id => (Mock.Delete r id).1
  end.

(** The state after a sequence of calls on a new repository. *)
Definition run (ops : list Op) : gmap string Subscription :=
  fold_left apply_op ops Mock.NewMockSubscriptionRepository.

(** The field [ID] of a record handed to [Create] is a Go [int]. *)
Definition well_typed (op : Op) : Prop :=
  match op with
  | create _ sub => GoInt.in_range (ID sub)
  | update _ _ _ | remove _ => True
  end.

(** Every record is stored under the decimal form of its [ID]. *)
Definition keyed (r : gmap string Subscription) : Prop :=
  forall k s, r !! k = Some s ->
    k = strconv.Itoa (ID s) /\ GoInt.in_range (ID s).

(** The condition of the query of [Postgres.List] on a scanned row. *)
Definition selected (userID : option UUID) (serviceName : option string)
    (sub : Subscription) : Prop :=
  match userID with Some u => UserID sub = u | None => True end
  /\ match serviceName with
     | Some s => s = "" \/ ServiceName sub = s
     | None => True
     end.

#[global] Instance selected_dec userID serviceName sub :
  Decision (selected userID serviceName sub) :=
  ltac:(unfold selected; destruct userID, serviceName; apply _).

(** The first condition of the query of [Postgres.CalculateTotalCost], on
    a scanned row. *)
Definition active (startPeriod endPeriod : string) (sub : Subscription)
  : bool :=
  String.leb (StartDate sub) endPeriod
  && match EndDate sub with
     | None => true
     | Some e => String.leb startPeriod e
     end.

Definition sum_prices (subs : list Subscription) : Z :=
  foldr (fun sub acc => Price sub + acc) 0 subs.

End views.
End Views.


(** ** Concrete stores and requests *)

Module Examples.
Import models GoogleUUID.

Definition userA_text : string := "60601fee-2bf1-4721-ae6f-7636e79a0cba".

Definition userA : UUID :=
  [96; 96; 31; 238; 43; 241; 71; 33; 174; 111; 118; 54; 231; 154; 12; 186]%N.

(** A record as a caller hands it to [Create]: no [ID], no time stamps. *)
Definition new_subscription (name : string) (price : Z) (user : UUID)
    (start : string) (end_ : option string) : Subscription :=
  {| ID := 0; ServiceName := name; Price := price; UserID := user;
     StartDate := start; EndDate := end_; CreatedAt := 0; UpdatedAt := 0 |}.

Definition netflix : Subscription :=
  new_subscription "Netflix" 700 userA "01-2024" None.

Definition spotify : Subscription :=
  new_subscription "Spotify" 199 userA "02-2024" None.

(** The in-memory repository after the two records have been created. *)
Definition two_subscriptions : gmap string Subscription :=
  (Mock.Create (Mock.Create Mock.NewMockSubscriptionRepository 1 netflix).1
     2 spotify).1.

Definition one_subscription : gmap string Subscription :=
  (Mock.Create Mock.NewMockSubscriptionRepository 1 netflix).1.

(** The two records as [Create] has stored them. *)
Definition stored_netflix : Subscription :=
  (Mock.Create Mock.NewMockSubscriptionRepository 1 netflix).2.

Definition stored_spotify : Subscription :=
  (Mock.Create one_subscription 2 spotify).2.

(** Calls after which an [ID] is assigned a second time. *)
Definition calls : list Views.Op :=
  [Views.create 1 netflix; Views.create 2 spotify; Views.remove "1";
   Views.create 3 netflix].

(** A record whose [ID] the caller has chosen. *)
Definition with_id_7 : Subscription :=
  set_ID 7 (new_subscription "Netflix" 700 userA "01-2024" None).

(** Records with a start date and with an end date that do not parse. *)
Definition bad_start : Subscription :=
  new_subscription "Netflix" 700 userA "2024-01" None.

Definition bad_end : Subscription :=
  new_subscription "Netflix" 700 userA "01-2024" (Some "2024-12").

Definition row (name : string) (price : Z) (user : UUID) (start : string)
    (end_ : option string) : Postgres.Row :=
  {| Postgres.service_name := name; Postgres.price := price;
     Postgres.user_id := user; Postgres.start_date := start;
     Postgres.end_date := end_; Postgres.created_at := 0;
     Postgres.updated_at := 0 |}.

(** Table [subscriptions] with one open-ended row. *)
Definition table_netflix : gmap Z Postgres.Row :=
  {[ 1 := row "Netflix" 700 userA "01-2024" None ]}.

Definition table_spotify : gmap Z Postgres.Row :=
  {[ 2 := row "Spotify" 199 userA "02-2023" None ]}.

(** Table [subscriptions] with a row that has an end date. *)
Definition table_ended : gmap Z Postgres.Row :=
  {[ 1 := row "Netflix" 599 userA "01-2023" (Some "01-2024") ]}.

(** The mock repository with the record of [table_spotify]. *)
Definition mock_spotify : gmap string Subscription :=
  (Mock.Create Mock.NewMockSubscriptionRepository 1
     (new_subscription "Spotify" 199 userA "02-2023" None)).1.

(** The query [start_period=01-2024&end_period=12-2024]. *)
Definition year_2024 : CalculateCostRequest.t :=
  {| CalculateCostRequest.UserID := None;
     CalculateCostRequest.ServiceName := None;
     CalculateCostRequest.StartPeriod := "01-2024";
     CalculateCostRequest.EndPeriod := "12-2024" |}.

(** The body [{"price": 650}] of a [PUT]: every other field is left out. *)
Definition only_price : UpdateSubscriptionRequest.t :=
  {| UpdateSubscriptionRequest.ServiceName := "";
     UpdateSubscriptionRequest.Price := Some 650;
     UpdateSubscriptionRequest.UserID := uuid_Nil;
     UpdateSubscriptionRequest.StartDate := "";
     UpdateSubscriptionRequest.EndDate := None |}.

Definition january_2024 : Spec.Month := {| Spec.month := 1; Spec.year := 2024 |}.
Definition december_2024 : Spec.Month := {| Spec.month := 12; Spec.year := 2024 |}.

End Examples.

(** ** Dates as strings *)

Module Dates.

Definition is_digit (c : ascii) : bool :=
  (48 <=? N_of_ascii c)%N && (N_of_ascii c <=? 57)%N.

(** The seven bytes of a month [01] to [12], a hyphen and four digits. *)
Definition well_shaped (m1 m2 sep y1 y2 y3 y4 : ascii) : bool :=
  ((N_of_ascii m1 =? 48)%N
     && ((49 <=? N_of_ascii m2)%N && (N_of_ascii m2 <=? 57)%N)
   || (N_of_ascii m1 =? 49)%N
        && ((48 <=? N_of_ascii m2)%N && (N_of_ascii m2 <=? 50)%N))
  && (N_of_ascii sep =? 45)%N
  && is_digit y1 && is_digit y2 && is_digit y3 && is_digit y4.

(** Two months compared by the number of the month first and by the year
    after it. *)
Definition month_major (a b : time.Time) : bool :=
  (time.Month a <? time.Month b)
  || ((time.Month a =? time.Month b) && (time.Year a <=? time.Year b)).

(** A date column holds a month that [time.Parse] reads. *)
Definition readable (date : string) : Prop := is_Some (time.Parse date).

Definition readable_opt (date : option string) : Prop :=
  match date with
  | Some e => readable e
  | None => True
  end.

#[global] Instance readable_dec date : Decision (readable date) :=
  ltac:(unfold readable; apply _).

#[global] Instance readable_opt_dec date : Decision (readable_opt date) :=
  ltac:(unfold readable_opt; destruct date; apply _).

(** Case analysis on the tests of a byte [c], and the bytes of the
    pattern. *)
Ltac cases_of c :=
  repeat match goal with
    | |- context [(N_of_ascii c =? ?b)%N] => destruct (N_of_ascii c =? b)%N
    | |- context [(?a <=? N_of_ascii c)%N] => destruct (a <=? N_of_ascii c)%N
    | |- context [(N_of_ascii c <=? ?b)%N] => destruct (N_of_ascii c <=? b)%N
    end;
  cbn -[N.leb N.eqb N_of_ascii]; try reflexivity.

Ltac pattern_bytes :=
  change (N_of_ascii "0") with 48%N; change (N_of_ascii "1") with 49%N;
  change (N_of_ascii "2") with 50%N; change (N_of_ascii "9") with 57%N;
  change (N_of_ascii "-") with 45%N.

End Dates.

(** ** The service: requests handled one after the other

    The three routes that change the table, each with what its handler
    reads from the request.  The handlers run one at a time: no statement
    of another request comes between the statements of a handler. *)

Module Service.
Section service.
Context `{UUIDLib}.
Import models validation.

Inductive Request : Type :=
| POST (now : Z) (bound : result CreateSubscriptionRequest.t)
| PUT (now : Z) (idStr : string) (bound : result UpdateSubscriptionRequest.t)
| DELETE (idStr : string).

Definition handle (d : db.Database) (r : Request)
  : db.Database * handlers.Response :=
  match r with
  | POST now bound => handlers.Create d now bound
  | PUT now idStr bound => handlers.Update d now idStr bound
  | DELETE idStr => handlers.Delete d idStr
  end.

(** The state after the requests and the responses to them, in order. *)
Fixpoint serve (d : db.Database) (rs : list Request)
  : db.Database * list handlers.Response :=
  match rs with
  | [] => (d, [])
  | r :: rs =>
      let '(d1, resp) := handle d r in
      let '(d2, resps) := serve d1 rs in
      (d2, resp :: resps)
  end.

(** The [id] in the body of a response [201 Created]. *)
Definition created_id (resp : handlers.Response) : option Z :=
  if handlers.status resp =? handlers.StatusCreated then
    match handlers.body resp with
    | handlers.subscription_body s => Some (ID s)
    | _ => None
    end
  else None.

Definition created_ids (resps : list handlers.Response) : list Z :=
  omap created_id resps.

(** Every [id] of the table is a value the sequence has handed out. *)
Definition fresh (d : db.Database) : Prop :=
  map_Forall (fun id _ => id < db.subscriptions_id_seq d)
    (db.subscriptions d).

(** Both date columns of every row hold months [time.Parse] reads. *)
Definition dated_row (row : Postgres.Row) : Prop :=
  Dates.readable (Postgres.start_date row)
  /\ Dates.readable_opt (Postgres.end_date row).

Definition dated (d : db.Database) : Prop :=
  map_Forall (fun _ row => dated_row row) (db.subscriptions d).

#[global] Instance fresh_dec d : Decision (fresh d) :=
  ltac:(unfold fresh; apply _).

#[global] Instance dated_row_dec row : Decision (dated_row row) :=
  ltac:(unfold dated_row; apply _).

#[global] Instance dated_dec d : Decision (dated d) :=
  ltac:(unfold dated; apply _).

(** The first condition of the query of [Postgres.CalculateTotalCost] read
    on months: the record starts no later than [e] and has no end or one
    no earlier than [s], in the order that puts the number of the month
    before the year. *)
Definition active_months (s e : time.Time) (sub : Subscription) : bool :=
  match time.Parse (StartDate sub) with
  | None => false
  | Some ss =>
      Dates.month_major ss e
      && match EndDate sub with
         | None => true
         | Some ed =>
             match time.Parse ed with
             | None => false
             | Some se => Dates.month_major s se
             end
         end
  end.

End service.
End Service.

(** ** A database and requests to it *)

Module Samples.
Import models GoogleUUID validation.

(** The identifier [70701fee-3bf1-5721-be6f-8636e79a0cba] *)
Definition userB : UUID :=
  [112; 112; 31; 238; 59; 241; 87; 33; 190; 111; 134; 54; 231; 154; 12; 186]%N.

(** The database after the first start of the service. *)
Definition seeded : db.Database :=
  db.RunMigrations None Examples.userA userB 0.

(** The body of a [POST]. *)
Definition netflix : CreateSubscriptionRequest.t :=
  {| CreateSubscriptionRequest.ServiceName := "Netflix";
     CreateSubscriptionRequest.Price := 700;
     CreateSubscriptionRequest.UserID := Examples.userA;
     CreateSubscriptionRequest.StartDate := "01-2024";
     CreateSubscriptionRequest.EndDate := None |}.

(** The record in the response to it. *)
Definition created : Subscription :=
  {| ID := 4; ServiceName := "Netflix"; Price := 700;
     UserID := Examples.userA; StartDate := "01-2024"; EndDate := None;
     CreatedAt := 10; UpdatedAt := 10 |}.

(** The row is created, deleted and created again. *)
Definition requests : list Service.Request :=
  [Service.POST 10 (Ok netflix); Service.DELETE "4";
   Service.POST 20 (Ok netflix)].

Definition month (m y : Z) : time.Time :=
  {| time.Year := y; time.Month := m |}.

(** Two records in the two orders a [range] loop may visit them. *)
Definition in_order : list Subscription :=
  [Examples.stored_netflix; Examples.stored_spotify].

Definition reversed : list Subscription :=
  [Examples.stored_spotify; Examples.stored_netflix].

(** The arguments of two calls of [Create]. *)
Definition news : list (Z * Subscription) :=
  [(1, Examples.netflix); (2, Examples.spotify)].

Definition creates : list Views.Op :=
  [Views.create 1 Examples.netflix; Views.create 2 Examples.spotify].

(** A record that comes with the [ID] of a stored one. *)
Definition second_again : Subscription := set_ID 2 Examples.netflix.

End Samples.

(** * Properties *)

(** ** Arithmetic of [int] *)

Module GoIntFacts.
Import GoInt.

Lemma wrap_in_range z : in_range (wrap z).
Proof.
  unfold in_range, wrap, min_int, max_int.
  pose proof (Z.mod_pos_bound (z + 2 ^ 63) (2 ^ 64)). lia.
Qed.

Lemma wrap_id z : in_range z -> wrap z = z.
Proof.
  unfold in_range, wrap, min_int, max_int. intros Hz.
  rewrite Z.mod_small; lia.
Qed.

Lemma wrap_mod z : wrap z mod 2 ^ 64 = z mod 2 ^ 64.
Proof.
  unfold wrap.
  rewrite Zminus_mod, Zmod_mod, <- Zminus_mod.
  f_equal. lia.
Qed.

Lemma wrap_eq_mod a b : a mod 2 ^ 64 = b mod 2 ^ 64 -> wrap a = wrap b.
Proof.
  intros Hab. unfold wrap.
  rewrite (Zplus_mod a), (Zplus_mod b), Hab. reflexivity.
Qed.

Lemma wrap_add_l a b : wrap (wrap a + b) = wrap (a + b).
Proof.
  apply wrap_eq_mod.
  rewrite Zplus_mod, wrap_mod, <- Zplus_mod. reflexivity.
Qed.

Lemma wrap_add_r a b : wrap (a + wrap b) = wrap (a + b).
Proof. rewrite Z.add_comm, wrap_add_l, Z.add_comm. reflexivity. Qed.

Lemma in_range_0 : in_range 0.
Proof. unfold in_range, min_int, max_int. lia. Qed.

End GoIntFacts.

(** ** Parsed months *)

Module timeFacts.
Import time Views.

Lemma digit_range c d : digit c = Some d -> 0 <= d <= 9.
Proof.
  unfold digit, strconv.digit_value.
  destruct (Z.leb_spec 0 (Z.of_N (N_of_ascii c) - 48)),
           (Z.leb_spec (Z.of_N (N_of_ascii c) - 48) 9);
    simpl; intros [= <-]; lia.
Qed.

Lemma Parse_fields_well_formed m1 m2 y1 y2 y3 y4 t :
  Parse_fields m1 m2 y1 y2 y3 y4 = Some t -> well_formed t.
Proof.
  unfold Parse_fields, well_formed.
  destruct (digit m1) as [a|] eqn:Ha; [|discriminate].
  destruct (digit m2) as [b|] eqn:Hb; [|discriminate].
  destruct (digit y1) as [c|] eqn:Hc; [|discriminate].
  destruct (digit y2) as [d|] eqn:Hd; [|discriminate].
  destruct (digit y3) as [e|] eqn:He; [|discriminate].
  destruct (digit y4) as [f|] eqn:Hf; [|discriminate].
  apply digit_range in Ha, Hb, Hc, Hd, He, Hf.
  destruct (_ || _) eqn:Hm; [discriminate|].
  intros [= <-]. simpl.
  apply orb_false_iff in Hm as [Hm1 Hm2].
  apply Z.leb_gt in Hm1. apply Z.ltb_ge in Hm2. lia.
Qed.

Lemma Parse_well_formed value t : Parse value = Some t -> well_formed t.
Proof.
  unfold Parse.
  destruct value as [|m1 [|m2 [|sep [|y1 [|y2 [|y3 [|y4 [|]]]]]]]];
    try discriminate.
  case_bool_decide; [|discriminate].
  apply Parse_fields_well_formed.
Qed.

Lemma After_index t u :
  well_formed t -> well_formed u -> After t u = (index u <? index t).
Proof.
  unfold well_formed, After, index. intros Ht Hu.
  destruct (Z.ltb_spec (Year u) (Year t)),
           (Z.eqb_spec (Year u) (Year t)),
           (Z.ltb_spec (Month u) (Month t)),
           (Z.ltb_spec (Year u * 12 + Month u) (Year t * 12 + Month t));
    simpl; try reflexivity; lia.
Qed.

Lemma index_range t : well_formed t -> 1 <= index t <= 120000.
Proof. unfold well_formed, index. lia. Qed.

End timeFacts.

(** ** [Atoi] reads back what [Itoa] writes *)

Module strconvFacts.
Import strconv.

Lemma digit_value_char (d : N) :
  (d < 10)%N -> digit_value (pretty_N_char d) = Some (Z.of_N d).
Proof.
  intros Hd.
  assert (d = 0 \/ d = 1 \/ d = 2 \/ d = 3 \/ d = 4 \/ d = 5 \/ d = 6
          \/ d = 7 \/ d = 8 \/ d = 9)%N as Hcases by lia.
  repeat (destruct Hcases as [-> | Hcases]; [reflexivity|]).
  subst d. reflexivity.
Qed.

(** The digits [pretty_N_go x s] puts before [s] are read as [x], shifted
    past what was read before them. *)
Lemma ParseUint_loop_pretty (x : N) :
  exists k : nat, forall (s : string) (acc : Z),
    0 <= acc ->
    acc * 10 ^ Z.of_nat k + Z.of_N x <= maxUint64 ->
    ParseUint_loop acc (pretty_N_go x s)
    = ParseUint_loop (acc * 10 ^ Z.of_nat k + Z.of_N x) s.
Proof.
  induction (N.lt_wf_0 x) as [x _ IH].
  destruct (decide (x = 0%N)) as [-> | Hx].
  - exists 0%nat. intros s acc _ _. rewrite pretty_N_go_0.
    f_equal. simpl. lia.
  - assert (0 < x)%N as Hpos by lia.
    destruct (IH (x `div` 10)%N) as [k Hk]; [by apply N.div_lt|].
    exists (S k). intros s acc Hacc Hbound.
    rewrite pretty_N_go_step by done.
    rewrite Nat2Z.inj_succ, Z.pow_succ_r in * by lia.
    pose proof (Z.div_mod (Z.of_N x) 10 ltac:(lia)) as Hdm.
    pose proof (Z.mod_pos_bound (Z.of_N x) 10 ltac:(lia)) as Hm.
    pose proof (N2Z.is_nonneg (x `div` 10)) as Hq.
    assert (0 < 10 ^ Z.of_nat k) as Hp by (apply Z.pow_pos_nonneg; lia).
    rewrite N2Z.inj_div in *. change (Z.of_N 10) with 10 in *.
    unfold maxUint64 in *. change (2 ^ 64 - 1) with 18446744073709551615 in *.
    rewrite Hk by nia.
    simpl ParseUint_loop.
    rewrite digit_value_char by (apply N.mod_lt; lia).
    rewrite N2Z.inj_mod. change (Z.of_N 10) with 10.
    unfold maxUint64.
    change (2 ^ 64 - 1) with 18446744073709551615.
    change (18446744073709551615 `div` 10 + 1) with 1844674407370955162.
    destruct (Z.leb_spec 1844674407370955162
                (acc * 10 ^ Z.of_nat k + Z.of_N x `div` 10)); [nia|].
    destruct (Z.ltb_spec 18446744073709551615
                ((acc * 10 ^ Z.of_nat k + Z.of_N x `div` 10) * 10
                 + Z.of_N x `mod` 10)); [nia|].
    f_equal. nia.
Qed.

Lemma pretty_N_go_head (x : N) (s : string) :
  (0 < x)%N ->
  exists d rest, (d < 10)%N /\ pretty_N_go x s = String (pretty_N_char d) rest.
Proof.
  revert s. induction (N.lt_wf_0 x) as [x _ IH]. intros s Hpos.
  rewrite pretty_N_go_step by done.
  destruct (decide (x `div` 10 = 0)%N) as [Hq | Hq].
  - rewrite Hq, pretty_N_go_0.
    exists (x `mod` 10)%N, s. split; [apply N.mod_lt; lia | done].
  - apply IH; [by apply N.div_lt | by apply N.neq_0_lt_0].
Qed.

Lemma ParseUint_pretty_N_go (x : N) :
  (0 < x)%N -> Z.of_N x <= maxUint64 ->
  ParseUint (pretty_N_go x "") = (Z.of_N x, None).
Proof.
  intros Hpos Hbound.
  destruct (pretty_N_go_head x "" Hpos) as (d & rest & _ & Hhead).
  unfold ParseUint. rewrite Hhead, <- Hhead.
  destruct (ParseUint_loop_pretty x) as [k Hk].
  rewrite Hk by lia. reflexivity.
Qed.

(** A string that starts with a digit has no sign to pick off. *)
Lemma ParseInt_digit_head (d : N) (rest : string) :
  (d < 10)%N ->
  ParseInt (String (pretty_N_char d) rest)
  = ParseInt_signed false (String (pretty_N_char d) rest).
Proof.
  intros Hd.
  assert (d = 0 \/ d = 1 \/ d = 2 \/ d = 3 \/ d = 4 \/ d = 5 \/ d = 6
          \/ d = 7 \/ d = 8 \/ d = 9)%N as Hcases by lia.
  repeat (destruct Hcases as [-> | Hcases]; [reflexivity|]).
  subst d. reflexivity.
Qed.

Lemma Atoi_Itoa (z : Z) : GoInt.in_range z -> Atoi (Itoa z) = (z, None).
Proof.
  unfold GoInt.in_range, GoInt.min_int, GoInt.max_int, Atoi, Itoa.
  intros Hz. destruct z as [|p|p].
  - reflexivity.
  - change (pretty (Z.pos p)) with (pretty_N_go (N.pos p) "").
    destruct (pretty_N_go_head (N.pos p) "" ltac:(lia))
      as (d & rest & Hd & Hhead).
    rewrite Hhead, ParseInt_digit_head, <- Hhead by done.
    unfold ParseInt_signed.
    rewrite ParseUint_pretty_N_go by (unfold maxUint64; simpl; lia).
    simpl. destruct (Z.leb_spec (2 ^ 63) (Z.pos p)); [lia | reflexivity].
  - change (pretty (Z.neg p)) with (String "-" (pretty_N_go (N.pos p) "")).
    unfold ParseInt, ParseInt_signed.
    rewrite ParseUint_pretty_N_go by (unfold maxUint64; simpl; lia).
    simpl. destruct (Z.ltb_spec (2 ^ 63) (Z.pos p)); [lia | reflexivity].
Qed.

Lemma Itoa_inj (a b : Z) : Itoa a = Itoa b -> a = b.
Proof. unfold Itoa. apply (inj pretty). Qed.

End strconvFacts.

(** ** The in-memory repository: listing *)

Module MockListFacts.
Section facts.
Context `{UUIDLib}.
Import models Views.

Lemma filter_all {A : Type} (P : A -> Prop) `{!forall x, Decision (P x)}
    (l : list A) :
  (forall x, P x) -> filter P l = l.
Proof.
  intros HP. induction l as [|x l IH]; [done|].
  by rewrite filter_cons_True, IH.
Qed.

Lemma filter_none {A : Type} (P : A -> Prop) `{!forall x, Decision (P x)}
    (l : list A) :
  (forall x, ~ P x) -> filter P l = [].
Proof.
  intros HP. induction l as [|x l IH]; [done|].
  by rewrite filter_cons_False.
Qed.

(** One iteration of the loop of [List] appends the record exactly when it
    is [kept]. *)
Lemma List_loop_cons userID serviceName sub rest result :
  Mock.List_loop userID serviceName (sub :: rest) result
  = Mock.List_loop userID serviceName rest
      (if decide (kept userID serviceName sub)
       then result ++ [sub] else result).
Proof.
  simpl. unfold kept.
  destruct (decide _) as [[Hu Hs] | Hn].
  - rewrite (proj2 (andb_false_iff _ _)).
    + rewrite (proj2 (andb_false_iff _ _)); [done|].
      destruct Hs as [-> | Hs].
      * left. by apply bool_decide_eq_false_2; intros [].
      * right. apply bool_decide_eq_false_2. intros Hx. by apply Hx.
    + destruct Hu as [-> | Hu].
      * left. by apply bool_decide_eq_false_2; intros [].
      * right. rewrite Hu.
        apply bool_decide_eq_false_2. intros Hx. by apply Hx.
  - destruct (bool_decide (userID <> "") && _) eqn:Hc1; [done|].
    destruct (bool_decide (serviceName <> "") && _) eqn:Hc2; [done|].
    exfalso. apply Hn. split.
    + apply andb_false_iff in Hc1 as [Hc1 | Hc1].
      * apply bool_decide_eq_false in Hc1. left.
        by destruct (decide (userID = "")).
      * right. destruct (uuid_Parse userID) as [uid|]; [|done].
        apply bool_decide_eq_false in Hc1.
        by destruct (decide (UserID sub = uid)) as [-> | ?].
    + apply andb_false_iff in Hc2 as [Hc2 | Hc2].
      * apply bool_decide_eq_false in Hc2. left.
        by destruct (decide (serviceName = "")).
      * apply bool_decide_eq_false in Hc2. right.
        by destruct (decide (ServiceName sub = serviceName)).
Qed.

Lemma List_loop_filter userID serviceName subs result :
  Mock.List_loop userID serviceName subs result
  = result ++ filter (kept userID serviceName) subs.
Proof.
  revert result. induction subs as [|sub rest IH]; intros result.
  - simpl. by rewrite app_nil_r.
  - rewrite List_loop_cons, IH.
    destruct (decide (kept userID serviceName sub)) as [Hk | Hk].
    + rewrite filter_cons_True by done. by rewrite <- app_assoc.
    + by rewrite filter_cons_False by done.
Qed.

Lemma List_filter r userID serviceName :
  Mock.List r userID serviceName
  = filter (kept userID serviceName) (Mock.range r).
Proof. unfold Mock.List. by rewrite List_loop_filter. Qed.

End facts.
End MockListFacts.

(** ** The in-memory repository: the cost calculation *)

Module MockCostFacts.
Section facts.
Context `{UUIDLib}.
Import models Views GoIntFacts timeFacts.

(** On months of years 0..9999 the month count does not wrap. *)
Lemma subMonths_exact (es ee : time.Time) :
  well_formed es -> well_formed ee ->
  GoInt.add
    (GoInt.add
       (GoInt.mul (GoInt.sub (time.Year ee) (time.Year es)) 12)
       (GoInt.sub (time.Month ee) (time.Month es)))
    1
  = index ee - index es + 1.
Proof.
  unfold well_formed, index, GoInt.add, GoInt.sub, GoInt.mul.
  intros Hs He.
  assert (forall z, -1000000 <= z <= 1000000 -> GoInt.wrap z = z) as Hw.
  { intros z Hz. apply wrap_id.
    unfold GoInt.in_range, GoInt.min_int, GoInt.max_int. lia. }
  rewrite (Hw (time.Year ee - time.Year es)) by lia.
  rewrite (Hw (time.Month ee - time.Month es)) by lia.
  rewrite (Hw ((time.Year ee - time.Year es) * 12)) by lia.
  rewrite (Hw ((time.Year ee - time.Year es) * 12
               + (time.Month ee - time.Month es))) by lia.
  rewrite Hw by lia. lia.
Qed.

Lemma effective_start_well_formed s ss :
  well_formed s -> well_formed ss -> well_formed (effective_start s ss).
Proof. unfold effective_start. by destruct (time.After ss s). Qed.

Lemma effective_end_well_formed e sub :
  well_formed e -> well_formed (effective_end e sub).
Proof.
  unfold effective_end. intros He.
  destruct (EndDate sub) as [ed|]; [|done].
  destruct (time.Parse ed) as [se|] eqn:Hp; [|done].
  apply Parse_well_formed in Hp. by destruct (time.Before se e).
Qed.

(** One iteration adds [cost], wrapped. *)
Lemma loop_cons s e tot sub rest :
  well_formed s -> well_formed e -> GoInt.in_range tot ->
  Mock.CalculateTotalCost_loop s e tot (sub :: rest)
  = Mock.CalculateTotalCost_loop s e (GoInt.wrap (tot + cost s e sub)) rest.
Proof.
  intros Hs He Htot. simpl. unfold cost.
  destruct (time.Parse (StartDate sub)) as [ss|] eqn:Hss.
  2: { by rewrite Z.add_0_r, wrap_id. }
  destruct (time.After ss e).
  { by rewrite Z.add_0_r, wrap_id. }
  apply Parse_well_formed in Hss.
  fold (effective_start s ss). fold (effective_end e sub).
  rewrite subMonths_exact
    by auto using effective_start_well_formed, effective_end_well_formed.
  destruct (0 <? _).
  - unfold GoInt.add, GoInt.mul. by rewrite wrap_add_r.
  - by rewrite Z.add_0_r, wrap_id.
Qed.

(** The loop returns the sum of the costs, as an [int]. *)
Lemma loop_total s e tot subs :
  well_formed s -> well_formed e -> GoInt.in_range tot ->
  Mock.CalculateTotalCost_loop s e tot subs
  = GoInt.wrap (tot + total s e subs).
Proof.
  intros Hs He. revert tot.
  induction subs as [|sub rest IH]; intros tot Htot.
  - simpl. by rewrite Z.add_0_r, wrap_id.
  - rewrite loop_cons by done.
    rewrite IH by apply wrap_in_range.
    simpl. rewrite wrap_add_l. f_equal. lia.
Qed.

Lemma total_app s e l1 l2 :
  total s e (l1 ++ l2) = total s e l1 + total s e l2.
Proof.
  induction l1 as [|x l1 IH]; simpl; [done|]. rewrite IH. lia.
Qed.

(** The total does not depend on the order of the records. *)
Lemma total_Permutation s e l1 l2 :
  l1 ≡ₚ l2 -> total s e l1 = total s e l2.
Proof.
  induction 1 as [|x l1 l2 _ IH|x y l|l1 l2 l3 _ IH1 _ IH2]; simpl; lia.
Qed.

(** [CalculateTotalCost] on a window that parses and is in order. *)
Lemma CalculateTotalCost_total r userID serviceName startPeriod endPeriod s e :
  time.Parse startPeriod = Some s ->
  time.Parse endPeriod = Some e ->
  time.After s e = false ->
  Mock.CalculateTotalCost r userID serviceName startPeriod endPeriod
  = Ok (GoInt.wrap
          (total s e (filter (kept userID serviceName) (Mock.range r)))).
Proof.
  intros Hs He Hse. unfold Mock.CalculateTotalCost.
  rewrite Hs, He, Hse.
  rewrite loop_total
    by eauto using Parse_well_formed, in_range_0.
  by rewrite MockListFacts.List_filter.
Qed.

(** The code and the specification agree on a record with well-formed
    dates. *)
Lemma cost_contribution s e sub rec :
  well_formed s -> well_formed e ->
  to_spec sub = Some rec ->
  cost s e sub = Spec.contribution rec (to_month s) (to_month e).
Proof.
  intros Hs He. unfold to_spec, cost, Spec.contribution.
  destruct (time.Parse (StartDate sub)) as [ss|] eqn:Hss; [|done].
  apply Parse_well_formed in Hss.
  rewrite After_index by done.
  assert (forall t, Spec.month_index (to_month t) = index t) as Hidx by done.
  unfold effective_end.
  destruct (EndDate sub) as [ed|].
  - destruct (time.Parse ed) as [se|] eqn:Hse; [|done].
    apply Parse_well_formed in Hse.
    intros [= <-]. simpl. rewrite !Hidx.
    destruct (index e <? index ss); [done|].
    unfold Spec.months_overlap, Spec.max_month, Spec.min_month,
      effective_start, time.Before. simpl.
    rewrite !After_index, !Hidx by done.
    destruct (Z.ltb_spec (index s) (index ss)),
             (Z.ltb_spec (index ss) (index s)),
             (Z.ltb_spec (index se) (index e)),
             (Z.ltb_spec (index e) (index se));
      rewrite ?Hidx; try lia;
      repeat match goal with
             | |- context [index ?a - index ?b + 1] =>
                 replace (index a - index b + 1)
                   with (index se - index ss + 1) by lia
             end; try done.
    all: try (replace (index se) with (index e) by lia; done).
    all: try (replace (index ss) with (index s) by lia; done).
    all: try (replace (index se) with (index e) by lia;
              replace (index ss) with (index s) by lia; done).
  - intros [= <-]. simpl. rewrite !Hidx.
    destruct (index e <? index ss); [done|].
    unfold Spec.months_overlap, Spec.max_month, effective_start. simpl.
    rewrite !After_index, !Hidx by done.
    destruct (Z.ltb_spec (index s) (index ss)),
             (Z.ltb_spec (index ss) (index s));
      rewrite ?Hidx; try lia; try done.
    replace (index ss) with (index s) by lia. done.
Qed.

End facts.
End MockCostFacts.

(** ** The in-memory repository: stores *)

Module MockStoreFacts.
Section facts.
Context `{UUIDLib}.
Import models Views GoIntFacts timeFacts MockListFacts MockCostFacts.

Lemma range_insert (r : gmap string Subscription) k sub :
  Mock.range (<[k := sub]> r) ≡ₚ sub :: Mock.range (delete k r).
Proof.
  unfold Mock.range. rewrite <- insert_delete_eq.
  by rewrite map_to_list_insert by apply lookup_delete_eq.
Qed.

(** The result depends on the records, not on the order of the [range]
    loop. *)
Lemma CalculateTotalCost_Permutation
    (r r' : gmap string Subscription) userID serviceName sp ep :
  Mock.range r ≡ₚ Mock.range r' ->
  Mock.CalculateTotalCost r userID serviceName sp ep
  = Mock.CalculateTotalCost r' userID serviceName sp ep.
Proof.
  intros Hperm. unfold Mock.CalculateTotalCost.
  destruct (time.Parse sp) as [s|] eqn:Hs; [|done].
  destruct (time.Parse ep) as [e|] eqn:He; [|done].
  destruct (time.After s e); [done|].
  rewrite !loop_total by eauto using Parse_well_formed, in_range_0.
  rewrite !List_filter. do 2 f_equal.
  apply total_Permutation. by rewrite Hperm.
Qed.

Lemma kept_set_EndDate userID serviceName e sub :
  kept userID serviceName (set_EndDate e sub) <-> kept userID serviceName sub.
Proof. done. Qed.

Lemma cost_bad_start s e sub :
  time.Parse (StartDate sub) = None -> cost s e sub = 0.
Proof. unfold cost. by intros ->. Qed.

Lemma cost_bad_end s e sub ed :
  EndDate sub = Some ed -> time.Parse ed = None ->
  cost s e sub = cost s e (set_EndDate None sub).
Proof.
  unfold cost, effective_end. simpl. by intros -> ->.
Qed.

(** The total over a store with a record put under [k]. *)
Lemma total_insert (r : gmap string Subscription) userID serviceName s e k sub :
  total s e (filter (kept userID serviceName) (Mock.range (<[k := sub]> r)))
  = (if decide (kept userID serviceName sub) then cost s e sub else 0)
    + total s e (filter (kept userID serviceName) (Mock.range (delete k r))).
Proof.
  rewrite (total_Permutation _ _ _
             (filter (kept userID serviceName) (sub :: Mock.range (delete k r)))).
  2: { by rewrite range_insert. }
  rewrite filter_cons. by destruct (decide _).
Qed.

End facts.
End MockStoreFacts.

(** ** The in-memory repository: identifiers *)

Module MockIdFacts.
Section facts.
Context `{UUIDLib}.
Import models Views GoIntFacts strconvFacts.

Lemma keyed_empty : keyed (∅ : gmap string Subscription).
Proof. intros k s Hk. by rewrite lookup_empty in Hk. Qed.

Lemma Create_ID (r : gmap string Subscription) now sub :
  ID (Mock.Create r now sub).2
  = if bool_decide (ID sub = 0)
    then GoInt.add (Z.of_nat (size r)) 1 else ID sub.
Proof. unfold Mock.Create. simpl. by case_bool_decide. Qed.

Lemma Create_store (r : gmap string Subscription) now sub :
  (Mock.Create r now sub).1
  = <[strconv.Itoa (ID (Mock.Create r now sub).2)
      := (Mock.Create r now sub).2]> r.
Proof. done. Qed.

Lemma Create_in_range (r : gmap string Subscription) now sub :
  GoInt.in_range (ID sub) -> GoInt.in_range (ID (Mock.Create r now sub).2).
Proof.
  intros Hsub. rewrite Create_ID. case_bool_decide; [|done].
  apply wrap_in_range.
Qed.

Lemma keyed_insert (r : gmap string Subscription) sub :
  keyed r -> GoInt.in_range (ID sub) ->
  keyed (<[strconv.Itoa (ID sub) := sub]> r).
Proof.
  intros Hr Hsub k s. rewrite lookup_insert.
  case_decide as Hk.
  - intros [= <-]. by subst k.
  - apply Hr.
Qed.

Lemma keyed_Create (r : gmap string Subscription) now sub :
  keyed r -> GoInt.in_range (ID sub) -> keyed (Mock.Create r now sub).1.
Proof.
  intros Hr Hsub. rewrite Create_store.
  apply keyed_insert; [done|]. by apply Create_in_range.
Qed.

(** On a key of the store, [Update] keeps the [ID] of the stored record. *)
Lemma Update_keeps_ID (r : gmap string Subscription) now id sub old :
  keyed r -> r !! id = Some old ->
  Mock.Update r now id sub
  = (<[id := set_UpdatedAt now (set_ID (ID old) sub)]> r,
     Ok (set_UpdatedAt now (set_ID (ID old) sub))).
Proof.
  intros Hr Hold. unfold Mock.Update. rewrite Hold.
  destruct (Hr _ _ Hold) as [-> Hrange].
  by rewrite Atoi_Itoa.
Qed.

Lemma keyed_Update (r : gmap string Subscription) now id sub :
  keyed r -> keyed (Mock.Update r now id sub).1.
Proof.
  intros Hr. destruct (r !! id) as [old|] eqn:Hold.
  - rewrite (Update_keeps_ID _ _ _ _ old) by done. simpl.
    destruct (Hr _ _ Hold) as [Hid Hrange].
    rewrite Hid at 1.
    by apply (keyed_insert r (set_UpdatedAt now (set_ID (ID old) sub))).
  - unfold Mock.Update. by rewrite Hold.
Qed.

Lemma keyed_Delete (r : gmap string Subscription) id :
  keyed r -> keyed (Mock.Delete r id).1.
Proof.
  intros Hr. unfold Mock.Delete.
  destruct (r !! id) as [old|] eqn:Hold; [|done].
  simpl. intros k s Hk.
  apply lookup_delete_Some in Hk as [_ Hk]. by apply Hr.
Qed.

Lemma keyed_apply_op (r : gmap string Subscription) op :
  keyed r -> well_typed op -> keyed (apply_op r op).
Proof.
  intros Hr Hop. destruct op as [now sub | now id sub | id]; simpl.
  - by apply keyed_Create.
  - by apply keyed_Update.
  - by apply keyed_Delete.
Qed.

Lemma keyed_fold (ops : list Op) (r : gmap string Subscription) :
  keyed r -> Forall well_typed ops -> keyed (fold_left apply_op ops r).
Proof.
  revert r. induction ops as [|op ops IH]; intros r Hr Hops; [done|].
  apply Forall_cons in Hops as [Hop Hops].
  simpl. apply IH; [|done]. by apply keyed_apply_op.
Qed.

Lemma keyed_run (ops : list Op) : Forall well_typed ops -> keyed (run ops).
Proof. apply keyed_fold, keyed_empty. Qed.

(** In a keyed store an [ID] determines the key. *)
Lemma keyed_unique (r : gmap string Subscription) k1 k2 s1 s2 :
  keyed r -> r !! k1 = Some s1 -> r !! k2 = Some s2 ->
  ID s1 = ID s2 -> k1 = k2.
Proof.
  intros Hr H1 H2 Hid.
  destruct (Hr _ _ H1) as [-> _], (Hr _ _ H2) as [-> _]. by rewrite Hid.
Qed.

End facts.
End MockIdFacts.

(** ** The SQL-backed repository *)

Module PostgresFacts.
Section facts.
Context `{UUIDLib}.
Import models Views.

Lemma map_filter_bool {A B : Type} (f : A -> B) (p : A -> bool)
    (Q : B -> Prop) `{!forall y, Decision (Q y)} (l : list A) :
  (forall x, p x = true <-> Q (f x)) ->
  map f (List.filter p l) = filter Q (map f l).
Proof.
  intros Hpq. induction l as [|x l IH]; [done|].
  simpl. rewrite filter_cons.
  destruct (p x) eqn:Hp, (decide (Q (f x))) as [Hq | Hq]; simpl.
  - by rewrite IH.
  - by apply Hpq in Hp.
  - apply Hpq in Hq. congruence.
  - done.
Qed.

(** The rows [List] returns without filters: the whole table. *)
Lemma List_all (tbl : gmap Z Postgres.Row) :
  Postgres.List tbl None None
  = map (fun kr => Postgres.scan kr.1 kr.2) (map_to_list tbl).
Proof.
  unfold Postgres.List, Postgres.select. simpl. f_equal.
  induction (map_to_list tbl) as [|x l IH]; [done|]. simpl. by rewrite IH.
Qed.

Lemma List_selected (tbl : gmap Z Postgres.Row) userID serviceName :
  Postgres.List tbl userID serviceName
  = filter (selected userID serviceName) (Postgres.List tbl None None).
Proof.
  rewrite List_all. unfold Postgres.List, Postgres.select.
  apply map_filter_bool. intros [k row]. unfold selected, Postgres.where_all.
  simpl.
  destruct userID as [u|], serviceName as [s|]; simpl;
    unfold Postgres.append_if; try case_bool_decide; simpl.
  all: rewrite ?andb_true_r, ?andb_true_iff, ?bool_decide_eq_true.
  all: intuition congruence.
Qed.

Lemma GetByID_None (tbl : gmap Z Postgres.Row) id :
  tbl !! id = None -> Postgres.GetByID tbl id = Err Postgres.not_found.
Proof. unfold Postgres.GetByID, Postgres.select_by_id. by intros ->. Qed.

Lemma Update_None (tbl : gmap Z Postgres.Row) now id req :
  tbl !! id = None ->
  Postgres.Update tbl now id req = (tbl, Some Postgres.not_found).
Proof. unfold Postgres.Update, Postgres.exec_update. by intros ->. Qed.

Lemma Delete_None (tbl : gmap Z Postgres.Row) id :
  tbl !! id = None ->
  Postgres.Delete tbl id = (tbl, Some Postgres.not_found).
Proof. unfold Postgres.Delete, Postgres.exec_delete. by intros ->. Qed.

(** What [Update] does to the row it finds: the four guarded columns keep
    their value when the request leaves them out, [created_at] is kept,
    and [end_date] and [updated_at] are always written. *)
Lemma Update_frame (tbl : gmap Z Postgres.Row) now id req row :
  tbl !! id = Some row ->
  exists row',
    Postgres.Update tbl now id req = (<[id := row']> tbl, None)
    /\ (UpdateSubscriptionRequest.ServiceName req = "" ->
        Postgres.service_name row' = Postgres.service_name row)
    /\ (UpdateSubscriptionRequest.Price req = None ->
        Postgres.price row' = Postgres.price row)
    /\ (UpdateSubscriptionRequest.UserID req = uuid_Nil ->
        Postgres.user_id row' = Postgres.user_id row)
    /\ (UpdateSubscriptionRequest.StartDate req = "" ->
        Postgres.start_date row' = Postgres.start_date row)
    /\ Postgres.created_at row' = Postgres.created_at row
    /\ Postgres.end_date row' = UpdateSubscriptionRequest.EndDate req
    /\ Postgres.updated_at row' = now.
Proof.
  intros Hrow. unfold Postgres.Update, Postgres.exec_update.
  rewrite Hrow. eexists. split; [reflexivity|].
  unfold Postgres.append_if.
  destruct (UpdateSubscriptionRequest.Price req);
    repeat case_bool_decide; simpl; intuition congruence.
Qed.

(** [CalculateTotalCost] adds the prices of the rows [List] returns for the
    same filters that are active in the window. *)
Lemma CalculateTotalCost_List (tbl : gmap Z Postgres.Row) req :
  Postgres.CalculateTotalCost tbl req
  = Ok (sum_prices
          (List.filter
             (active (CalculateCostRequest.StartPeriod req)
                     (CalculateCostRequest.EndPeriod req))
             (Postgres.List tbl (CalculateCostRequest.UserID req)
                (CalculateCostRequest.ServiceName req)))).
Proof.
  unfold Postgres.CalculateTotalCost, Postgres.List,
    Postgres.select_sum_price, Postgres.select.
  set (a := Postgres.active_cond _ _).
  set (cs := match CalculateCostRequest.ServiceName req with
             | Some s => Postgres.append_if _
                 (match CalculateCostRequest.UserID req with
                  | Some u => [] ++ [Postgres.user_id_cond u]
                  | None => []
                  end) _
             | None => _
             end).
  assert (match CalculateCostRequest.ServiceName req with
          | Some s => Postgres.append_if (bool_decide (s <> ""))
              (match CalculateCostRequest.UserID req with
               | Some u => [a] ++ [Postgres.user_id_cond u]
               | None => [a]
               end) (Postgres.service_name_cond s)
          | None =>
              match CalculateCostRequest.UserID req with
              | Some u => [a] ++ [Postgres.user_id_cond u]
              | None => [a]
              end
          end = a :: cs) as ->.
  { subst cs. unfold Postgres.append_if.
    destruct (CalculateCostRequest.ServiceName req),
             (CalculateCostRequest.UserID req);
      try case_bool_decide; reflexivity. }
  assert (forall l : list (Z * Postgres.Row),
            foldr (fun kr acc => Postgres.price kr.2 + acc) 0
              (List.filter (fun kr => Postgres.where_all (a :: cs) kr.2) l)
            = sum_prices
                (List.filter
                   (active (CalculateCostRequest.StartPeriod req)
                           (CalculateCostRequest.EndPeriod req))
                   (map (fun kr => Postgres.scan kr.1 kr.2)
                      (List.filter
                         (fun kr => Postgres.where_all cs kr.2) l))))
    as Hsum.
  { assert (forall k row,
              Postgres.holds a row
              = active (CalculateCostRequest.StartPeriod req)
                       (CalculateCostRequest.EndPeriod req)
                       (Postgres.scan k row)) as Ha by reflexivity.
    clearbody a cs. unfold Postgres.where_all, sum_prices.
    induction l as [|[k row] l IH]; [done|].
    cbn [List.filter forallb snd fst map] in *.
    rewrite (Ha k).
    destruct (forallb (fun c => Postgres.holds c row) cs);
      destruct (active _ _ (Postgres.scan k row)) eqn:Hact;
      cbn [andb List.filter map fst snd]; rewrite ?Hact;
      cbn [foldr snd]; by rewrite IH. }
  rewrite <- Hsum.
  by destruct (List.filter _ (map_to_list tbl)).
Qed.

End facts.
End PostgresFacts.

(** * The claims *)

Section claims.
Context `{UUIDLib}.
Import models Views.
Import GoIntFacts timeFacts MockListFacts MockCostFacts MockStoreFacts.
Import MockIdFacts.

(** X1.  The in-memory cost calculation implements the calculator of the
    specification: on a window that parses and is in order, and records
    whose dates are well formed, it returns the sum of
    [price * months_overlap] over the listed records whose range meets the
    window, as a Go [int]. *)
Theorem Mock_CalculateTotalCost_refines_spec
    (r : gmap string Subscription) userID serviceName sp ep s e recs :
  time.Parse sp = Some s ->
  time.Parse ep = Some e ->
  time.After s e = false ->
  mapM to_spec (Mock.List r userID serviceName) = Some recs ->
  Mock.CalculateTotalCost r userID serviceName sp ep
  = Ok (GoInt.wrap (Spec.total_cost recs (to_month s) (to_month e))).
Proof.
  intros Hs He Hse Hrecs.
  rewrite (CalculateTotalCost_total _ _ _ _ _ s e) by done.
  rewrite <- List_filter. do 2 f_equal.
  apply mapM_Some in Hrecs.
  apply Parse_well_formed in Hs, He.
  induction Hrecs as [|sub rec subs recs Hrec _ IH]; [done|].
  simpl. rewrite IH. f_equal. by apply cost_contribution.
Qed.

(** X2.  In the in-memory calculation an open-ended record that the filters keep
    and that starts no later than the window counts every month of the
    window at its price. *)
Theorem Mock_open_ended_counts_window
    (r : gmap string Subscription) k sub userID serviceName sp ep s e ss :
  time.Parse sp = Some s ->
  time.Parse ep = Some e ->
  time.After s e = false ->
  r !! k = Some sub ->
  kept userID serviceName sub ->
  EndDate sub = None ->
  time.Parse (StartDate sub) = Some ss ->
  time.After ss s = false ->
  exists rest,
    Mock.CalculateTotalCost (delete k r) userID serviceName sp ep = Ok rest
    /\ Mock.CalculateTotalCost r userID serviceName sp ep
       = Ok (GoInt.wrap (Price sub * (index e - index s + 1) + rest)).
Proof.
  intros Hs He Hse Hk Hkept Hend Hss Hstart.
  rewrite (CalculateTotalCost_total (delete k r) _ _ _ _ s e) by done.
  eexists. split; [reflexivity|].
  rewrite <- (insert_delete_id r k sub Hk) at 1.
  rewrite (CalculateTotalCost_total _ _ _ _ _ s e) by done.
  rewrite total_insert, delete_delete_eq, decide_True by done.
  rewrite wrap_add_r. do 3 f_equal.
  unfold cost, effective_end, effective_start.
  rewrite Hss, Hend, Hstart.
  apply Parse_well_formed in Hs, He, Hss.
  rewrite After_index in * by done.
  apply Z.ltb_ge in Hse, Hstart.
  destruct (Z.ltb_spec (index e) (index ss)); [lia|].
  destruct (Z.ltb_spec 0 (index e - index s + 1)); [done | lia].
Qed.

(** C2 (amended).  For month values that parse, the in-memory calculator
    returns a total and no error when the start of the window is not after
    its end, whatever the records are; for a reversed window it returns
    the error "start period cannot be after end period". *)
Theorem Mock_CalculateTotalCost_window_order
    (r : gmap string Subscription) userID serviceName sp ep s e :
  time.Parse sp = Some s ->
  time.Parse ep = Some e ->
  (time.After s e = false ->
   exists total,
     Mock.CalculateTotalCost r userID serviceName sp ep = Ok total)
  /\ (time.After s e = true ->
      Mock.CalculateTotalCost r userID serviceName sp ep
      = Err "start period cannot be after end period").
Proof.
  intros Hs He. unfold Mock.CalculateTotalCost. rewrite Hs, He.
  split; intros ->; eauto.
Qed.

(** C4.  On a store whose records are the open-ended subscriptions Netflix
    (700, from 01-2024) and Spotify (199, from 02-2024) of one user, the
    cost of that user over 01-2024..12-2024 is 10589. *)
Theorem Mock_two_subscriptions_total
    (r : gmap string Subscription) userA u s1 s2 :
  userA <> "" ->
  uuid_Parse userA = Some u ->
  Mock.range r ≡ₚ [s1; s2] ->
  describes "Netflix" 700 u "01-2024" None s1 ->
  describes "Spotify" 199 u "02-2024" None s2 ->
  Mock.CalculateTotalCost r userA "" "01-2024" "12-2024" = Ok 10589.
Proof.
  intros HuserA Hparse Hrange (_ & Hp1 & Hu1 & Hs1 & He1)
    (_ & Hp2 & Hu2 & Hs2 & He2).
  erewrite CalculateTotalCost_total by (reflexivity || done).
  rewrite (total_Permutation _ _ _ [s1; s2]).
  - unfold total, cost, effective_end. simpl.
    rewrite Hp1, Hs1, He1, Hp2, Hs2, He2. reflexivity.
  - rewrite Hrange.
    assert (forall sub, UserID sub = u -> kept userA "" sub) as Hkept.
    { intros sub Hsub. split; [right; congruence | by left]. }
    by rewrite !filter_cons_True by auto.
Qed.

(** C9.  A user filter that is not empty and that [uuid.Parse] rejects
    makes the in-memory [List] return no record and no error, so that a
    calculation with it totals 0. *)
Theorem Mock_List_malformed_user_filter
    (r : gmap string Subscription) userID serviceName :
  userID <> "" ->
  uuid_Parse userID = None ->
  Mock.List r userID serviceName = []
  /\ (forall sp ep s e,
        time.Parse sp = Some s -> time.Parse ep = Some e ->
        time.After s e = false ->
        Mock.CalculateTotalCost r userID serviceName sp ep = Ok 0).
Proof.
  intros Hne Hparse.
  assert (filter (kept userID serviceName) (Mock.range r) = []) as Hnone.
  { apply filter_none. intros sub [[Hk | Hk] _]; congruence. }
  split.
  - by rewrite List_filter.
  - intros sp ep s e Hs He Hse.
    rewrite (CalculateTotalCost_total _ _ _ _ _ s e) by done.
    by rewrite Hnone.
Qed.

(** C10.  On a window that parses and is in order the in-memory
    calculation returns a total whatever the stored records are; a record
    whose start date does not parse adds nothing to it, and a record whose
    end date does not parse counts as the same record without end date. *)
Theorem Mock_CalculateTotalCost_malformed_records
    (r : gmap string Subscription) userID serviceName sp ep s e :
  time.Parse sp = Some s ->
  time.Parse ep = Some e ->
  time.After s e = false ->
  (exists total,
     Mock.CalculateTotalCost r userID serviceName sp ep = Ok total)
  /\ (forall k sub,
        time.Parse (StartDate sub) = None ->
        Mock.CalculateTotalCost (<[k := sub]> r) userID serviceName sp ep
        = Mock.CalculateTotalCost (delete k r) userID serviceName sp ep)
  /\ (forall k sub ed,
        EndDate sub = Some ed ->
        time.Parse ed = None ->
        Mock.CalculateTotalCost (<[k := sub]> r) userID serviceName sp ep
        = Mock.CalculateTotalCost (<[k := set_EndDate None sub]> r)
            userID serviceName sp ep).
Proof.
  intros Hs He Hse. split; [|split].
  - rewrite (CalculateTotalCost_total _ _ _ _ _ s e) by done. eauto.
  - intros k sub Hbad.
    rewrite !(CalculateTotalCost_total _ _ _ _ _ s e) by done.
    rewrite total_insert, cost_bad_start by done.
    by destruct (decide _).
  - intros k sub ed Hend Hbad.
    rewrite !(CalculateTotalCost_total _ _ _ _ _ s e) by done.
    rewrite !total_insert, (cost_bad_end _ _ _ ed) by done.
    destruct (decide (kept userID serviceName sub)) as [H1 | H1],
      (decide (kept userID serviceName (set_EndDate None sub))) as [H2 | H2];
      try done; exfalso; first [apply H2; assumption | apply H1; assumption].
Qed.

(** C5.  Listing with both filters returns exactly the records that match
    both, with neither filter every record, and with one filter the
    records that match it; in the in-memory repository an empty string and
    in the SQL-backed one a nil pointer leave a filter out.  Each
    calculation adds up what it charges over exactly these records: the
    in-memory one the months of each record in the window at its price,
    the SQL-backed one the price of each record active in the window. *)
Theorem List_filters_compose
    (r : gmap string Subscription) (tbl : gmap Z Postgres.Row) :
  Mock.List r "" "" = Mock.range r
  /\ (forall userID u serviceName,
        userID <> "" -> uuid_Parse userID = Some u -> serviceName <> "" ->
        Mock.List r userID serviceName
        = filter (fun sub => UserID sub = u /\ ServiceName sub = serviceName)
            (Mock.range r))
  /\ (forall userID u,
        userID <> "" -> uuid_Parse userID = Some u ->
        Mock.List r userID "" = filter (fun sub => UserID sub = u) (Mock.range r))
  /\ (forall serviceName,
        serviceName <> "" ->
        Mock.List r "" serviceName
        = filter (fun sub => ServiceName sub = serviceName) (Mock.range r))
  /\ (forall sp ep s e,
        time.Parse sp = Some s -> time.Parse ep = Some e ->
        time.After s e = false ->
        Mock.CalculateTotalCost r "" "" sp ep
        = Ok (GoInt.wrap (total s e (Mock.range r))))
  /\ (forall userID u serviceName sp ep s e,
        userID <> "" -> uuid_Parse userID = Some u -> serviceName <> "" ->
        time.Parse sp = Some s -> time.Parse ep = Some e ->
        time.After s e = false ->
        Mock.CalculateTotalCost r userID serviceName sp ep
        = Ok (GoInt.wrap
                (total s e
                   (filter (fun sub => UserID sub = u
                                       /\ ServiceName sub = serviceName)
                      (Mock.range r)))))
  /\ (forall userID u sp ep s e,
        userID <> "" -> uuid_Parse userID = Some u ->
        time.Parse sp = Some s -> time.Parse ep = Some e ->
        time.After s e = false ->
        Mock.CalculateTotalCost r userID "" sp ep
        = Ok (GoInt.wrap
                (total s e
                   (filter (fun sub => UserID sub = u) (Mock.range r)))))
  /\ (forall serviceName sp ep s e,
        serviceName <> "" ->
        time.Parse sp = Some s -> time.Parse ep = Some e ->
        time.After s e = false ->
        Mock.CalculateTotalCost r "" serviceName sp ep
        = Ok (GoInt.wrap
                (total s e
                   (filter (fun sub => ServiceName sub = serviceName)
                      (Mock.range r)))))
  /\ Postgres.List tbl None None
     = map (fun kr => Postgres.scan kr.1 kr.2) (map_to_list tbl)
  /\ (forall u serviceName,
        serviceName <> "" ->
        Postgres.List tbl (Some u) (Some serviceName)
        = filter (fun sub => UserID sub = u /\ ServiceName sub = serviceName)
            (Postgres.List tbl None None))
  /\ (forall u,
        Postgres.List tbl (Some u) None
        = filter (fun sub => UserID sub = u) (Postgres.List tbl None None))
  /\ (forall serviceName,
        serviceName <> "" ->
        Postgres.List tbl None (Some serviceName)
        = filter (fun sub => ServiceName sub = serviceName)
            (Postgres.List tbl None None))
  /\ (forall req,
        Postgres.CalculateTotalCost tbl req
        = Ok (sum_prices
                (List.filter
                   (active (CalculateCostRequest.StartPeriod req)
                           (CalculateCostRequest.EndPeriod req))
                   (Postgres.List tbl (CalculateCostRequest.UserID req)
                      (CalculateCostRequest.ServiceName req)))))
  /\ (forall sp ep,
        Postgres.CalculateTotalCost tbl
          {| CalculateCostRequest.UserID := None;
             CalculateCostRequest.ServiceName := None;
             CalculateCostRequest.StartPeriod := sp;
             CalculateCostRequest.EndPeriod := ep |}
        = Ok (sum_prices
                (List.filter (active sp ep) (Postgres.List tbl None None))))
  /\ (forall u serviceName sp ep,
        serviceName <> "" ->
        Postgres.CalculateTotalCost tbl
          {| CalculateCostRequest.UserID := Some u;
             CalculateCostRequest.ServiceName := Some serviceName;
             CalculateCostRequest.StartPeriod := sp;
             CalculateCostRequest.EndPeriod := ep |}
        = Ok (sum_prices
                (List.filter (active sp ep)
                   (filter (fun sub => UserID sub = u
                                       /\ ServiceName sub = serviceName)
                      (Postgres.List tbl None None))))).
Proof.
  repeat split.
  - rewrite List_filter. apply filter_all. intros sub. split; by left.
  - intros userID u serviceName Hu Hparse Hs.
    rewrite List_filter. apply list_filter_iff. intros sub.
    unfold kept. rewrite Hparse. intuition congruence.
  - intros userID u Hu Hparse.
    rewrite List_filter. apply list_filter_iff. intros sub.
    unfold kept. rewrite Hparse. intuition congruence.
  - intros serviceName Hs.
    rewrite List_filter. apply list_filter_iff. intros sub.
    unfold kept. intuition congruence.
  - intros sp ep s e Hs He Hse.
    rewrite (CalculateTotalCost_total _ _ _ _ _ s e) by done.
    do 3 f_equal. apply filter_all. intros sub. split; by left.
  - intros userID u serviceName sp ep s e Hu Hparse Hn Hs He Hse.
    rewrite (CalculateTotalCost_total _ _ _ _ _ s e) by done.
    do 3 f_equal. apply list_filter_iff. intros sub.
    unfold kept. rewrite Hparse. intuition congruence.
  - intros userID u sp ep s e Hu Hparse Hs He Hse.
    rewrite (CalculateTotalCost_total _ _ _ _ _ s e) by done.
    do 3 f_equal. apply list_filter_iff. intros sub.
    unfold kept. rewrite Hparse. intuition congruence.
  - intros serviceName sp ep s e Hn Hs He Hse.
    rewrite (CalculateTotalCost_total _ _ _ _ _ s e) by done.
    do 3 f_equal. apply list_filter_iff. intros sub.
    unfold kept. intuition congruence.
  - apply PostgresFacts.List_all.
  - intros u serviceName Hs.
    rewrite PostgresFacts.List_selected. apply list_filter_iff. intros sub.
    unfold selected. intuition congruence.
  - intros u.
    rewrite PostgresFacts.List_selected. apply list_filter_iff. intros sub.
    unfold selected. intuition congruence.
  - intros serviceName Hs.
    rewrite PostgresFacts.List_selected. apply list_filter_iff. intros sub.
    unfold selected. intuition congruence.
  - apply PostgresFacts.CalculateTotalCost_List.
  - intros sp ep. apply PostgresFacts.CalculateTotalCost_List.
  - intros u serviceName sp ep Hs.
    rewrite PostgresFacts.CalculateTotalCost_List. simpl.
    do 3 f_equal.
    rewrite PostgresFacts.List_selected. apply list_filter_iff. intros sub.
    unfold selected. intuition congruence.
Qed.

(** C7.  For an id under which nothing is stored, [GetByID], [Update] and
    [Delete] fail with "subscription not found", in the in-memory and in
    the SQL-backed repository, and [Update] and [Delete] return the state
    they were given. *)
Theorem not_found_leaves_store_unchanged
    (r : gmap string Subscription) (tbl : gmap Z Postgres.Row) :
  (forall id now sub,
     r !! id = None ->
     Mock.GetByID r id = Err "subscription not found"
     /\ Mock.Update r now id sub = (r, Err "subscription not found")
     /\ Mock.Delete r id = (r, Some "subscription not found"))
  /\ (forall id now req,
        tbl !! id = None ->
        Postgres.GetByID tbl id = Err "subscription not found"
        /\ Postgres.Update tbl now id req
           = (tbl, Some "subscription not found")
        /\ Postgres.Delete tbl id = (tbl, Some "subscription not found")).
Proof.
  split.
  - intros id now sub Hid.
    unfold Mock.GetByID, Mock.Update, Mock.Delete. by rewrite Hid.
  - intros id now req Hid.
    by rewrite PostgresFacts.GetByID_None, PostgresFacts.Update_None,
      PostgresFacts.Delete_None.
Qed.

(** C8 (amended).  After any sequence of [Create], [Update] and [Delete] on
    a new in-memory repository two stored records with the same [ID] are
    one entry of the store; [Create] stores the record under an [ID] the
    store assigns (the number of records plus one) when the caller passes
    [ID] 0 and under the caller's [ID] otherwise; and no call changes the
    [ID] of the record stored under a key. *)
Theorem Mock_identifiers (ops : list Op) :
  Forall well_typed ops ->
  (forall k1 k2 s1 s2,
     run ops !! k1 = Some s1 -> run ops !! k2 = Some s2 ->
     ID s1 = ID s2 -> k1 = k2 /\ s1 = s2)
  /\ (forall now sub,
        (ID sub = 0 ->
         ID (Mock.Create (run ops) now sub).2
         = GoInt.add (Z.of_nat (size (run ops))) 1)
        /\ (ID sub <> 0 -> ID (Mock.Create (run ops) now sub).2 = ID sub)
        /\ (Mock.Create (run ops) now sub).1
             !! strconv.Itoa (ID (Mock.Create (run ops) now sub).2)
           = Some (Mock.Create (run ops) now sub).2)
  /\ (forall op k s s',
        well_typed op ->
        run ops !! k = Some s -> apply_op (run ops) op !! k = Some s' ->
        ID s' = ID s).
Proof.
  intros Hops. pose proof (keyed_run ops Hops) as Hkeyed.
  split; [|split].
  - intros k1 k2 s1 s2 H1 H2 Hid.
    assert (k1 = k2) as -> by eauto using keyed_unique.
    split; [done | congruence].
  - intros now sub. repeat split.
    + intros Hz. by rewrite Create_ID, bool_decide_eq_true_2.
    + intros Hz. by rewrite Create_ID, bool_decide_eq_false_2.
    + rewrite Create_store at 1. apply lookup_insert_eq.
  - intros op k s s' Hop Hs Hs'.
    pose proof (keyed_apply_op _ op Hkeyed Hop) as Hkeyed'.
    destruct (Hkeyed _ _ Hs) as [Hk _], (Hkeyed' _ _ Hs') as [Hk' _].
    apply strconvFacts.Itoa_inj. congruence.
Qed.

End claims.

(** * The claims on concrete stores *)

Import models GoogleUUID.

(** C1.  The SQL-backed cost calculation does not return the sum of
    [price * overlapping_months]: for the one open-ended row Netflix (700,
    from 01-2024) and the window 01-2024..12-2024 it returns 700, the sum
    of the prices of the selected rows, where the sum of the specification
    and the in-memory calculation give 700 * 12 = 8400. *)
Theorem Postgres_CalculateTotalCost_ignores_months :
  Postgres.CalculateTotalCost Examples.table_netflix Examples.year_2024
  = Ok 700
  /\ Spec.total_cost
       [{| Spec.price := 700; Spec.start_period := Examples.january_2024;
           Spec.end_period := None |}]
       Examples.january_2024 Examples.december_2024
     = 8400
  /\ Mock.CalculateTotalCost Examples.one_subscription "" ""
       "01-2024" "12-2024"
     = Ok 8400.
Proof. repeat split; vm_compute; reflexivity. Qed.

(** C3.  The SQL-backed cost calculation does not count every month of the
    window for an open-ended subscription that started before it: for the
    row Spotify (199, from 02-2023, no end date) and the window
    01-2024..12-2024 it returns 199, where the in-memory calculation
    counts the twelve months, 199 * 12 = 2388. *)
Theorem Postgres_CalculateTotalCost_open_ended_once :
  Postgres.CalculateTotalCost Examples.table_spotify Examples.year_2024
  = Ok 199
  /\ Mock.CalculateTotalCost Examples.mock_spotify "" "" "01-2024" "12-2024"
     = Ok 2388.
Proof. split; vm_compute; reflexivity. Qed.

(** C6.  [Update] of the SQL-backed repository does not keep an end date
    the request leaves out: on the row Netflix (599, 01-2023 to 01-2024)
    the request that supplies only the price 650 also sets [end_date] to
    NULL. *)
Theorem Postgres_Update_clears_omitted_end_date :
  Postgres.GetByID Examples.table_ended 1
  = Ok {| ID := 1; ServiceName := "Netflix"; Price := 599;
          UserID := Examples.userA; StartDate := "01-2023";
          EndDate := Some "01-2024"; CreatedAt := 0; UpdatedAt := 0 |}
  /\ (Postgres.Update Examples.table_ended 5 1 Examples.only_price).2 = None
  /\ Postgres.GetByID
       (Postgres.Update Examples.table_ended 5 1 Examples.only_price).1 1
     = Ok {| ID := 1; ServiceName := "Netflix"; Price := 650;
             UserID := Examples.userA; StartDate := "01-2023";
             EndDate := None; CreatedAt := 0; UpdatedAt := 5 |}.
Proof. repeat split; vm_compute; reflexivity. Qed.

(** C2, as stated, fails: on the window 12-2024..01-2024, whose start is
    after its end, the in-memory calculation returns an error and not the
    total 0. *)
Lemma Mock_CalculateTotalCost_reversed_window :
  Mock.CalculateTotalCost Examples.two_subscriptions "" "" "12-2024" "01-2024"
  = Err "start period cannot be after end period"
  /\ Mock.CalculateTotalCost Examples.two_subscriptions "" ""
       "12-2024" "01-2024"
     <> Ok 0.
Proof. split; [vm_compute; reflexivity | vm_compute; discriminate]. Qed.

(** C8, as stated, fails: [Create] on the new repository with a record
    whose [ID] is 7 stores it under 7, the caller's choice, and not under
    the 1 the store assigns to a record without [ID]. *)
Lemma Mock_Create_keeps_caller_id :
  ID (Mock.Create Mock.NewMockSubscriptionRepository 1 Examples.with_id_7).2
  = 7
  /\ (Mock.Create Mock.NewMockSubscriptionRepository 1 Examples.with_id_7).1
       !! "7"
     = Some (Mock.Create Mock.NewMockSubscriptionRepository 1
               Examples.with_id_7).2
  /\ ID (Mock.Create Mock.NewMockSubscriptionRepository 1 Examples.netflix).2
     = 1.
Proof. repeat split; vm_compute; reflexivity. Qed.

(** ** The theorems at concrete inputs *)

Lemma Mock_CalculateTotalCost_window_order_witness :
  time.Parse "01-2024" = Some {| time.Year := 2024; time.Month := 1 |}
  /\ time.Parse "12-2024" = Some {| time.Year := 2024; time.Month := 12 |}
  /\ (exists total,
        Mock.CalculateTotalCost Examples.two_subscriptions "" ""
          "01-2024" "12-2024" = Ok total)
  /\ Mock.CalculateTotalCost Examples.two_subscriptions "" ""
       "12-2024" "01-2024"
     = Err "start period cannot be after end period".
Proof.
  split; [reflexivity|]. split; [reflexivity|]. split.
  - apply (Mock_CalculateTotalCost_window_order
             Examples.two_subscriptions "" "" "01-2024" "12-2024"
             {| time.Year := 2024; time.Month := 1 |}
             {| time.Year := 2024; time.Month := 12 |});
      reflexivity.
  - apply (Mock_CalculateTotalCost_window_order
             Examples.two_subscriptions "" "" "12-2024" "01-2024"
             {| time.Year := 2024; time.Month := 12 |}
             {| time.Year := 2024; time.Month := 1 |});
      reflexivity.
Defined.

Lemma Mock_two_subscriptions_total_witness :
  Examples.userA_text <> ""
  /\ uuid_Parse Examples.userA_text = Some Examples.userA
  /\ Mock.range Examples.two_subscriptions
     ≡ₚ [Examples.stored_netflix; Examples.stored_spotify]
  /\ Views.describes "Netflix" 700 Examples.userA "01-2024" None
       Examples.stored_netflix
  /\ Views.describes "Spotify" 199 Examples.userA "02-2024" None
       Examples.stored_spotify
  /\ Mock.CalculateTotalCost Examples.two_subscriptions Examples.userA_text ""
       "01-2024" "12-2024"
     = Ok 10589.
Proof.
  assert (Examples.userA_text <> "") as H1 by discriminate.
  assert (uuid_Parse Examples.userA_text = Some Examples.userA) as H2
    by reflexivity.
  assert (Mock.range Examples.two_subscriptions
          ≡ₚ [Examples.stored_netflix; Examples.stored_spotify]) as H3
    by reflexivity.
  assert (Views.describes "Netflix" 700 Examples.userA "01-2024" None
            Examples.stored_netflix) as H4
    by (repeat split; reflexivity).
  assert (Views.describes "Spotify" 199 Examples.userA "02-2024" None
            Examples.stored_spotify) as H5
    by (repeat split; reflexivity).
  repeat (split; [assumption|]).
  exact (Mock_two_subscriptions_total Examples.two_subscriptions
           Examples.userA_text Examples.userA
           Examples.stored_netflix Examples.stored_spotify H1 H2 H3 H4 H5).
Defined.

Lemma Mock_List_malformed_user_filter_witness :
  "not-a-uuid" <> ""
  /\ uuid_Parse "not-a-uuid" = None
  /\ Mock.List Examples.two_subscriptions "not-a-uuid" "" = []
  /\ Mock.CalculateTotalCost Examples.two_subscriptions "not-a-uuid" ""
       "01-2024" "12-2024"
     = Ok 0.
Proof.
  assert ("not-a-uuid" <> "") as H1 by discriminate.
  assert (uuid_Parse "not-a-uuid" = None) as H2 by reflexivity.
  destruct (Mock_List_malformed_user_filter Examples.two_subscriptions
              "not-a-uuid" "" H1 H2) as [H3 H4].
  repeat (split; [assumption|]).
  apply (H4 "01-2024" "12-2024"
           {| time.Year := 2024; time.Month := 1 |}
           {| time.Year := 2024; time.Month := 12 |});
    reflexivity.
Defined.

Lemma Mock_CalculateTotalCost_malformed_records_witness :
  time.Parse "01-2024" = Some {| time.Year := 2024; time.Month := 1 |}
  /\ time.Parse "12-2024" = Some {| time.Year := 2024; time.Month := 12 |}
  /\ time.Parse (StartDate Examples.bad_start) = None
  /\ EndDate Examples.bad_end = Some "2024-12"
  /\ time.Parse "2024-12" = None
  /\ Mock.CalculateTotalCost
       (<["9" := Examples.bad_start]> Examples.two_subscriptions) "" ""
       "01-2024" "12-2024"
     = Mock.CalculateTotalCost (delete "9" Examples.two_subscriptions) "" ""
         "01-2024" "12-2024"
  /\ Mock.CalculateTotalCost
       (<["9" := Examples.bad_end]> Examples.two_subscriptions) "" ""
       "01-2024" "12-2024"
     = Mock.CalculateTotalCost
         (<["9" := Views.set_EndDate None Examples.bad_end]>
            Examples.two_subscriptions) "" ""
         "01-2024" "12-2024".
Proof.
  assert (time.Parse "01-2024"
          = Some {| time.Year := 2024; time.Month := 1 |}) as H1
    by reflexivity.
  assert (time.Parse "12-2024"
          = Some {| time.Year := 2024; time.Month := 12 |}) as H2
    by reflexivity.
  assert (time.Parse (StartDate Examples.bad_start) = None) as H3
    by reflexivity.
  assert (EndDate Examples.bad_end = Some "2024-12") as H4 by reflexivity.
  assert (time.Parse "2024-12" = None) as H5 by reflexivity.
  destruct (Mock_CalculateTotalCost_malformed_records
              Examples.two_subscriptions "" "" "01-2024" "12-2024"
              _ _ H1 H2 eq_refl) as (_ & H6 & H7).
  repeat (split; [assumption|]).
  split.
  - exact (H6 "9" Examples.bad_start H3).
  - exact (H7 "9" Examples.bad_end "2024-12" H4 H5).
Defined.

Lemma not_found_leaves_store_unchanged_witness :
  Examples.two_subscriptions !! "3" = None
  /\ Examples.table_netflix !! 2 = None
  /\ Mock.GetByID Examples.two_subscriptions "3"
     = Err "subscription not found"
  /\ Mock.Update Examples.two_subscriptions 5 "3" Examples.netflix
     = (Examples.two_subscriptions, Err "subscription not found")
  /\ Mock.Delete Examples.two_subscriptions "3"
     = (Examples.two_subscriptions, Some "subscription not found")
  /\ Postgres.GetByID Examples.table_netflix 2
     = Err "subscription not found"
  /\ Postgres.Update Examples.table_netflix 5 2 Examples.only_price
     = (Examples.table_netflix, Some "subscription not found")
  /\ Postgres.Delete Examples.table_netflix 2
     = (Examples.table_netflix, Some "subscription not found").
Proof.
  assert (Examples.two_subscriptions !! "3" = None) as H1 by reflexivity.
  assert (Examples.table_netflix !! 2 = None) as H2 by reflexivity.
  destruct (not_found_leaves_store_unchanged
              Examples.two_subscriptions Examples.table_netflix)
    as [Hmock Hsql].
  destruct (Hmock "3" 5 Examples.netflix H1) as (H3 & H4 & H5).
  destruct (Hsql 2 5 Examples.only_price H2) as (H6 & H7 & H8).
  repeat (split; [assumption|]). assumption.
Defined.

Lemma List_filters_compose_witness :
  Examples.userA_text <> ""
  /\ uuid_Parse Examples.userA_text = Some Examples.userA
  /\ "Netflix" <> ""
  /\ Mock.List Examples.two_subscriptions "" ""
     = Mock.range Examples.two_subscriptions
  /\ Mock.List Examples.two_subscriptions Examples.userA_text "Netflix"
     = filter
         (fun sub => UserID sub = Examples.userA /\ ServiceName sub = "Netflix")
         (Mock.range Examples.two_subscriptions)
  /\ Mock.List Examples.two_subscriptions Examples.userA_text ""
     = filter (fun sub => UserID sub = Examples.userA)
         (Mock.range Examples.two_subscriptions)
  /\ Mock.List Examples.two_subscriptions "" "Netflix"
     = filter (fun sub => ServiceName sub = "Netflix")
         (Mock.range Examples.two_subscriptions)
  /\ Mock.CalculateTotalCost Examples.two_subscriptions "" ""
       "01-2024" "12-2024" = Ok 10589
  /\ Mock.CalculateTotalCost Examples.two_subscriptions Examples.userA_text
       "Netflix" "01-2024" "12-2024" = Ok 8400
  /\ Mock.CalculateTotalCost Examples.two_subscriptions Examples.userA_text
       "" "01-2024" "12-2024" = Ok 10589
  /\ Mock.CalculateTotalCost Examples.two_subscriptions ""
       "Spotify" "01-2024" "12-2024" = Ok 2189
  /\ Postgres.List Examples.table_netflix (Some Examples.userA)
       (Some "Netflix")
     = filter
         (fun sub => UserID sub = Examples.userA /\ ServiceName sub = "Netflix")
         (Postgres.List Examples.table_netflix None None)
  /\ Postgres.List Examples.table_netflix None (Some "Netflix")
     = filter (fun sub => ServiceName sub = "Netflix")
         (Postgres.List Examples.table_netflix None None)
  /\ Postgres.CalculateTotalCost Examples.table_netflix Examples.year_2024
     = Ok 700
  /\ Postgres.CalculateTotalCost Examples.table_netflix
       {| CalculateCostRequest.UserID := Some Examples.userA;
          CalculateCostRequest.ServiceName := Some "Spotify";
          CalculateCostRequest.StartPeriod := "01-2024";
          CalculateCostRequest.EndPeriod := "12-2024" |}
     = Ok 0.
Proof.
  assert (Examples.userA_text <> "") as H1 by discriminate.
  assert (uuid_Parse Examples.userA_text = Some Examples.userA) as H2
    by reflexivity.
  assert ("Netflix" <> "") as H3 by discriminate.
  assert ("Spotify" <> "") as H4 by discriminate.
  assert (time.Parse "01-2024"
          = Some {| time.Year := 2024; time.Month := 1 |}) as Hs
    by reflexivity.
  assert (time.Parse "12-2024"
          = Some {| time.Year := 2024; time.Month := 12 |}) as He
    by reflexivity.
  assert (time.After {| time.Year := 2024; time.Month := 1 |}
            {| time.Year := 2024; time.Month := 12 |} = false) as Hse
    by reflexivity.
  destruct (List_filters_compose Examples.two_subscriptions
              Examples.table_netflix)
    as (M0 & M2 & Mu & Ms & C0 & C2 & Cu & Cs & _ & P2 & _ & Ps & _ & Q0 & Q2).
  repeat (split; [assumption|]).
  split; [exact (M2 Examples.userA_text Examples.userA "Netflix" H1 H2 H3)|].
  split; [exact (Mu Examples.userA_text Examples.userA H1 H2)|].
  split; [exact (Ms "Netflix" H3)|].
  split; [exact (C0 "01-2024" "12-2024" _ _ Hs He Hse)|].
  split;
    [exact (C2 Examples.userA_text Examples.userA "Netflix" "01-2024"
              "12-2024" _ _ H1 H2 H3 Hs He Hse)|].
  split;
    [exact (Cu Examples.userA_text Examples.userA "01-2024" "12-2024" _ _
              H1 H2 Hs He Hse)|].
  split; [exact (Cs "Spotify" "01-2024" "12-2024" _ _ H4 Hs He Hse)|].
  split; [exact (P2 Examples.userA "Netflix" H3)|].
  split; [exact (Ps "Netflix" H3)|].
  split; [exact (Q0 "01-2024" "12-2024")|].
  exact (Q2 Examples.userA "Spotify" "01-2024" "12-2024" H4).
Defined.

Lemma Mock_identifiers_witness :
  Forall Views.well_typed Examples.calls
  /\ (forall k1 k2 s1 s2,
        Views.run Examples.calls !! k1 = Some s1 ->
        Views.run Examples.calls !! k2 = Some s2 ->
        ID s1 = ID s2 -> k1 = k2 /\ s1 = s2)
  /\ ID (Mock.Create (Views.run Examples.calls) 4 Examples.spotify).2
     = GoInt.add (Z.of_nat (size (Views.run Examples.calls))) 1
  /\ ID (Mock.Create (Views.run Examples.calls) 4 Examples.with_id_7).2 = 7
  /\ (forall k s s',
        Views.run Examples.calls !! k = Some s ->
        Views.apply_op (Views.run Examples.calls)
          (Views.update 9 "2" Examples.spotify) !! k = Some s' ->
        ID s' = ID s).
Proof.
  assert (GoInt.in_range 0) as H0.
  { unfold GoInt.in_range, GoInt.min_int, GoInt.max_int. lia. }
  assert (Forall Views.well_typed Examples.calls) as H1.
  { unfold Examples.calls.
    apply Forall_cons; split; [exact H0|].
    apply Forall_cons; split; [exact H0|].
    apply Forall_cons; split; [exact I|].
    apply Forall_cons; split; [exact H0|].
    constructor. }
  destruct (Mock_identifiers Examples.calls H1) as (Huniq & Hcreate & Hkeep).
  split; [assumption|]. split; [assumption|].
  split; [exact (proj1 (Hcreate 4 Examples.spotify) eq_refl)|].
  split.
  - apply (proj1 (proj2 (Hcreate 4 Examples.with_id_7))). discriminate.
  - intros k s s'. apply Hkeep. exact I.
Defined.

Lemma Mock_CalculateTotalCost_refines_spec_witness :
  time.Parse "01-2024" = Some {| time.Year := 2024; time.Month := 1 |}
  /\ time.Parse "12-2024" = Some {| time.Year := 2024; time.Month := 12 |}
  /\ mapM Views.to_spec
       (Mock.List Examples.two_subscriptions Examples.userA_text "")
     = Some
         [{| Spec.price := 700; Spec.start_period := Examples.january_2024;
             Spec.end_period := None |};
          {| Spec.price := 199;
             Spec.start_period := {| Spec.month := 2; Spec.year := 2024 |};
             Spec.end_period := None |}]
  /\ Mock.CalculateTotalCost Examples.two_subscriptions Examples.userA_text ""
       "01-2024" "12-2024"
     = Ok (GoInt.wrap
             (Spec.total_cost
                [{| Spec.price := 700;
                    Spec.start_period := Examples.january_2024;
                    Spec.end_period := None |};
                 {| Spec.price := 199;
                    Spec.start_period := {| Spec.month := 2; Spec.year := 2024 |};
                    Spec.end_period := None |}]
                Examples.january_2024 Examples.december_2024)).
Proof.
  split; [reflexivity|]. split; [reflexivity|]. split; [reflexivity|].
  apply (Mock_CalculateTotalCost_refines_spec Examples.two_subscriptions
           Examples.userA_text "" "01-2024" "12-2024"
           {| time.Year := 2024; time.Month := 1 |}
           {| time.Year := 2024; time.Month := 12 |});
    reflexivity.
Defined.

Lemma Mock_open_ended_counts_window_witness :
  Examples.mock_spotify !! "1"
  = Some (Mock.Create Mock.NewMockSubscriptionRepository 1
            (Examples.new_subscription "Spotify" 199 Examples.userA
               "02-2023" None)).2
  /\ time.Parse "02-2023" = Some {| time.Year := 2023; time.Month := 2 |}
  /\ exists rest,
       Mock.CalculateTotalCost (delete "1" Examples.mock_spotify) "" ""
         "01-2024" "12-2024" = Ok rest
       /\ Mock.CalculateTotalCost Examples.mock_spotify "" ""
            "01-2024" "12-2024"
          = Ok (GoInt.wrap (199 * 12 + rest)).
Proof.
  split; [reflexivity|]. split; [reflexivity|].
  apply (Mock_open_ended_counts_window Examples.mock_spotify "1"
           (Mock.Create Mock.NewMockSubscriptionRepository 1
              (Examples.new_subscription "Spotify" 199 Examples.userA
                 "02-2023" None)).2
           "" "" "01-2024" "12-2024"
           {| time.Year := 2024; time.Month := 1 |}
           {| time.Year := 2024; time.Month := 12 |}
           {| time.Year := 2023; time.Month := 2 |});
    try reflexivity.
  split; left; reflexivity.
Defined.

(** * Further properties of the in-memory repository *)

(** ** Windows and months *)

Module WindowFacts.
Section facts.
Context `{UUIDLib}.
Import models Views GoIntFacts timeFacts MockListFacts MockCostFacts.

(** The months a record is charged for are months of the window. *)
Lemma cost_bounds s e sub :
  well_formed s -> well_formed e -> time.After s e = false ->
  0 <= Price sub ->
  0 <= cost s e sub <= Price sub * (index e - index s + 1).
Proof.
  intros Hs He Hse Hp. unfold cost.
  rewrite After_index in Hse by done. apply Z.ltb_ge in Hse.
  destruct (time.Parse (StartDate sub)) as [ss|] eqn:Hss; [|nia].
  apply Parse_well_formed in Hss.
  destruct (time.After ss e); [nia|].
  assert (index s <= index (effective_start s ss)) as Hes.
  { unfold effective_start. rewrite After_index by done.
    destruct (Z.ltb_spec (index s) (index ss)); lia. }
  assert (index (effective_end e sub) <= index e) as Hee.
  { unfold effective_end. destruct (EndDate sub) as [ed|]; [|lia].
    destruct (time.Parse ed) as [se|] eqn:Hp'; [|lia].
    apply Parse_well_formed in Hp'. unfold time.Before.
    rewrite After_index by done.
    destruct (Z.ltb_spec (index se) (index e)); lia. }
  destruct (Z.ltb_spec 0 (index (effective_end e sub)
                          - index (effective_start s ss) + 1)); nia.
Qed.

Lemma total_bounds s e subs :
  well_formed s -> well_formed e -> time.After s e = false ->
  Forall (fun sub => 0 <= Price sub) subs ->
  0 <= total s e subs <= sum_prices subs * (index e - index s + 1).
Proof.
  intros Hs He Hse Hsubs.
  induction Hsubs as [|sub subs Hp _ IH]; simpl; [lia|].
  pose proof (cost_bounds s e sub Hs He Hse Hp). nia.
Qed.

(** The months of a record in two adjacent windows add up to its months in
    their union. *)
Lemma cost_split s m n e sub :
  well_formed s -> well_formed m -> well_formed n -> well_formed e ->
  index n = index m + 1 ->
  time.After s m = false -> time.After n e = false ->
  cost s e sub = cost s m sub + cost n e sub.
Proof.
  intros Hs Hm Hn He Hnm Hsm Hne.
  rewrite After_index in Hsm, Hne by done.
  apply Z.ltb_ge in Hsm, Hne.
  unfold cost, effective_start, effective_end, time.Before.
  destruct (time.Parse (StartDate sub)) as [ss|] eqn:Hss; [|done].
  apply Parse_well_formed in Hss.
  destruct (EndDate sub) as [ed|];
    [destruct (time.Parse ed) as [se|] eqn:Hse;
       [apply Parse_well_formed in Hse|]|];
    rewrite !After_index by done;
    repeat match goal with
           | |- context [?a <? ?b] => destruct (Z.ltb_spec a b)
           | H0 : context [?a <? ?b] |- _ => destruct (Z.ltb_spec a b)
           end;
    try lia;
    rewrite ?Z.add_0_l, ?Z.add_0_r, <- ?Z.mul_add_distr_l; f_equal; lia.
Qed.

Lemma total_split s m n e subs :
  well_formed s -> well_formed m -> well_formed n -> well_formed e ->
  index n = index m + 1 ->
  time.After s m = false -> time.After n e = false ->
  total s e subs = total s m subs + total n e subs.
Proof.
  intros Hs Hm Hn He Hnm Hsm Hne.
  induction subs as [|sub subs IH]; simpl; [done|].
  rewrite IH, (cost_split s m n e) by done. lia.
Qed.

End facts.
End WindowFacts.

(** ** The in-memory calculation *)

Section mock_calculation.
Context `{UUIDLib}.
Import models Views.
Import GoIntFacts timeFacts MockListFacts MockCostFacts WindowFacts.

(** X3.  The total does not depend on the order in which the [range] loop
    of [List] visits the records of the map. *)
Theorem Mock_total_order_independent
    userID serviceName sp ep s e (subs1 subs2 : list Subscription) :
  time.Parse sp = Some s ->
  time.Parse ep = Some e ->
  subs1 ≡ₚ subs2 ->
  Mock.CalculateTotalCost_loop s e 0
    (Mock.List_loop userID serviceName subs1 [])
  = Mock.CalculateTotalCost_loop s e 0
      (Mock.List_loop userID serviceName subs2 []).
Proof.
  intros Hs He Hperm.
  apply Parse_well_formed in Hs, He.
  rewrite !loop_total by auto using in_range_0.
  rewrite !List_loop_filter. simpl. do 2 f_equal.
  apply total_Permutation. by rewrite Hperm.
Qed.

(** X4.  When no listed record has a negative price, the total is not
    negative and at most the sum of the listed prices times the number of
    months of the window (as long as that product is a Go [int]): no
    record is charged for more months than the window has. *)
Theorem Mock_total_bounded
    (r : gmap string Subscription) userID serviceName sp ep s e :
  time.Parse sp = Some s ->
  time.Parse ep = Some e ->
  time.After s e = false ->
  Forall (fun sub => 0 <= Price sub) (Mock.List r userID serviceName) ->
  sum_prices (Mock.List r userID serviceName) * (index e - index s + 1)
  <= GoInt.max_int ->
  exists total,
    Mock.CalculateTotalCost r userID serviceName sp ep = Ok total
    /\ 0 <= total
       <= sum_prices (Mock.List r userID serviceName)
          * (index e - index s + 1).
Proof.
  intros Hs He Hse Hprices Hfit.
  rewrite (CalculateTotalCost_total _ _ _ _ _ s e) by done.
  rewrite <- List_filter.
  apply Parse_well_formed in Hs, He.
  pose proof (total_bounds s e _ Hs He Hse Hprices) as Hb.
  eexists. split; [reflexivity|].
  rewrite wrap_id; [done|].
  unfold GoInt.in_range, GoInt.min_int in *. lia.
Qed.

(** X5.  The totals of two adjacent windows add up, as Go [int]s, to the
    total of the window they form together. *)
Theorem Mock_total_splits
    (r : gmap string Subscription) userID serviceName sp mp np ep s m n e :
  time.Parse sp = Some s ->
  time.Parse mp = Some m ->
  time.Parse np = Some n ->
  time.Parse ep = Some e ->
  index n = index m + 1 ->
  time.After s m = false ->
  time.After n e = false ->
  exists a b,
    Mock.CalculateTotalCost r userID serviceName sp mp = Ok a
    /\ Mock.CalculateTotalCost r userID serviceName np ep = Ok b
    /\ Mock.CalculateTotalCost r userID serviceName sp ep
       = Ok (GoInt.add a b).
Proof.
  intros Hs Hm Hn He Hnm Hsm Hne.
  assert (time.After s e = false) as Hse.
  { pose proof (Parse_well_formed _ _ Hs). pose proof (Parse_well_formed _ _ Hm).
    pose proof (Parse_well_formed _ _ Hn). pose proof (Parse_well_formed _ _ He).
    rewrite After_index in * by done.
    apply Z.ltb_ge in Hsm, Hne. apply Z.ltb_ge. lia. }
  rewrite (CalculateTotalCost_total _ _ _ _ _ s m) by done.
  rewrite (CalculateTotalCost_total _ _ _ _ _ n e) by done.
  rewrite (CalculateTotalCost_total _ _ _ _ _ s e) by done.
  do 2 eexists. split; [reflexivity|]. split; [reflexivity|].
  unfold GoInt.add. rewrite wrap_add_l, wrap_add_r.
  do 2 f_equal.
  apply total_split; eauto using Parse_well_formed.
Qed.

End mock_calculation.

(** ** The in-memory store *)

Section mock_store.
Context `{UUIDLib}.
Import models Views.
Import GoIntFacts strconvFacts MockIdFacts.

(** X6.  Calls of [Create] with records without [ID], and no other call,
    store the records under the ids 1, 2, ... in the order of the calls:
    none is lost, each gets the time of its call as both time stamps, and
    nothing else is in the store. *)
Theorem Mock_creates_number_the_records (news : list (Z * Subscription)) :
  Forall (fun p => ID p.2 = 0) news ->
  Z.of_nat (List.length news) <= GoInt.max_int ->
  size (run (map (fun p => create p.1 p.2) news)) = List.length news
  /\ (forall i p,
        news !! i = Some p ->
        run (map (fun p => create p.1 p.2) news)
          !! strconv.Itoa (Z.of_nat (S i))
        = Some (set_UpdatedAt p.1
                  (set_CreatedAt p.1 (set_ID (Z.of_nat (S i)) p.2))))
  /\ (forall k s,
        run (map (fun p => create p.1 p.2) news) !! k = Some s ->
        exists i, (i < List.length news)%nat /\ k = strconv.Itoa (Z.of_nat (S i))).
Proof.
  induction news as [|x l IH] using rev_ind; intros Hids Hlen.
  { repeat split; try done; intros k s Hk; by rewrite lookup_empty in Hk. }
  apply Forall_app in Hids as [Hl Hx]. apply Forall_cons in Hx as [Hx _].
  rewrite length_app in *. simpl in Hlen.
  destruct IH as (IH1 & IH2 & IH3); [done | lia |].
  rewrite map_app. unfold run in *. rewrite fold_left_app.
  cbn [fold_left map apply_op fst snd].
  set (r := fold_left apply_op (map (fun p => create p.1 p.2) l)
              Mock.NewMockSubscriptionRepository) in *.
  assert (GoInt.add (Z.of_nat (size r)) 1 = Z.of_nat (S (List.length l))) as Hid.
  { unfold GoInt.add. rewrite IH1, wrap_id; [lia|].
    unfold GoInt.in_range, GoInt.min_int, GoInt.max_int in *. lia. }
  assert (r !! strconv.Itoa (Z.of_nat (S (List.length l))) = None) as Hfresh.
  { destruct (r !! _) as [s|] eqn:Hs; [|done].
    destruct (IH3 _ _ Hs) as (i & Hi & Heq).
    apply Itoa_inj in Heq. lia. }
  rewrite Create_store, Create_ID, bool_decide_eq_true_2, Hid by done.
  assert ((Mock.Create r x.1 x.2).2
          = set_UpdatedAt x.1
              (set_CreatedAt x.1 (set_ID (Z.of_nat (S (List.length l))) x.2)))
    as ->.
  { unfold Mock.Create. rewrite bool_decide_eq_true_2 by done.
    cbn [snd]. by rewrite Hid. }
  split; [|split].
  - rewrite map_size_insert_None by done. simpl. lia.
  - intros i p Hp. apply lookup_app_Some in Hp as [Hp | [Hge Hp]].
    + rewrite lookup_insert_ne; [by apply IH2|].
      intros Heq. apply Itoa_inj in Heq.
      apply lookup_lt_Some in Hp. lia.
    + apply list_lookup_singleton_Some in Hp as [Hi <-].
      assert (i = List.length l) as -> by lia.
      apply lookup_insert_eq.
  - intros k s. rewrite lookup_insert. case_decide as Hk.
    + intros _. exists (List.length l). split; [simpl; lia | done].
    + intros Hs. destruct (IH3 _ _ Hs) as (i & Hi & Heq).
      exists i. split; [simpl; lia | done].
Qed.

(** X7.  [Create] stores the record it returns under the decimal form of
    its [ID] and leaves every other key as it was; it adds a record when
    that key was free and replaces, without an error, the record that was
    stored under it otherwise. *)
Theorem Mock_Create_effect (r : gmap string Subscription) now sub :
  Mock.GetByID (Mock.Create r now sub).1
    (strconv.Itoa (ID (Mock.Create r now sub).2))
  = Ok (Mock.Create r now sub).2
  /\ (forall k, k <> strconv.Itoa (ID (Mock.Create r now sub).2) ->
        (Mock.Create r now sub).1 !! k = r !! k)
  /\ (r !! strconv.Itoa (ID (Mock.Create r now sub).2) = None ->
      size (Mock.Create r now sub).1 = S (size r))
  /\ (is_Some (r !! strconv.Itoa (ID (Mock.Create r now sub).2)) ->
      size (Mock.Create r now sub).1 = size r).
Proof.
  rewrite Create_store. repeat split.
  - unfold Mock.GetByID. by rewrite lookup_insert_eq.
  - intros k Hk. by rewrite lookup_insert_ne.
  - intros Hfree. by rewrite map_size_insert_None.
  - intros Hold. by rewrite map_size_insert_Some.
Qed.

(** X8.  On a store reached by calls of the repository, [Update] of a
    stored id returns and stores its argument with the [ID] of the record
    it replaces and the time of the call as [UpdatedAt]; every other field,
    [CreatedAt] included, is the argument's, and every other record is
    untouched. *)
Theorem Mock_Update_effect (ops : list Op) now id sub old :
  Forall well_typed ops ->
  run ops !! id = Some old ->
  exists new,
    Mock.Update (run ops) now id sub
    = (<[id := new]> (run ops), Ok new)
    /\ Mock.GetByID (<[id := new]> (run ops)) id = Ok new
    /\ ID new = ID old
    /\ UpdatedAt new = now
    /\ describes (ServiceName sub) (Price sub) (UserID sub) (StartDate sub)
         (EndDate sub) new
    /\ CreatedAt new = CreatedAt sub
    /\ size (<[id := new]> (run ops)) = size (run ops).
Proof.
  intros Hops Hold.
  exists (set_UpdatedAt now (set_ID (ID old) sub)).
  split; [by apply Update_keeps_ID; [apply keyed_run|] |].
  split; [unfold Mock.GetByID; by rewrite lookup_insert_eq |].
  repeat split; try done.
  by rewrite map_size_insert_Some by eauto.
Qed.

(** X9.  [Delete] of a stored id removes that record and no other: the id
    is then not found by [GetByID] nor by a second [Delete], and the store
    has one record less. *)
Theorem Mock_Delete_effect (r : gmap string Subscription) id old :
  r !! id = Some old ->
  Mock.Delete r id = (delete id r, None)
  /\ Mock.GetByID (delete id r) id = Err "subscription not found"
  /\ Mock.Delete (delete id r) id
     = (delete id r, Some "subscription not found")
  /\ (forall k, k <> id -> delete id r !! k = r !! k)
  /\ size r = S (size (delete id r)).
Proof.
  intros Hold. unfold Mock.Delete, Mock.GetByID.
  rewrite Hold, lookup_delete_eq. repeat split; try done.
  - intros k Hk. by rewrite lookup_delete_ne.
  - rewrite <- (insert_delete_id r id old Hold) at 1.
    by rewrite map_size_insert_None by apply lookup_delete_eq.
Qed.

End mock_store.

(** ** The date pattern and [time.Parse] *)

Module DateFacts.
Import regexp validation Dates.

Lemma N_of_ascii_inj a b : N_of_ascii a = N_of_ascii b -> a = b.
Proof.
  intros Hab.
  rewrite <- (ascii_N_embedding a), <- (ascii_N_embedding b).
  by rewrite Hab.
Qed.

Lemma digit_value_is_digit c :
  strconv.digit_value c
  = if is_digit c then Some (Z.of_N (N_of_ascii c) - 48) else None.
Proof.
  unfold strconv.digit_value, is_digit.
  destruct (N.leb_spec 48 (N_of_ascii c)), (N.leb_spec (N_of_ascii c) 57),
    (Z.leb_spec 0 (Z.of_N (N_of_ascii c) - 48)),
    (Z.leb_spec (Z.of_N (N_of_ascii c) - 48) 9); simpl; try reflexivity; lia.
Qed.

(** The pattern on a string of seven bytes or more: the seven bytes have
    the shape and nothing follows them. *)
Lemma MatchString_shape m1 m2 sep y1 y2 y3 y4 rest :
  MatchString datePattern
    (String m1 (String m2 (String sep
       (String y1 (String y2 (String y3 (String y4 rest)))))))
  = well_shaped m1 m2 sep y1 y2 y3 y4 && bool_decide (rest = "").
Proof.
  unfold MatchString, datePattern, well_shaped, is_digit.
  cbn -[N.leb N.eqb N_of_ascii]. pattern_bytes.
  cases_of m1; cases_of m2; cases_of sep; cases_of y1; cases_of y2;
    cases_of y3; cases_of y4; by destruct (bool_decide (rest = EmptyString)).
Qed.

Lemma MatchString_short s :
  (String.length s < 7)%nat -> MatchString datePattern s = false.
Proof.
  intros Hs.
  destruct s as [|m1 [|m2 [|sep [|y1 [|y2 [|y3 [|y4 rest]]]]]]];
    simpl in Hs; try lia; clear Hs;
    unfold MatchString, datePattern; cbn -[N.leb N.eqb N_of_ascii];
    pattern_bytes; try reflexivity.
  all: repeat (match goal with
    | |- context [(N_of_ascii ?c =? ?b)%N] => destruct (N_of_ascii c =? b)%N
    | |- context [(?a <=? N_of_ascii ?c)%N] => destruct (a <=? N_of_ascii c)%N
    | |- context [(N_of_ascii ?c <=? ?b)%N] => destruct (N_of_ascii c <=? b)%N
    end; cbn -[N.leb N.eqb N_of_ascii]; try reflexivity).
Qed.

(** [time.Parse] on a string of seven bytes. *)
Lemma Parse_shape m1 m2 sep y1 y2 y3 y4 :
  match time.Parse
    (String m1 (String m2 (String sep
       (String y1 (String y2 (String y3 (String y4 "")))))))
  with Some _ => true | None => false end
  = well_shaped m1 m2 sep y1 y2 y3 y4.
Proof.
  unfold time.Parse, time.Parse_fields, time.digit, well_shaped.
  rewrite (digit_value_is_digit m1), (digit_value_is_digit m2),
    (digit_value_is_digit y1), (digit_value_is_digit y2),
    (digit_value_is_digit y3), (digit_value_is_digit y4).
  assert (bool_decide (sep = "-"%char) = (N_of_ascii sep =? 45)%N) as ->.
  { destruct (N.eqb_spec (N_of_ascii sep) 45) as [He | He].
    - apply bool_decide_eq_true_2. by apply N_of_ascii_inj.
    - apply bool_decide_eq_false_2. intros ->. by apply He. }
  destruct (N.eqb_spec (N_of_ascii sep) 45);
    [|by rewrite andb_false_r].
  rewrite andb_true_r.
  destruct (is_digit y1); [|by rewrite ?andb_false_r; repeat case_match].
  destruct (is_digit y2); [|by rewrite ?andb_false_r; repeat case_match].
  destruct (is_digit y3); [|by rewrite ?andb_false_r; repeat case_match].
  destruct (is_digit y4); [|by rewrite ?andb_false_r; repeat case_match].
  rewrite !andb_true_r. unfold is_digit.
  destruct (N.leb_spec 48 (N_of_ascii m1)), (N.leb_spec (N_of_ascii m1) 57),
    (N.eqb_spec (N_of_ascii m1) 48), (N.eqb_spec (N_of_ascii m1) 49);
    try lia; cbn -[Z.leb Z.ltb Z.mul Z.add Z.sub N.leb];
    destruct (N.leb_spec 48 (N_of_ascii m2)), (N.leb_spec (N_of_ascii m2) 57),
      (N.leb_spec 49 (N_of_ascii m2)), (N.leb_spec (N_of_ascii m2) 50);
    try lia; cbn -[Z.leb Z.ltb Z.mul Z.add Z.sub]; try reflexivity;
    repeat match goal with
         | |- context [?a <=? ?b] => destruct (Z.leb_spec a b)
         | |- context [?a <? ?b] => destruct (Z.ltb_spec a b)
         end; cbn; try reflexivity; try lia.
Qed.

Lemma bool_decide_readable s :
  bool_decide (readable s)
  = match time.Parse s with Some _ => true | None => false end.
Proof.
  destruct (time.Parse s) as [t|] eqn:Hs.
  - apply bool_decide_eq_true_2. unfold readable. by rewrite Hs.
  - apply bool_decide_eq_false_2. unfold readable. rewrite Hs. by intros [? ?].
Qed.

Lemma MatchString_Parse s :
  MatchString datePattern s = bool_decide (readable s).
Proof.
  rewrite bool_decide_readable.
  destruct (decide (String.length s < 7)%nat) as [Hs | Hs].
  - rewrite MatchString_short by done.
    destruct s as [|m1 [|m2 [|sep [|y1 [|y2 [|y3 [|y4 rest]]]]]]];
      try reflexivity. simpl in Hs. lia.
  - destruct s as [|m1 [|m2 [|sep [|y1 [|y2 [|y3 [|y4 rest]]]]]]];
      simpl in Hs; try lia.
    rewrite MatchString_shape. destruct rest as [|c rest].
    + by rewrite Parse_shape, andb_true_r.
    + by rewrite andb_false_r.
Qed.

Lemma MatchString_readable s :
  MatchString datePattern s = true <-> readable s.
Proof. by rewrite MatchString_Parse, bool_decide_eq_true. Qed.

Lemma not_MatchString_readable s :
  negb (MatchString datePattern s) = false <-> readable s.
Proof. rewrite negb_false_iff. apply MatchString_readable. Qed.

(** The byte of a decimal digit. *)
Lemma digit_byte c a :
  time.digit c = Some a -> Z.of_N (N_of_ascii c) = a + 48 /\ 0 <= a <= 9.
Proof.
  unfold time.digit, strconv.digit_value.
  destruct (Z.leb_spec 0 (Z.of_N (N_of_ascii c) - 48)),
           (Z.leb_spec (Z.of_N (N_of_ascii c) - 48) 9);
    simpl; intros [= <-]; lia.
Qed.

Lemma compare_digits c1 c2 a1 a2 :
  time.digit c1 = Some a1 -> time.digit c2 = Some a2 ->
  Ascii.compare c1 c2 = (a1 ?= a2).
Proof.
  intros [H1 _]%digit_byte [H2 _]%digit_byte.
  unfold Ascii.compare.
  destruct (N.compare_spec (N_of_ascii c1) (N_of_ascii c2)),
    (Z.compare_spec a1 a2); try reflexivity; lia.
Qed.

(** The order of the strings of two months is the order of their month
    numbers and, for the same month number, of their years. *)
Lemma leb_month_major a b ta tb :
  time.Parse a = Some ta -> time.Parse b = Some tb ->
  String.leb a b = month_major ta tb.
Proof.
  unfold time.Parse.
  destruct a as [|m1 [|m2 [|sep [|y1 [|y2 [|y3 [|y4 [|]]]]]]]];
    try discriminate.
  destruct b as [|m1' [|m2' [|sep' [|y1' [|y2' [|y3' [|y4' [|]]]]]]]];
    try discriminate.
  case_bool_decide as Hsep; [subst sep | discriminate].
  case_bool_decide as Hsep'; [subst sep' | discriminate].
  unfold time.Parse_fields.
  destruct (time.digit m1) as [a1|] eqn:Ha1; [|discriminate].
  destruct (time.digit m2) as [a2|] eqn:Ha2; [|discriminate].
  destruct (time.digit y1) as [a3|] eqn:Ha3; [|discriminate].
  destruct (time.digit y2) as [a4|] eqn:Ha4; [|discriminate].
  destruct (time.digit y3) as [a5|] eqn:Ha5; [|discriminate].
  destruct (time.digit y4) as [a6|] eqn:Ha6; [|discriminate].
  destruct (_ || _); [discriminate|]. intros [= <-].
  destruct (time.digit m1') as [b1|] eqn:Hb1; [|discriminate].
  destruct (time.digit m2') as [b2|] eqn:Hb2; [|discriminate].
  destruct (time.digit y1') as [b3|] eqn:Hb3; [|discriminate].
  destruct (time.digit y2') as [b4|] eqn:Hb4; [|discriminate].
  destruct (time.digit y3') as [b5|] eqn:Hb5; [|discriminate].
  destruct (time.digit y4') as [b6|] eqn:Hb6; [|discriminate].
  destruct (_ || _); [discriminate|]. intros [= <-].
  unfold String.leb. cbn [String.compare].
  rewrite (compare_digits m1 m1' a1 b1), (compare_digits m2 m2' a2 b2),
    (compare_digits y1 y1' a3 b3), (compare_digits y2 y2' a4 b4),
    (compare_digits y3 y3' a5 b5), (compare_digits y4 y4' a6 b6) by done.
  change (Ascii.compare "-" "-") with Eq.
  apply digit_byte in Ha1 as [_ ?], Ha2 as [_ ?], Ha3 as [_ ?],
    Ha4 as [_ ?], Ha5 as [_ ?], Ha6 as [_ ?], Hb1 as [_ ?], Hb2 as [_ ?],
    Hb3 as [_ ?], Hb4 as [_ ?], Hb5 as [_ ?], Hb6 as [_ ?].
  unfold month_major. cbn [time.Month time.Year].
  destruct (Z.compare_spec a1 b1); [|
    destruct (Z.ltb_spec (a1 * 10 + a2) (b1 * 10 + b2)); simpl; [done | lia] |
    destruct (Z.ltb_spec (a1 * 10 + a2) (b1 * 10 + b2)),
      (Z.eqb_spec (a1 * 10 + a2) (b1 * 10 + b2)); simpl; try done; lia].
  destruct (Z.compare_spec a2 b2); [|
    destruct (Z.ltb_spec (a1 * 10 + a2) (b1 * 10 + b2)); simpl; [done | lia] |
    destruct (Z.ltb_spec (a1 * 10 + a2) (b1 * 10 + b2)),
      (Z.eqb_spec (a1 * 10 + a2) (b1 * 10 + b2)); simpl; try done; lia].
  subst. rewrite Z.ltb_irrefl, Z.eqb_refl. simpl.
  destruct (Z.compare_spec a3 b3), (Z.compare_spec a4 b4),
    (Z.compare_spec a5 b5), (Z.compare_spec a6 b6);
    match goal with |- _ = (?x <=? ?y) => destruct (Z.leb_spec x y) end;
    try done; lia.
Qed.

End DateFacts.

(** ** The table and its sequence *)

Module DbFacts.
Section facts.
Context `{UUIDLib}.
Import models regexp validation Dates Service DateFacts.

Lemma with_subscriptions_id (d : db.Database) :
  db.with_subscriptions (db.subscriptions d) d = d.
Proof. by destruct d. Qed.

Lemma insert_seq (d : db.Database) row :
  db.subscriptions_id_seq (db.insert d row).1 = db.subscriptions_id_seq d + 1.
Proof. unfold db.insert. by destruct (db.subscriptions d !! _). Qed.

Lemma insert_free (d : db.Database) row :
  db.subscriptions d !! db.subscriptions_id_seq d = None ->
  db.insert d row
  = ({| db.subscriptions :=
          <[db.subscriptions_id_seq d := row]> (db.subscriptions d);
        db.subscriptions_id_seq := db.subscriptions_id_seq d + 1 |},
     Ok (db.subscriptions_id_seq d)).
Proof. unfold db.insert. by intros ->. Qed.

Lemma insert_taken (d : db.Database) row old :
  db.subscriptions d !! db.subscriptions_id_seq d = Some old ->
  db.insert d row
  = ({| db.subscriptions := db.subscriptions d;
        db.subscriptions_id_seq := db.subscriptions_id_seq d + 1 |},
     Err db.unique_violation).
Proof. unfold db.insert. by intros ->. Qed.

Lemma fresh_free (d : db.Database) :
  fresh d -> db.subscriptions d !! db.subscriptions_id_seq d = None.
Proof.
  intros Hd. destruct (db.subscriptions d !! _) as [row|] eqn:Hrow; [|done].
  apply Hd in Hrow. simpl in Hrow. lia.
Qed.

(** The row [Update] writes. *)
Lemma Update_row (tbl : gmap Z Postgres.Row) now id req row :
  tbl !! id = Some row ->
  exists row',
    Postgres.Update tbl now id req = (<[id := row']> tbl, None)
    /\ Postgres.service_name row'
       = (if bool_decide (UpdateSubscriptionRequest.ServiceName req <> "")
          then UpdateSubscriptionRequest.ServiceName req
          else Postgres.service_name row)
    /\ Postgres.price row'
       = default (Postgres.price row) (UpdateSubscriptionRequest.Price req)
    /\ Postgres.user_id row'
       = (if bool_decide (UpdateSubscriptionRequest.UserID req <> uuid_Nil)
          then UpdateSubscriptionRequest.UserID req
          else Postgres.user_id row)
    /\ Postgres.start_date row'
       = (if bool_decide (UpdateSubscriptionRequest.StartDate req <> "")
          then UpdateSubscriptionRequest.StartDate req
          else Postgres.start_date row)
    /\ Postgres.end_date row' = UpdateSubscriptionRequest.EndDate req
    /\ Postgres.created_at row' = Postgres.created_at row
    /\ Postgres.updated_at row' = now.
Proof.
  intros Hrow. unfold Postgres.Update, Postgres.exec_update.
  rewrite Hrow. eexists. split; [reflexivity|].
  unfold Postgres.append_if.
  destruct (UpdateSubscriptionRequest.Price req);
    repeat case_bool_decide; simpl; done.
Qed.

Lemma Delete_row (tbl : gmap Z Postgres.Row) id row :
  tbl !! id = Some row -> Postgres.Delete tbl id = (delete id tbl, None).
Proof. unfold Postgres.Delete, Postgres.exec_delete. by intros ->. Qed.

Lemma GetByID_row (tbl : gmap Z Postgres.Row) id row :
  tbl !! id = Some row -> Postgres.GetByID tbl id = Ok (Postgres.scan id row).
Proof. unfold Postgres.GetByID, Postgres.select_by_id. by intros ->. Qed.

(** What the three [Validate] methods accept. *)
Lemma Validate_Create_None (req : CreateSubscriptionRequest.t) :
  Validate_CreateSubscriptionRequest req = None
  <-> readable (CreateSubscriptionRequest.StartDate req)
      /\ readable_opt (CreateSubscriptionRequest.EndDate req).
Proof.
  unfold Validate_CreateSubscriptionRequest, readable_opt.
  destruct (negb _) eqn:Hs.
  - split; [done|]. intros [Hr _]. apply not_MatchString_readable in Hr.
    congruence.
  - apply not_MatchString_readable in Hs.
    destruct (CreateSubscriptionRequest.EndDate req) as [e|]; [|done].
    destruct (negb (MatchString datePattern e)) eqn:He.
    + split; [done|]. intros [_ Hr]. apply not_MatchString_readable in Hr.
      congruence.
    + by apply not_MatchString_readable in He.
Qed.

Lemma Validate_Update_None (req : UpdateSubscriptionRequest.t) :
  Validate_UpdateSubscriptionRequest req = None
  <-> (UpdateSubscriptionRequest.StartDate req = ""
       \/ readable (UpdateSubscriptionRequest.StartDate req))
      /\ readable_opt (UpdateSubscriptionRequest.EndDate req).
Proof.
  unfold Validate_UpdateSubscriptionRequest, readable_opt.
  destruct (negb _) eqn:Hs.
  - case_bool_decide as Hne; simpl.
    + split; [done|]. intros [[Hr | Hr] _]; [done|].
      apply not_MatchString_readable in Hr. congruence.
    + destruct (UpdateSubscriptionRequest.EndDate req) as [e|]; [|by intuition].
      destruct (negb (MatchString datePattern e)) eqn:He.
      * split; [done|]. intros [_ Hr]. apply not_MatchString_readable in Hr.
        congruence.
      * apply not_MatchString_readable in He. by intuition.
  - rewrite andb_false_r. apply not_MatchString_readable in Hs.
    destruct (UpdateSubscriptionRequest.EndDate req) as [e|]; [|by intuition].
    destruct (negb (MatchString datePattern e)) eqn:He.
    + split; [done|]. intros [_ Hr]. apply not_MatchString_readable in Hr.
      congruence.
    + apply not_MatchString_readable in He. by intuition.
Qed.

Lemma Validate_Calculate_None (req : CalculateCostRequest.t) :
  Validate_CalculateCostRequest req = None
  <-> readable (CalculateCostRequest.StartPeriod req)
      /\ readable (CalculateCostRequest.EndPeriod req).
Proof.
  unfold Validate_CalculateCostRequest.
  destruct (negb _) eqn:Hs.
  - split; [done|]. intros [Hr _]. apply not_MatchString_readable in Hr.
    congruence.
  - apply not_MatchString_readable in Hs.
    destruct (negb (MatchString datePattern _)) eqn:He.
    + split; [done|]. intros [_ Hr]. apply not_MatchString_readable in Hr.
      congruence.
    + by apply not_MatchString_readable in He.
Qed.

End facts.
End DbFacts.

(** ** The handlers *)

Module HandlerFacts.
Section facts.
Context `{UUIDLib}.
Import models regexp validation Dates Service DateFacts DbFacts Views.

(** [Create] answers 201 when the request is bound and valid and the next
    value of the sequence is free, and leaves the table alone otherwise. *)
Lemma Create_inv (d : db.Database) now bound :
  (exists req row,
     bound = Ok req
     /\ Validate_CreateSubscriptionRequest req = None
     /\ db.subscriptions d !! db.subscriptions_id_seq d = None
     /\ handlers.Create d now bound
        = ({| db.subscriptions :=
                <[db.subscriptions_id_seq d := row]> (db.subscriptions d);
              db.subscriptions_id_seq := db.subscriptions_id_seq d + 1 |},
           {| handlers.status := handlers.StatusCreated;
              handlers.body :=
                handlers.subscription_body
                  (Postgres.scan (db.subscriptions_id_seq d) row) |})
     /\ Postgres.service_name row = CreateSubscriptionRequest.ServiceName req
     /\ Postgres.price row = CreateSubscriptionRequest.Price req
     /\ Postgres.user_id row = CreateSubscriptionRequest.UserID req
     /\ Postgres.start_date row = CreateSubscriptionRequest.StartDate req
     /\ Postgres.end_date row = CreateSubscriptionRequest.EndDate req
     /\ Postgres.created_at row = now
     /\ Postgres.updated_at row = now)
  \/ (db.subscriptions (handlers.Create d now bound).1 = db.subscriptions d
      /\ db.subscriptions_id_seq d
         <= db.subscriptions_id_seq (handlers.Create d now bound).1
      /\ exists code msg,
           (handlers.Create d now bound).2 = handlers.error code msg
           /\ (code = handlers.StatusBadRequest
               \/ code = handlers.StatusInternalServerError)).
Proof.
  unfold handlers.Create.
  destruct bound as [req | err]; [|right; simpl; eauto 10 with lia].
  destruct (Validate_CreateSubscriptionRequest req) as [err|] eqn:Hv;
    [right; simpl; eauto 10 with lia|].
  unfold PostgresCreate.Create.
  destruct (db.subscriptions d !! db.subscriptions_id_seq d) as [old|] eqn:Hfree.
  - right. rewrite (insert_taken _ _ old) by done. simpl.
    split; [done|]. split; [lia|]. eauto 10.
  - left. rewrite insert_free by done. cbn [db.subscriptions].
    erewrite GetByID_row by apply lookup_insert_eq.
    eexists _, _. repeat split; try done.
Qed.

(** [Update] answers 200 with the row it has written when the id is a
    number of a row and the request is bound and valid, and leaves the
    state alone otherwise. *)
Lemma Update_inv (d : db.Database) now idStr bound :
  (exists id req row row',
     strconv.Atoi idStr = (id, None)
     /\ bound = Ok req
     /\ Validate_UpdateSubscriptionRequest req = None
     /\ db.subscriptions d !! id = Some row
     /\ Postgres.Update (db.subscriptions d) now id req
        = (<[id := row']> (db.subscriptions d), None)
     /\ handlers.Update d now idStr bound
        = ({| db.subscriptions := <[id := row']> (db.subscriptions d);
              db.subscriptions_id_seq := db.subscriptions_id_seq d |},
           {| handlers.status := handlers.StatusOK;
              handlers.body :=
                handlers.subscription_body (Postgres.scan id row') |}))
  \/ ((handlers.Update d now idStr bound).1 = d
      /\ exists code msg,
           (handlers.Update d now idStr bound).2 = handlers.error code msg
           /\ (code = handlers.StatusBadRequest
               \/ code = handlers.StatusNotFound)).
Proof.
  unfold handlers.Update.
  destruct (strconv.Atoi idStr) as [id [err|]] eqn:Hid;
    [right; simpl; eauto 10|].
  destruct bound as [req | err]; [|right; simpl; eauto 10].
  destruct (Validate_UpdateSubscriptionRequest req) as [err|] eqn:Hv;
    [right; simpl; eauto 10|].
  destruct (db.subscriptions d !! id) as [row|] eqn:Hrow.
  - left. destruct (Update_row (db.subscriptions d) now id req row Hrow)
      as (row' & Hupd & _).
    rewrite Hupd. erewrite GetByID_row by apply lookup_insert_eq.
    by eexists _, _, _, _.
  - right. rewrite PostgresFacts.Update_None by done. simpl.
    rewrite with_subscriptions_id. eauto 10.
Qed.

(** [Delete] answers 204 when the id is the number of a row, which it
    removes, and leaves the state alone otherwise. *)
Lemma Delete_inv (d : db.Database) idStr :
  (exists id row,
     strconv.Atoi idStr = (id, None)
     /\ db.subscriptions d !! id = Some row
     /\ handlers.Delete d idStr
        = ({| db.subscriptions := delete id (db.subscriptions d);
              db.subscriptions_id_seq := db.subscriptions_id_seq d |},
           {| handlers.status := handlers.StatusNoContent;
              handlers.body := handlers.no_body |}))
  \/ ((handlers.Delete d idStr).1 = d
      /\ exists code msg,
           (handlers.Delete d idStr).2 = handlers.error code msg
           /\ (code = handlers.StatusBadRequest
               \/ code = handlers.StatusNotFound)).
Proof.
  unfold handlers.Delete.
  destruct (strconv.Atoi idStr) as [id [err|]] eqn:Hid;
    [right; simpl; eauto 10|].
  destruct (db.subscriptions d !! id) as [row|] eqn:Hrow.
  - left. rewrite (Delete_row _ _ row) by done. by eexists _, _.
  - right. rewrite PostgresFacts.Delete_None by done. simpl.
    rewrite with_subscriptions_id. eauto 10.
Qed.

Lemma Get_row (d : db.Database) idStr id row :
  strconv.Atoi idStr = (id, None) ->
  db.subscriptions d !! id = Some row ->
  handlers.Get d idStr
  = {| handlers.status := handlers.StatusOK;
       handlers.body := handlers.subscription_body (Postgres.scan id row) |}.
Proof.
  intros Hid Hrow. unfold handlers.Get.
  by rewrite Hid, (GetByID_row _ _ row).
Qed.

Lemma Get_None (d : db.Database) idStr id :
  strconv.Atoi idStr = (id, None) ->
  db.subscriptions d !! id = None ->
  handlers.Get d idStr
  = handlers.error handlers.StatusNotFound "Subscription not found".
Proof.
  intros Hid Hrow. unfold handlers.Get.
  by rewrite Hid, PostgresFacts.GetByID_None.
Qed.

(** What a request does to the invariants of the table. *)
Lemma created_id_error code msg :
  code <> handlers.StatusCreated ->
  created_id (handlers.error code msg) = None.
Proof.
  intros Hcode. unfold created_id, handlers.error. simpl.
  by destruct (Z.eqb_spec code handlers.StatusCreated).
Qed.

Lemma handle_step (d : db.Database) (r : Request) :
  fresh d ->
  fresh (handle d r).1
  /\ db.subscriptions_id_seq d <= db.subscriptions_id_seq (handle d r).1
  /\ (forall id, created_id (handle d r).2 = Some id ->
        id = db.subscriptions_id_seq d
        /\ db.subscriptions_id_seq (handle d r).1
           = db.subscriptions_id_seq d + 1).
Proof.
  intros Hd. destruct r as [now bound | now idStr bound | idStr]; simpl.
  - destruct (Create_inv d now bound)
      as [(req & row & _ & _ & _ & -> & _)
         | (Htbl & Hseq & code & msg & -> & Hcode)].
    + simpl. split; [|split; [lia | by intros id [= <-]]].
      apply map_Forall_insert_2; simpl; [lia|].
      eapply map_Forall_impl; [exact Hd|]. simpl. intros; lia.
    + split; [|split; [done|]].
      * unfold fresh. rewrite Htbl.
        eapply map_Forall_impl; [exact Hd|]. simpl. intros; lia.
      * intros id. rewrite created_id_error; [done|].
        by destruct Hcode as [-> | ->].
  - destruct (Update_inv d now idStr bound)
      as [(id & req & row & row' & _ & _ & _ & Hrow & _ & ->)
         | (-> & code & msg & -> & Hcode)].
    + simpl. split; [|split; [lia | done]].
      apply map_Forall_insert_2; simpl; [by apply Hd in Hrow | done].
    + split; [done|]. split; [lia|].
      intros id. rewrite created_id_error; [done|].
      by destruct Hcode as [-> | ->].
  - destruct (Delete_inv d idStr)
      as [(id & row & _ & Hrow & ->) | (-> & code & msg & -> & Hcode)].
    + simpl. split; [|split; [lia | done]].
      by apply map_Forall_delete.
    + split; [done|]. split; [lia|].
      intros id. rewrite created_id_error; [done|].
      by destruct Hcode as [-> | ->].
Qed.

Lemma handle_dated (d : db.Database) (r : Request) :
  dated d -> dated (handle d r).1.
Proof.
  intros Hd. destruct r as [now bound | now idStr bound | idStr]; simpl.
  - destruct (Create_inv d now bound)
      as [(req & row & _ & Hv & _ & -> & _ & _ & _ & Hs & He & _)
         | (Htbl & _)].
    + apply map_Forall_insert_2; [|done].
      apply Validate_Create_None in Hv. unfold dated_row.
      by rewrite Hs, He.
    + unfold dated. by rewrite Htbl.
  - destruct (Update_inv d now idStr bound)
      as [(id & req & row & row' & _ & _ & Hv & Hrow & Hupd & ->)
         | (-> & _)]; [|done].
    apply map_Forall_insert_2; [|done].
    destruct (Update_row (db.subscriptions d) now id req row Hrow)
      as (row'' & Hupd' & _ & _ & _ & Hs & He & _).
    assert (row'' = row') as ->.
    { rewrite Hupd in Hupd'. injection Hupd' as Heq.
      apply (f_equal (fun m => m !! id)) in Heq.
      rewrite !lookup_insert_eq in Heq. congruence. }
    apply Validate_Update_None in Hv as [Hstart Hend].
    unfold dated_row. rewrite Hs, He. split; [|done].
    case_bool_decide as Hne; [by destruct Hstart|].
    by apply Hd in Hrow as [? _].
  - destruct (Delete_inv d idStr)
      as [(id & row & _ & Hrow & ->) | (-> & _)]; [|done].
    by apply map_Forall_delete.
Qed.

Lemma serve_steps (rs : list Request) (d : db.Database) :
  fresh d ->
  fresh (serve d rs).1
  /\ db.subscriptions_id_seq d <= db.subscriptions_id_seq (serve d rs).1
  /\ Forall (fun id => db.subscriptions_id_seq d <= id
                       < db.subscriptions_id_seq (serve d rs).1)
       (created_ids (serve d rs).2)
  /\ StronglySorted Z.lt (created_ids (serve d rs).2).
Proof.
  revert d. induction rs as [|r rs IH]; intros d Hd; simpl.
  { repeat split; try done; first [lia | constructor]. }
  destruct (handle_step d r Hd) as (Hd1 & Hseq1 & Hid).
  destruct (handle d r) as [d1 resp]. simpl in *.
  destruct (IH d1 Hd1) as (Hd2 & Hseq2 & Hids & Hsorted).
  destruct (serve d1 rs) as [d2 resps]. simpl in *.
  split; [done|]. split; [lia|].
  unfold created_ids in *. simpl.
  destruct (created_id resp) as [id|] eqn:Hresp.
  - destruct (Hid id eq_refl) as [-> Hnext]. split; [|constructor; [done|]].
    + constructor; [lia|].
      eapply Forall_impl; [exact Hids|]. simpl. intros; lia.
    + eapply Forall_impl; [exact Hids|]. simpl. intros; lia.
  - split; [|done].
    eapply Forall_impl; [exact Hids|]. simpl. intros; lia.
Qed.

Lemma serve_dated (rs : list Request) (d : db.Database) :
  dated d -> dated (serve d rs).1.
Proof.
  revert d. induction rs as [|r rs IH]; intros d Hd; simpl; [done|].
  pose proof (handle_dated d r Hd) as Hd1.
  destruct (handle d r) as [d1 resp]. simpl in *.
  specialize (IH d1 Hd1).
  by destruct (serve d1 rs) as [d2 resps].
Qed.

End facts.
End HandlerFacts.

(** ** [RunMigrations] and the query of the cost *)

Module MigrationFacts.
Section facts.
Context `{UUIDLib}.
Import models regexp validation Dates Service DateFacts DbFacts Views.
Import HandlerFacts.

Lemma insert_all_fresh (rows : list Postgres.Row) (d : db.Database) :
  fresh d ->
  fresh (db.insert_all d rows)
  /\ db.subscriptions_id_seq (db.insert_all d rows)
     = db.subscriptions_id_seq d + Z.of_nat (List.length rows)
  /\ (forall i row, rows !! i = Some row ->
        db.subscriptions (db.insert_all d rows)
          !! (db.subscriptions_id_seq d + Z.of_nat i) = Some row)
  /\ (forall id, id < db.subscriptions_id_seq d ->
        db.subscriptions (db.insert_all d rows) !! id
        = db.subscriptions d !! id)
  /\ size (db.subscriptions (db.insert_all d rows))
     = (size (db.subscriptions d) + List.length rows)%nat.
Proof.
  revert d. induction rows as [|row rows IH]; intros d Hd; simpl.
  { repeat split; try done; first [lia | by intros []]. }
  pose proof (fresh_free d Hd) as Hfree.
  rewrite insert_free by done. simpl.
  set (d1 := {| db.subscriptions := _; db.subscriptions_id_seq := _ |}).
  assert (fresh d1) as Hd1.
  { apply map_Forall_insert_2; simpl; [lia|].
    eapply map_Forall_impl; [exact Hd|]. simpl. intros; lia. }
  destruct (IH d1 Hd1) as (IH1 & IH2 & IH3 & IH4 & IH5).
  subst d1. simpl in *.
  split; [done|]. split; [lia|]. split; [|split].
  - intros [|i] r Hr; simpl in Hr.
    + injection Hr as <-. rewrite Z.add_0_r, IH4 by lia.
      apply lookup_insert_eq.
    + replace (db.subscriptions_id_seq d + Z.of_nat (S i))
        with (db.subscriptions_id_seq d + 1 + Z.of_nat i) by lia.
      by apply IH3.
  - intros id Hid. rewrite IH4 by lia. apply lookup_insert_ne. lia.
  - rewrite IH5, map_size_insert_None by done. lia.
Qed.

Lemma insert_all_dated (rows : list Postgres.Row) (d : db.Database) :
  Forall dated_row rows -> dated d -> dated (db.insert_all d rows).
Proof.
  intros Hrows. revert d.
  induction Hrows as [|row rows Hrow _ IH]; intros d Hd; simpl; [done|].
  apply IH. unfold db.insert.
  destruct (db.subscriptions d !! _); [done|].
  by apply map_Forall_insert_2.
Qed.

Lemma test_data_dated u1 u2 now : Forall dated_row (db.test_data u1 u2 now).
Proof.
  unfold db.test_data, dated_row, readable_opt, readable.
  repeat constructor; simpl; eauto.
Qed.

Lemma size_0_empty (tbl : gmap Z Postgres.Row) :
  (Z.of_nat (size tbl) =? 0) = true <-> tbl = ∅.
Proof.
  rewrite Z.eqb_eq, <- map_size_empty_iff. lia.
Qed.

Lemma RunMigrations_nonempty (d : db.Database) u1 u2 now :
  db.subscriptions d <> ∅ -> db.RunMigrations (Some d) u1 u2 now = d.
Proof.
  intros Hd. unfold db.RunMigrations. simpl.
  destruct (_ =? 0) eqn:Hsize; [|done].
  by apply size_0_empty in Hsize.
Qed.

Lemma RunMigrations_empty (d : option db.Database) u1 u2 now :
  db.subscriptions (db.create_table_if_not_exists d) = ∅ ->
  db.RunMigrations d u1 u2 now
  = db.insert_all (db.create_table_if_not_exists d) (db.test_data u1 u2 now).
Proof.
  intros Hd. unfold db.RunMigrations. simpl.
  destruct (_ =? 0) eqn:Hsize; [done|].
  apply size_0_empty in Hd. congruence.
Qed.

Lemma empty_fresh (d : db.Database) : db.subscriptions d = ∅ -> fresh d.
Proof. unfold fresh. intros ->. apply map_Forall_empty. Qed.

Lemma empty_dated (d : db.Database) : db.subscriptions d = ∅ -> dated d.
Proof. unfold dated. intros ->. apply map_Forall_empty. Qed.

Lemma RunMigrations_rows (d : option db.Database) u1 u2 now :
  db.subscriptions (db.create_table_if_not_exists d) = ∅ ->
  size (db.subscriptions (db.RunMigrations d u1 u2 now)) = 3%nat
  /\ db.subscriptions_id_seq (db.RunMigrations d u1 u2 now)
     = db.subscriptions_id_seq (db.create_table_if_not_exists d) + 3
  /\ (forall i row, db.test_data u1 u2 now !! i = Some row ->
        db.subscriptions (db.RunMigrations d u1 u2 now)
          !! (db.subscriptions_id_seq (db.create_table_if_not_exists d)
              + Z.of_nat i) = Some row).
Proof.
  intros Hd. rewrite RunMigrations_empty by done.
  destruct (insert_all_fresh (db.test_data u1 u2 now)
              (db.create_table_if_not_exists d) (empty_fresh _ Hd))
    as (_ & Hseq & Hrows & _ & Hsize).
  rewrite Hsize, Hseq, Hd, map_size_empty. by repeat split.
Qed.

Lemma RunMigrations_not_empty (d : option db.Database) u1 u2 now :
  db.subscriptions (db.RunMigrations d u1 u2 now) <> ∅.
Proof.
  destruct (decide (db.subscriptions (db.create_table_if_not_exists d) = ∅))
    as [Hd | Hd].
  - destruct (RunMigrations_rows d u1 u2 now Hd) as (Hsize & _).
    intros Hempty. rewrite Hempty, map_size_empty in Hsize. lia.
  - unfold db.RunMigrations.
    destruct (_ =? 0) eqn:Hsize; [|done].
    by apply size_0_empty in Hsize.
Qed.

Lemma RunMigrations_fresh (d : option db.Database) u1 u2 now :
  from_option fresh True d -> fresh (db.RunMigrations d u1 u2 now).
Proof.
  intros Hd.
  assert (fresh (db.create_table_if_not_exists d)) as Hd'.
  { destruct d as [d|]; [done|]. by apply empty_fresh. }
  unfold db.RunMigrations.
  destruct (_ =? 0); [|done].
  by apply insert_all_fresh.
Qed.

Lemma RunMigrations_dated (d : option db.Database) u1 u2 now :
  from_option dated True d -> dated (db.RunMigrations d u1 u2 now).
Proof.
  intros Hd.
  assert (dated (db.create_table_if_not_exists d)) as Hd'.
  { destruct d as [d|]; [done|]. by apply empty_dated. }
  unfold db.RunMigrations.
  destruct (_ =? 0); [|done].
  apply insert_all_dated; [apply test_data_dated | done].
Qed.

(** On readable dates the condition of the query compares months by their
    number first. *)
Lemma active_active_months sp ep s e (sub : Subscription) :
  time.Parse sp = Some s -> time.Parse ep = Some e ->
  readable (StartDate sub) -> readable_opt (EndDate sub) ->
  active sp ep sub = active_months s e sub.
Proof.
  intros Hs He [ss Hss] Hend. unfold active, active_months.
  rewrite Hss, (leb_month_major _ _ ss e) by done.
  destruct (EndDate sub) as [ed|]; [|done].
  destruct Hend as [se Hse].
  by rewrite Hse, (leb_month_major _ _ s se).
Qed.

Lemma List_rows (tbl : gmap Z Postgres.Row) userID serviceName sub :
  In sub (Postgres.List tbl userID serviceName) ->
  exists id row, tbl !! id = Some row /\ sub = Postgres.scan id row.
Proof.
  unfold Postgres.List, Postgres.select. intros Hin.
  apply in_map_iff in Hin as ([id row] & <- & Hin).
  apply filter_In in Hin as [Hin _].
  apply list_elem_of_In, elem_of_map_to_list in Hin. eauto.
Qed.

End facts.
End MigrationFacts.

(** ** The date pattern *)

Section validation_properties.
Context `{UUIDLib}.
Import models regexp validation Dates Service DateFacts DbFacts.

(** X10.  The pattern of the three [Validate] methods,
    [^(0[1-9]|1[0-2])-(\d{4})$], matches exactly the strings that
    [time.Parse] reads with the layout [01-2006], as a month 1 to 12 of a
    year 0 to 9999. *)
Theorem datePattern_matches_what_Parse_reads (s : string) :
  MatchString datePattern s = true
  <-> exists t, time.Parse s = Some t
                /\ 1 <= time.Month t <= 12 /\ 0 <= time.Year t <= 9999.
Proof.
  rewrite MatchString_readable. unfold readable. split.
  - intros [t Ht]. exists t. split; [done|].
    exact (timeFacts.Parse_well_formed s t Ht).
  - intros (t & Ht & _). by exists t.
Qed.

(** X11.  What the three [Validate] methods accept: a request to create
    with a start date, and an end date if it has one, that [time.Parse]
    reads; a request to update likewise, except that it may leave the
    start date empty; a request for the cost with two such periods. *)
Theorem Validate_accepts_readable_dates
    (c : CreateSubscriptionRequest.t) (u : UpdateSubscriptionRequest.t)
    (q : CalculateCostRequest.t) :
  (Validate_CreateSubscriptionRequest c = None
   <-> is_Some (time.Parse (CreateSubscriptionRequest.StartDate c))
       /\ (forall e, CreateSubscriptionRequest.EndDate c = Some e ->
             is_Some (time.Parse e)))
  /\ (Validate_UpdateSubscriptionRequest u = None
      <-> (UpdateSubscriptionRequest.StartDate u = ""
           \/ is_Some (time.Parse (UpdateSubscriptionRequest.StartDate u)))
          /\ (forall e, UpdateSubscriptionRequest.EndDate u = Some e ->
                is_Some (time.Parse e)))
  /\ (Validate_CalculateCostRequest q = None
      <-> is_Some (time.Parse (CalculateCostRequest.StartPeriod q))
          /\ is_Some (time.Parse (CalculateCostRequest.EndPeriod q))).
Proof.
  assert (forall o, readable_opt o
                    <-> forall e, o = Some e -> is_Some (time.Parse e)) as Hopt.
  { intros [e|]; simpl; [|done].
    split; [by intros ? ? [= <-] | intros He; by apply He]. }
  rewrite Validate_Create_None, Validate_Update_None, Validate_Calculate_None.
  rewrite !Hopt. done.
Qed.

End validation_properties.

(** ** The SQL-backed repository and the handlers *)

Section service_properties.
Context `{UUIDLib}.
Import models regexp validation Dates Service DateFacts DbFacts Views.
Import HandlerFacts MigrationFacts.

(** X12.  On a table whose dates are readable, and for periods that are,
    [CalculateTotalCost] adds the prices of the rows of [List] for the same
    filters that are active in the order of the strings, which compares
    the number of the month before the year. *)
Theorem Postgres_CalculateTotalCost_compares_month_first
    (d : db.Database) (req : CalculateCostRequest.t) s e :
  dated d ->
  time.Parse (CalculateCostRequest.StartPeriod req) = Some s ->
  time.Parse (CalculateCostRequest.EndPeriod req) = Some e ->
  Postgres.CalculateTotalCost (db.subscriptions d) req
  = Ok (sum_prices
          (List.filter (active_months s e)
             (Postgres.List (db.subscriptions d)
                (CalculateCostRequest.UserID req)
                (CalculateCostRequest.ServiceName req)))).
Proof.
  intros Hd Hs He. rewrite PostgresFacts.CalculateTotalCost_List.
  do 2 f_equal. apply filter_ext_in. intros sub Hsub.
  apply List_rows in Hsub as (id & row & Hrow & ->).
  apply Hd in Hrow as [Hstart Hend].
  by apply active_active_months.
Qed.

(** X13.  [RunMigrations] leaves a table that has rows as it is, puts the
    three rows of the test data, numbered by the sequence, into one that
    has none or did not exist, and so never leaves the table empty; a
    second run changes nothing.  After it on a database without the table
    every id is below the sequence and every date is readable. *)
Theorem RunMigrations_seeds_an_empty_table
    (d : option db.Database) u1 u2 now u1' u2' now' :
  (forall d0, d = Some d0 -> db.subscriptions d0 <> ∅ ->
     db.RunMigrations d u1 u2 now = d0)
  /\ (db.subscriptions (db.create_table_if_not_exists d) = ∅ ->
      size (db.subscriptions (db.RunMigrations d u1 u2 now)) = 3%nat
      /\ db.subscriptions_id_seq (db.RunMigrations d u1 u2 now)
         = db.subscriptions_id_seq (db.create_table_if_not_exists d) + 3
      /\ forall i row, db.test_data u1 u2 now !! i = Some row ->
           db.subscriptions (db.RunMigrations d u1 u2 now)
             !! (db.subscriptions_id_seq (db.create_table_if_not_exists d)
                 + Z.of_nat i) = Some row)
  /\ db.subscriptions (db.RunMigrations d u1 u2 now) <> ∅
  /\ db.RunMigrations (Some (db.RunMigrations d u1 u2 now)) u1' u2' now'
     = db.RunMigrations d u1 u2 now
  /\ (d = None ->
      fresh (db.RunMigrations d u1 u2 now)
      /\ dated (db.RunMigrations d u1 u2 now)).
Proof.
  split; [|split; [|split; [|split]]].
  - intros d0 -> Hd0. by apply RunMigrations_nonempty.
  - apply RunMigrations_rows.
  - apply RunMigrations_not_empty.
  - apply RunMigrations_nonempty, RunMigrations_not_empty.
  - intros ->. split; [by apply RunMigrations_fresh
                      | by apply RunMigrations_dated].
Qed.

(** X14.  The service stores only dates that [time.Parse] reads: when
    every date of the table is readable, it still is after a restart and
    after any requests, whatever they are bound to. *)
Theorem Service_keeps_dates_readable
    (d : db.Database) (rs : list Request) u1 u2 now :
  dated d ->
  dated (db.RunMigrations (Some d) u1 u2 now)
  /\ dated (serve d rs).1.
Proof.
  intros Hd. split; [by apply RunMigrations_dated | by apply serve_dated].
Qed.

(** X15.  The SQL-backed service never hands out an id twice: when every
    id of the table is below the sequence, it still is after any requests,
    and the ids in the responses [201 Created] to them are strictly
    increasing and none is an id the table had before, also when rows
    were deleted in between. *)
Theorem Service_never_reuses_an_id (d : db.Database) (rs : list Request) :
  fresh d ->
  fresh (serve d rs).1
  /\ StronglySorted Z.lt (created_ids (serve d rs).2)
  /\ Forall (fun id => db.subscriptions d !! id = None
                       /\ db.subscriptions_id_seq d <= id
                          < db.subscriptions_id_seq (serve d rs).1)
       (created_ids (serve d rs).2).
Proof.
  intros Hd. destruct (serve_steps rs d Hd) as (Hd' & _ & Hids & Hsorted).
  split; [done|]. split; [done|].
  eapply Forall_impl; [exact Hids|]. simpl. intros id Hid. split; [|done].
  destruct (db.subscriptions d !! id) as [row|] eqn:Hrow; [|done].
  apply Hd in Hrow. simpl in Hrow. lia.
Qed.

(** X16.  A response [201 Created] of [Create] carries the new row: its
    id is the value the sequence had, which no row of the table had, its
    fields are those of the request, its dates are readable and both time
    stamps are the time of the statement; [Get] of that id then answers
    200 with the same record, and every other row is as before. *)
Theorem handlers_Create_then_Get (d : db.Database) now bound s :
  GoInt.in_range (db.subscriptions_id_seq d) ->
  (handlers.Create d now bound).2
  = {| handlers.status := handlers.StatusCreated;
       handlers.body := handlers.subscription_body s |} ->
  exists req,
    bound = Ok req
    /\ Validate_CreateSubscriptionRequest req = None
    /\ ID s = db.subscriptions_id_seq d
    /\ db.subscriptions d !! ID s = None
    /\ describes (CreateSubscriptionRequest.ServiceName req)
         (CreateSubscriptionRequest.Price req)
         (CreateSubscriptionRequest.UserID req)
         (CreateSubscriptionRequest.StartDate req)
         (CreateSubscriptionRequest.EndDate req) s
    /\ CreatedAt s = now /\ UpdatedAt s = now
    /\ is_Some (time.Parse (StartDate s))
    /\ handlers.Get (handlers.Create d now bound).1 (strconv.Itoa (ID s))
       = {| handlers.status := handlers.StatusOK;
            handlers.body := handlers.subscription_body s |}
    /\ (forall id, id <> ID s ->
          db.subscriptions (handlers.Create d now bound).1 !! id
          = db.subscriptions d !! id).
Proof.
  intros Hseq Hresp.
  destruct (Create_inv d now bound)
    as [(req & row & -> & Hv & Hfree & Hc & Hn & Hp & Hu & Hs & He & Hca & Hua)
       | (_ & _ & code & msg & Herr & _)];
    [|by rewrite Herr in Hresp].
  rewrite Hc in *. simpl in Hresp. injection Hresp as <-.
  exists req. simpl. repeat split; try done.
  - apply Validate_Create_None in Hv as [Hv _]. by rewrite Hs.
  - apply (Get_row _ _ (db.subscriptions_id_seq d) row).
    + by apply strconvFacts.Atoi_Itoa.
    + apply lookup_insert_eq.
  - intros id Hid. by apply lookup_insert_ne.
Qed.

(** X17.  [Update] never answers 500: the row it reads back is the row it
    has written.  It answers 200, 400 or 404, changes nothing unless it
    answers 200, and then the response is the row as the statement left
    it: the guarded columns replaced where the request has a value, the
    end date always the request's, [created_at] kept, [updated_at] the
    time of the statement, every other row and the sequence untouched;
    [Get] of the same id answers 200 with that record. *)
Theorem handlers_Update_outcome (d : db.Database) now idStr bound :
  handlers.status (handlers.Update d now idStr bound).2
  <> handlers.StatusInternalServerError
  /\ (handlers.status (handlers.Update d now idStr bound).2
      <> handlers.StatusOK ->
      (handlers.Update d now idStr bound).1 = d
      /\ (handlers.status (handlers.Update d now idStr bound).2
          = handlers.StatusBadRequest
          \/ handlers.status (handlers.Update d now idStr bound).2
             = handlers.StatusNotFound))
  /\ (handlers.status (handlers.Update d now idStr bound).2
      = handlers.StatusOK ->
      exists id req old s,
        strconv.Atoi idStr = (id, None)
        /\ bound = Ok req
        /\ Validate_UpdateSubscriptionRequest req = None
        /\ db.subscriptions d !! id = Some old
        /\ handlers.body (handlers.Update d now idStr bound).2
           = handlers.subscription_body s
        /\ ID s = id
        /\ ServiceName s
           = (if bool_decide (UpdateSubscriptionRequest.ServiceName req <> "")
              then UpdateSubscriptionRequest.ServiceName req
              else Postgres.service_name old)
        /\ Price s
           = default (Postgres.price old) (UpdateSubscriptionRequest.Price req)
        /\ UserID s
           = (if bool_decide (UpdateSubscriptionRequest.UserID req <> uuid_Nil)
              then UpdateSubscriptionRequest.UserID req
              else Postgres.user_id old)
        /\ StartDate s
           = (if bool_decide (UpdateSubscriptionRequest.StartDate req <> "")
              then UpdateSubscriptionRequest.StartDate req
              else Postgres.start_date old)
        /\ EndDate s = UpdateSubscriptionRequest.EndDate req
        /\ CreatedAt s = Postgres.created_at old
        /\ UpdatedAt s = now
        /\ handlers.Get (handlers.Update d now idStr bound).1 idStr
           = {| handlers.status := handlers.StatusOK;
                handlers.body := handlers.subscription_body s |}
        /\ (forall id', id' <> id ->
              db.subscriptions (handlers.Update d now idStr bound).1 !! id'
              = db.subscriptions d !! id')
        /\ db.subscriptions_id_seq (handlers.Update d now idStr bound).1
           = db.subscriptions_id_seq d).
Proof.
  destruct (Update_inv d now idStr bound)
    as [(id & req & row & row' & Hid & -> & Hv & Hrow & Hupd & ->)
       | (-> & code & msg & -> & Hcode)].
  - simpl. split; [done|]. split; [done|]. intros _.
    destruct (Update_row (db.subscriptions d) now id req row Hrow)
      as (row'' & Hupd' & Hn & Hp & Hu & Hs & He & Hc & Hua).
    assert (row'' = row') as ->.
    { rewrite Hupd in Hupd'. injection Hupd' as Heq.
      apply (f_equal (fun m => m !! id)) in Heq.
      rewrite !lookup_insert_eq in Heq. congruence. }
    exists id, req, row, (Postgres.scan id row'). simpl.
    repeat split; try done.
    + apply (Get_row _ _ id row'); [done | apply lookup_insert_eq].
    + intros id' Hid'. by apply lookup_insert_ne.
  - simpl. split; [by destruct Hcode as [-> | ->]|].
    split; [by destruct Hcode as [-> | ->]; auto|].
    by destruct Hcode as [-> | ->].
Qed.

(** X18.  [Delete] answers 204, 400 or 404 and changes nothing unless it
    answers 204; then the id was the number of a row, that row and no
    other is gone, the sequence is where it was, and [Get] and a second
    [Delete] of the id answer 404. *)
Theorem handlers_Delete_outcome (d : db.Database) idStr :
  (handlers.status (handlers.Delete d idStr).2 <> handlers.StatusNoContent ->
   (handlers.Delete d idStr).1 = d
   /\ (handlers.status (handlers.Delete d idStr).2
       = handlers.StatusBadRequest
       \/ handlers.status (handlers.Delete d idStr).2
          = handlers.StatusNotFound))
  /\ (handlers.status (handlers.Delete d idStr).2 = handlers.StatusNoContent ->
      exists id row,
        strconv.Atoi idStr = (id, None)
        /\ db.subscriptions d !! id = Some row
        /\ db.subscriptions (handlers.Delete d idStr).1
           = delete id (db.subscriptions d)
        /\ db.subscriptions_id_seq (handlers.Delete d idStr).1
           = db.subscriptions_id_seq d
        /\ handlers.Get (handlers.Delete d idStr).1 idStr
           = handlers.error handlers.StatusNotFound "Subscription not found"
        /\ handlers.Delete (handlers.Delete d idStr).1 idStr
           = ((handlers.Delete d idStr).1,
              handlers.error handlers.StatusNotFound
                "Subscription not found")).
Proof.
  destruct (Delete_inv d idStr)
    as [(id & row & Hid & Hrow & ->) | (-> & code & msg & -> & Hcode)].
  - simpl. split; [done|]. intros _. exists id, row.
    repeat split; try done.
    + apply (Get_None _ _ id); [done | apply lookup_delete_eq].
    + unfold handlers.Delete. rewrite Hid. simpl.
      rewrite PostgresFacts.Delete_None by apply lookup_delete_eq.
      done.
  - simpl. split; [by destruct Hcode as [-> | ->]; auto|].
    by destruct Hcode as [-> | ->].
Qed.

(** X19.  For a bound query [CalculateTotalCost] answers 200 exactly when
    both periods are readable and the parameter [user_id] is empty or an
    identifier, also when the window ends before it starts, and 400
    otherwise. *)
Theorem handlers_CalculateTotalCost_status
    (d : db.Database) (req : CalculateCostRequest.t) userIDStr serviceName :
  (handlers.status
     (handlers.CalculateTotalCost d (Ok req) userIDStr serviceName)
   = handlers.StatusOK
   <-> is_Some (time.Parse (CalculateCostRequest.StartPeriod req))
       /\ is_Some (time.Parse (CalculateCostRequest.EndPeriod req))
       /\ (userIDStr = "" \/ is_Some (uuid_Parse userIDStr)))
  /\ (handlers.status
        (handlers.CalculateTotalCost d (Ok req) userIDStr serviceName)
      <> handlers.StatusOK ->
      handlers.status
        (handlers.CalculateTotalCost d (Ok req) userIDStr serviceName)
      = handlers.StatusBadRequest).
Proof.
  unfold handlers.CalculateTotalCost.
  pose proof (Validate_Calculate_None req) as Hv.
  destruct (Validate_CalculateCostRequest req) as [err|].
  { simpl. split; [|done]. split; [done|].
    intros (Hs & He & _). assert (Some err = None) by by apply Hv. done. }
  destruct (proj1 Hv eq_refl) as [Hs He].
  case_bool_decide as Hu.
  - destruct (uuid_Parse userIDStr) as [u|] eqn:Hparse.
    + rewrite PostgresFacts.CalculateTotalCost_List. simpl.
      split; [|done]. split; [by eauto 6 | done].
    + simpl. split; [|done]. split; [done|].
      intros (_ & _ & [? | [? ?]]); done.
  - rewrite PostgresFacts.CalculateTotalCost_List. simpl.
    split; [|done]. split; [|done]. intros _.
    split; [done|]. split; [done|]. left.
    by destruct (decide (userIDStr = "")).
Qed.

End service_properties.

(** ** Listing through the handler *)

Module ListFacts.
Section facts.
Context `{UUIDLib}.
Import models Views.

Lemma scan_inj id id' (row row' : Postgres.Row) :
  Postgres.scan id row = Postgres.scan id' row' -> id = id' /\ row = row'.
Proof.
  destruct row, row'. unfold Postgres.scan. simpl.
  intros [= -> -> -> -> -> -> -> ->]. done.
Qed.

(** The records of [List]: the rows of the table that the conditions of
    the query select, each once. *)
Lemma List_elem_of (tbl : gmap Z Postgres.Row) userID serviceName sub :
  sub ∈ Postgres.List tbl userID serviceName
  <-> exists id row,
        tbl !! id = Some row /\ sub = Postgres.scan id row
        /\ selected userID serviceName sub.
Proof.
  rewrite PostgresFacts.List_selected, list_elem_of_filter,
    PostgresFacts.List_all, list_elem_of_fmap.
  split.
  - intros (Hsel & [id row] & -> & Hin).
    apply elem_of_map_to_list in Hin. eauto.
  - intros (id & row & Hrow & -> & Hsel). split; [done|].
    exists (id, row). split; [done|]. by apply elem_of_map_to_list.
Qed.

Lemma List_NoDup (tbl : gmap Z Postgres.Row) userID serviceName :
  NoDup (Postgres.List tbl userID serviceName).
Proof.
  rewrite PostgresFacts.List_selected, PostgresFacts.List_all.
  apply NoDup_filter, NoDup_fmap_2; [|apply NoDup_map_to_list].
  intros [id row] [id' row'] Heq. simpl in Heq.
  apply scan_inj in Heq as [-> ->]. done.
Qed.

End facts.
End ListFacts.

Section list_properties.
Context `{UUIDLib}.
Import models Views ListFacts.

(** X20.  [List] answers 400 exactly when the parameter [user_id] is not
    empty and no identifier, and 200 otherwise; the records of the body
    are then the rows of the table that pass the filters as the in-memory
    repository understands the same two strings (an empty one is no
    filter), each row once. *)
Theorem handlers_List_outcome (d : db.Database) userIDStr serviceName :
  (userIDStr <> "" /\ uuid_Parse userIDStr = None ->
   handlers.List d userIDStr serviceName
   = handlers.error handlers.StatusBadRequest "Invalid user ID format")
  /\ (userIDStr = "" \/ is_Some (uuid_Parse userIDStr) ->
      exists l,
        handlers.List d userIDStr serviceName
        = {| handlers.status := handlers.StatusOK;
             handlers.body := handlers.subscriptions_body l |}
        /\ NoDup l
        /\ forall sub,
             sub ∈ l
             <-> exists id row,
                   db.subscriptions d !! id = Some row
                   /\ sub = Postgres.scan id row
                   /\ kept userIDStr serviceName sub).
Proof.
  unfold handlers.List. split.
  - intros [Hne Hparse]. by rewrite bool_decide_eq_true_2, Hparse.
  - intros Huser.
    set (name := if bool_decide (serviceName <> "")
                 then Some serviceName else None).
    assert (forall u sub,
              selected u name sub
              <-> match u with Some u => UserID sub = u | None => True end
                  /\ (serviceName = "" \/ ServiceName sub = serviceName))
      as Hsel.
    { intros u sub. unfold selected, name.
      case_bool_decide as Hname; intuition congruence. }
    case_bool_decide as Hne.
    + destruct Huser as [-> | [u Hparse]]; [done|]. rewrite Hparse.
      eexists. split; [reflexivity|]. split; [apply List_NoDup|].
      intros sub. rewrite List_elem_of. unfold kept.
      setoid_rewrite Hsel. setoid_rewrite Hparse.
      split; intros (id & row & Hrow & -> & Hu & Hn);
        exists id, row; intuition congruence.
    + eexists. split; [reflexivity|]. split; [apply List_NoDup|].
      intros sub. rewrite List_elem_of. unfold kept.
      setoid_rewrite Hsel.
      split; intros (id & row & Hrow & -> & Hu & Hn);
        exists id, row; intuition congruence.
Qed.

End list_properties.

(** ** The properties on the sample data *)

Lemma Mock_total_order_independent_witness :
  time.Parse "01-2024" = Some (Samples.month 1 2024)
  /\ time.Parse "12-2024" = Some (Samples.month 12 2024)
  /\ Samples.in_order ≡ₚ Samples.reversed
  /\ Mock.CalculateTotalCost_loop (Samples.month 1 2024)
       (Samples.month 12 2024) 0
       (Mock.List_loop Examples.userA_text "" Samples.in_order [])
     = Mock.CalculateTotalCost_loop (Samples.month 1 2024)
         (Samples.month 12 2024) 0
         (Mock.List_loop Examples.userA_text "" Samples.reversed []).
Proof.
  assert (Samples.in_order ≡ₚ Samples.reversed) as Hperm by apply perm_swap.
  split; [reflexivity|]. split; [reflexivity|]. split; [exact Hperm|].
  apply (Mock_total_order_independent Examples.userA_text "" "01-2024"
           "12-2024" (Samples.month 1 2024) (Samples.month 12 2024));
    [reflexivity | reflexivity | exact Hperm].
Defined.

Lemma Mock_total_bounded_witness :
  time.Parse "01-2024" = Some (Samples.month 1 2024)
  /\ time.Parse "12-2024" = Some (Samples.month 12 2024)
  /\ time.After (Samples.month 1 2024) (Samples.month 12 2024) = false
  /\ Forall (fun sub => 0 <= Price sub)
       (Mock.List Examples.two_subscriptions "" "")
  /\ exists total,
       Mock.CalculateTotalCost Examples.two_subscriptions "" ""
         "01-2024" "12-2024" = Ok total
       /\ 0 <= total
          <= Views.sum_prices (Mock.List Examples.two_subscriptions "" "")
             * (Views.index (Samples.month 12 2024)
                - Views.index (Samples.month 1 2024) + 1).
Proof.
  assert (Forall (fun sub => 0 <= Price sub)
            (Mock.List Examples.two_subscriptions "" "")) as Hprices.
  { assert (Mock.List Examples.two_subscriptions "" ""
            = [Examples.stored_netflix; Examples.stored_spotify]) as ->
      by reflexivity.
    repeat constructor; discriminate. }
  split; [reflexivity|]. split; [reflexivity|]. split; [reflexivity|].
  split; [exact Hprices|].
  apply (Mock_total_bounded Examples.two_subscriptions "" "" "01-2024"
           "12-2024" (Samples.month 1 2024) (Samples.month 12 2024));
    [reflexivity | reflexivity | reflexivity | exact Hprices |].
  vm_compute. discriminate.
Defined.

Lemma Mock_total_splits_witness :
  time.Parse "01-2024" = Some (Samples.month 1 2024)
  /\ time.Parse "06-2024" = Some (Samples.month 6 2024)
  /\ time.Parse "07-2024" = Some (Samples.month 7 2024)
  /\ time.Parse "12-2024" = Some (Samples.month 12 2024)
  /\ Views.index (Samples.month 7 2024)
     = Views.index (Samples.month 6 2024) + 1
  /\ exists a b,
       Mock.CalculateTotalCost Examples.two_subscriptions "" ""
         "01-2024" "06-2024" = Ok a
       /\ Mock.CalculateTotalCost Examples.two_subscriptions "" ""
            "07-2024" "12-2024" = Ok b
       /\ Mock.CalculateTotalCost Examples.two_subscriptions "" ""
            "01-2024" "12-2024" = Ok (GoInt.add a b).
Proof.
  split; [reflexivity|]. split; [reflexivity|]. split; [reflexivity|].
  split; [reflexivity|]. split; [reflexivity|].
  apply (Mock_total_splits Examples.two_subscriptions "" "" "01-2024"
           "06-2024" "07-2024" "12-2024" (Samples.month 1 2024)
           (Samples.month 6 2024) (Samples.month 7 2024)
           (Samples.month 12 2024)); reflexivity.
Defined.

Lemma Mock_creates_number_the_records_witness :
  Forall (fun p => ID p.2 = 0) Samples.news
  /\ size (Views.run (map (fun p => Views.create p.1 p.2) Samples.news))
     = List.length Samples.news
  /\ Views.run (map (fun p => Views.create p.1 p.2) Samples.news)
       !! strconv.Itoa 2
     = Some (set_UpdatedAt 2 (set_CreatedAt 2 (set_ID 2 Examples.spotify))).
Proof.
  assert (Forall (fun p => ID p.2 = 0) Samples.news) as Hids.
  { repeat constructor. }
  assert (Z.of_nat (List.length Samples.news) <= GoInt.max_int) as Hlen.
  { vm_compute. discriminate. }
  destruct (Mock_creates_number_the_records Samples.news Hids Hlen)
    as (Hsize & Hget & _).
  split; [exact Hids|]. split; [exact Hsize|].
  exact (Hget 1%nat (2, Examples.spotify) eq_refl).
Defined.

Lemma Mock_Update_effect_witness :
  Forall Views.well_typed Samples.creates
  /\ Views.run Samples.creates !! "1" = Some Examples.stored_netflix
  /\ exists new,
       Mock.Update (Views.run Samples.creates) 9 "1" Examples.spotify
       = (<["1" := new]> (Views.run Samples.creates), Ok new)
       /\ ID new = 1
       /\ UpdatedAt new = 9
       /\ CreatedAt new = 0.
Proof.
  assert (Forall Views.well_typed Samples.creates) as Hops.
  { repeat constructor; vm_compute; discriminate. }
  assert (Views.run Samples.creates !! "1" = Some Examples.stored_netflix)
    as Hold by reflexivity.
  split; [exact Hops|]. split; [exact Hold|].
  destruct (Mock_Update_effect Samples.creates 9 "1" Examples.spotify
              Examples.stored_netflix Hops Hold)
    as (new & Hupd & _ & Hid & Hua & _ & Hca & _).
  exists new. split; [exact Hupd|]. split; [exact Hid|].
  split; [exact Hua | exact Hca].
Defined.

Lemma Mock_Delete_effect_witness :
  Examples.two_subscriptions !! "1" = Some Examples.stored_netflix
  /\ Mock.Delete Examples.two_subscriptions "1"
     = (delete "1" Examples.two_subscriptions, None)
  /\ Mock.GetByID (delete "1" Examples.two_subscriptions) "1"
     = Err "subscription not found"
  /\ size Examples.two_subscriptions
     = S (size (delete "1" Examples.two_subscriptions)).
Proof.
  assert (Examples.two_subscriptions !! "1" = Some Examples.stored_netflix)
    as Hold by reflexivity.
  destruct (Mock_Delete_effect Examples.two_subscriptions "1"
              Examples.stored_netflix Hold) as (Hdel & Hget & _ & _ & Hsize).
  split; [exact Hold|]. split; [exact Hdel|]. split; [exact Hget|].
  exact Hsize.
Defined.

Lemma Postgres_CalculateTotalCost_compares_month_first_witness :
  Service.dated Samples.seeded
  /\ time.Parse (CalculateCostRequest.StartPeriod Examples.year_2024)
     = Some (Samples.month 1 2024)
  /\ time.Parse (CalculateCostRequest.EndPeriod Examples.year_2024)
     = Some (Samples.month 12 2024)
  /\ Postgres.CalculateTotalCost (db.subscriptions Samples.seeded)
       Examples.year_2024
     = Ok (Views.sum_prices
             (List.filter
                (Service.active_months (Samples.month 1 2024)
                   (Samples.month 12 2024))
                (Postgres.List (db.subscriptions Samples.seeded) None None))).
Proof.
  assert (Service.dated Samples.seeded) as Hd.
  { apply (bool_decide_unpack _). vm_compute. exact I. }
  split; [exact Hd|]. split; [reflexivity|]. split; [reflexivity|].
  apply (Postgres_CalculateTotalCost_compares_month_first Samples.seeded
           Examples.year_2024 (Samples.month 1 2024) (Samples.month 12 2024));
    [exact Hd | reflexivity | reflexivity].
Defined.

Lemma Service_keeps_dates_readable_witness :
  Service.dated Samples.seeded
  /\ Service.dated (db.RunMigrations (Some Samples.seeded) Examples.userA
                      Samples.userB 30)
  /\ Service.dated (Service.serve Samples.seeded Samples.requests).1.
Proof.
  assert (Service.dated Samples.seeded) as Hd.
  { apply (bool_decide_unpack _). vm_compute. exact I. }
  split; [exact Hd|].
  apply (Service_keeps_dates_readable Samples.seeded Samples.requests
           Examples.userA Samples.userB 30 Hd).
Defined.

Lemma Service_never_reuses_an_id_witness :
  Service.fresh Samples.seeded
  /\ Service.created_ids (Service.serve Samples.seeded Samples.requests).2
     = [4; 5]
  /\ StronglySorted Z.lt
       (Service.created_ids
          (Service.serve Samples.seeded Samples.requests).2).
Proof.
  assert (Service.fresh Samples.seeded) as Hd.
  { apply (bool_decide_unpack _). vm_compute. exact I. }
  split; [exact Hd|]. split; [reflexivity|].
  exact (proj1 (proj2 (Service_never_reuses_an_id Samples.seeded
                         Samples.requests Hd))).
Defined.

Lemma handlers_Create_then_Get_witness :
  GoInt.in_range (db.subscriptions_id_seq Samples.seeded)
  /\ (handlers.Create Samples.seeded 10 (Ok Samples.netflix)).2
     = {| handlers.status := handlers.StatusCreated;
          handlers.body := handlers.subscription_body Samples.created |}
  /\ handlers.Get (handlers.Create Samples.seeded 10 (Ok Samples.netflix)).1
       (strconv.Itoa (ID Samples.created))
     = {| handlers.status := handlers.StatusOK;
          handlers.body := handlers.subscription_body Samples.created |}.
Proof.
  assert (GoInt.in_range (db.subscriptions_id_seq Samples.seeded)) as Hseq.
  { vm_compute. split; discriminate. }
  assert ((handlers.Create Samples.seeded 10 (Ok Samples.netflix)).2
          = {| handlers.status := handlers.StatusCreated;
               handlers.body := handlers.subscription_body Samples.created |})
    as Hresp by reflexivity.
  split; [exact Hseq|]. split; [exact Hresp|].
  destruct (handlers_Create_then_Get Samples.seeded 10 (Ok Samples.netflix)
              Samples.created Hseq Hresp)
    as (req & _ & _ & _ & _ & _ & _ & _ & _ & Hget & _).
  exact Hget.
Defined.

Lemma Mock_Create_effect_witness :
  Examples.one_subscription
    !! strconv.Itoa (ID (Mock.Create Examples.one_subscription 2
                           Examples.spotify).2) = None
  /\ size (Mock.Create Examples.one_subscription 2 Examples.spotify).1
     = S (size Examples.one_subscription)
  /\ is_Some (Examples.two_subscriptions
                !! strconv.Itoa (ID (Mock.Create Examples.two_subscriptions 3
                                       Samples.second_again).2))
  /\ size (Mock.Create Examples.two_subscriptions 3 Samples.second_again).1
     = size Examples.two_subscriptions.
Proof.
  assert (Examples.one_subscription
            !! strconv.Itoa (ID (Mock.Create Examples.one_subscription 2
                                   Examples.spotify).2) = None)
    as Hfree by reflexivity.
  assert (is_Some (Examples.two_subscriptions
                     !! strconv.Itoa
                          (ID (Mock.Create Examples.two_subscriptions 3
                                 Samples.second_again).2)))
    as Htaken by (eexists; reflexivity).
  destruct (Mock_Create_effect Examples.one_subscription 2 Examples.spotify)
    as (_ & _ & Hgrow & _).
  destruct (Mock_Create_effect Examples.two_subscriptions 3
              Samples.second_again) as (_ & _ & _ & Hsame).
  split; [exact Hfree|]. split; [exact (Hgrow Hfree)|].
  split; [exact Htaken | exact (Hsame Htaken)].
Defined.

Lemma datePattern_matches_what_Parse_reads_witness :
  regexp.MatchString validation.datePattern "01-2024" = true
  /\ regexp.MatchString validation.datePattern "13-2024" <> true
  /\ regexp.MatchString validation.datePattern "2024-01" <> true.
Proof.
  split; [|split].
  - apply (proj2 (datePattern_matches_what_Parse_reads "01-2024")).
    exists (Samples.month 1 2024). split; [reflexivity|]. simpl. lia.
  - intros Hm.
    destruct (proj1 (datePattern_matches_what_Parse_reads "13-2024") Hm)
      as (t & Ht & _). discriminate Ht.
  - intros Hm.
    destruct (proj1 (datePattern_matches_what_Parse_reads "2024-01") Hm)
      as (t & Ht & _). discriminate Ht.
Defined.

Lemma Validate_accepts_readable_dates_witness :
  validation.Validate_CreateSubscriptionRequest Samples.netflix = None
  /\ validation.Validate_UpdateSubscriptionRequest Examples.only_price = None
  /\ validation.Validate_CalculateCostRequest Examples.year_2024 = None.
Proof.
  destruct (Validate_accepts_readable_dates Samples.netflix
              Examples.only_price Examples.year_2024) as (Hc & Hu & Hq).
  split; [|split].
  - apply (proj2 Hc). split; [eexists; reflexivity | discriminate].
  - apply (proj2 Hu). split; [left; reflexivity | discriminate].
  - apply (proj2 Hq). split; eexists; reflexivity.
Defined.

Lemma RunMigrations_seeds_an_empty_table_witness :
  size (db.subscriptions Samples.seeded) = 3%nat
  /\ db.subscriptions_id_seq Samples.seeded = 4
  /\ db.RunMigrations (Some Samples.seeded) Samples.userB Examples.userA 30
     = Samples.seeded
  /\ Service.fresh Samples.seeded
  /\ Service.dated Samples.seeded.
Proof.
  destruct (RunMigrations_seeds_an_empty_table None Examples.userA
              Samples.userB 0 Samples.userB Examples.userA 30)
    as (_ & Hrows & _ & Hagain & Hinv).
  destruct (Hrows eq_refl) as (Hsize & Hseq & _).
  destruct (Hinv eq_refl) as (Hfresh & Hdated).
  split; [exact Hsize|]. split; [exact Hseq|]. split; [exact Hagain|].
  split; [exact Hfresh | exact Hdated].
Defined.

Lemma handlers_Update_outcome_witness :
  handlers.status
    (handlers.Update Samples.seeded 30 "1" (Ok Examples.only_price)).2
  = handlers.StatusOK
  /\ exists s,
       handlers.body
         (handlers.Update Samples.seeded 30 "1" (Ok Examples.only_price)).2
       = handlers.subscription_body s
       /\ ID s = 1 /\ Price s = 650 /\ ServiceName s = "Netflix"
       /\ EndDate s = None /\ CreatedAt s = 0 /\ UpdatedAt s = 30.
Proof.
  assert (handlers.status
            (handlers.Update Samples.seeded 30 "1" (Ok Examples.only_price)).2
          = handlers.StatusOK) as Hok by reflexivity.
  split; [exact Hok|].
  destruct (handlers_Update_outcome Samples.seeded 30 "1"
              (Ok Examples.only_price)) as (_ & _ & Hrow).
  destruct (Hrow Hok)
    as (id & req & old & s & Hid & Hreq & _ & Hold & Hbody & Hs & Hn & Hp
        & _ & _ & He & Hc & Hu & _).
  injection Hid as <-. injection Hreq as <-.
  injection Hold as <-.
  exists s. split; [exact Hbody|]. split; [rewrite Hs; reflexivity|].
  split; [rewrite Hp; reflexivity|]. split; [rewrite Hn; reflexivity|].
  split; [rewrite He; reflexivity|].
  split; [rewrite Hc; reflexivity | exact Hu].
Defined.

Lemma handlers_Delete_outcome_witness :
  handlers.status (handlers.Delete Samples.seeded "1").2
  = handlers.StatusNoContent
  /\ handlers.Get (handlers.Delete Samples.seeded "1").1 "1"
     = handlers.error handlers.StatusNotFound "Subscription not found"
  /\ db.subscriptions_id_seq (handlers.Delete Samples.seeded "1").1 = 4.
Proof.
  assert (handlers.status (handlers.Delete Samples.seeded "1").2
          = handlers.StatusNoContent) as Hok by reflexivity.
  split; [exact Hok|].
  destruct (handlers_Delete_outcome Samples.seeded "1") as (_ & Hrow).
  destruct (Hrow Hok) as (id & row & _ & _ & _ & Hseq & Hget & _).
  split; [exact Hget | exact Hseq].
Defined.

Lemma handlers_CalculateTotalCost_status_witness :
  handlers.status
    (handlers.CalculateTotalCost Samples.seeded (Ok Examples.year_2024)
       Examples.userA_text "")
  = handlers.StatusOK
  /\ handlers.status
       (handlers.CalculateTotalCost Samples.seeded (Ok Examples.year_2024)
          "no identifier" "")
     = handlers.StatusBadRequest.
Proof.
  split.
  - apply (proj1 (handlers_CalculateTotalCost_status Samples.seeded
                    Examples.year_2024 Examples.userA_text "")).
    split; [eexists; reflexivity|]. split; [eexists; reflexivity|].
    right. eexists; reflexivity.
  - apply (proj2 (handlers_CalculateTotalCost_status Samples.seeded
                    Examples.year_2024 "no identifier" "")).
    discriminate.
Defined.

Lemma handlers_List_outcome_witness :
  handlers.List Samples.seeded "no identifier" ""
  = handlers.error handlers.StatusBadRequest "Invalid user ID format"
  /\ exists l,
       handlers.List Samples.seeded Examples.userA_text "Netflix"
       = {| handlers.status := handlers.StatusOK;
            handlers.body := handlers.subscriptions_body l |}
       /\ NoDup l.
Proof.
  split.
  - apply (proj1 (handlers_List_outcome Samples.seeded "no identifier" "")).
    split; [discriminate | reflexivity].
  - destruct (proj2 (handlers_List_outcome Samples.seeded
                       Examples.userA_text "Netflix"))
      as (l & Hl & Hnodup & _); [right; eexists; reflexivity|].
    exists l. split; [exact Hl | exact Hnodup].
Defined.
